(** * drivers/raw/ioat/idxd_pci.c: the PCI control plane of the IDXD rawdev driver

    A shallow embedding of [idxd_pci.c] and the properties of its command
    executor, topology configuration, probe and removal paths.

    The C code runs against memory-mapped registers, a heap and the rawdev
    registry.  All of them are gathered in one explicit [world] that the
    functions thread through a small state-and-fault monad.  Operations whose
    behaviour C leaves undefined (division by zero, a shift count at least as
    wide as the type, a NULL dereference) end in a [Fault]. *)

From Stdlib Require Import ZArith List Bool Lia String DecimalString.
Import ListNotations.
Local Open Scope Z_scope.

(** ** Fixed-width integers *)

Definition uint8 (x : Z) : Z := x mod 2 ^ 8.
Definition uint16 (x : Z) : Z := x mod 2 ^ 16.
Definition uint32 (x : Z) : Z := x mod 2 ^ 32.
Definition uint64 (x : Z) : Z := x mod 2 ^ 64.

(** [a << n] on [int]: defined when the count is in range and the result is
    representable. *)
Definition shl_int (a n : Z) : option Z :=
  if (0 <=? n) && (n <? 32) && (Z.shiftl a n <? 2 ^ 31)
  then Some (Z.shiftl a n) else None.

(** [a << n] on [unsigned long long]: defined when the count is below 64. *)
Definition shl_ull (a n : Z) : option Z :=
  if (0 <=? n) && (n <? 64) then Some (uint64 (Z.shiftl a n)) else None.

(** ** The constants of ioat_spec.h

    The driver takes these constants from [ioat_spec.h] and
    [ioat_private.h], which it includes.  Their values are not fixed here:
    they are parameters of the development. *)

Record ioat_spec := {
  IDXD_CMD_SHIFT : Z;
  (* enum rte_idxd_cmds: the enumerators the driver names *)
  idxd_enable_dev : Z;
  idxd_disable_dev : Z;
  idxd_disable_wq : Z;
  idxd_reset_wq : Z;
  GENSTS_DEV_STATE_MASK : Z;
  CMDSTATUS_ACTIVE_MASK : Z;
  CMDSTATUS_ERR_MASK : Z;
  (* word indices into the 32-bit words of a queue-config entry *)
  WQ_SIZE_IDX : Z;
  WQ_MODE_IDX : Z;
  WQ_SIZES_IDX : Z;
  WQ_STATE_IDX : Z;
  WQ_MODE_DEDICATED : Z;
  WQ_PRIORITY_SHIFT : Z;
  WQ_BATCH_SZ_SHIFT : Z;
  WQ_STATE_SHIFT : Z;
  WQ_STATE_MASK : Z
}.

(** each portal uses 4 x 4k pages *)
Definition IDXD_PORTAL_SIZE : Z := 4096 * 4.

Definition EINVAL : Z := 22.

(** ** Registers, heap and registry *)

(** struct rte_idxd_grpcfg: [grpwqcfg] is an array of 64-bit words. *)
Record rte_idxd_grpcfg := mk_grpcfg {
  grpwqcfg : Z -> Z;
  grpengcfg : Z;
  grpflags : Z
}.

(** struct rte_idxd_wqcfg: an array of 32-bit words. *)
Record rte_idxd_wqcfg := mk_wqcfg {
  wqcfg : Z -> Z
}.

Definition upd {A : Type} (f : Z -> A) (k : Z) (v : A) : Z -> A :=
  fun j => if j =? k then v else f j.

(** The fields of struct idxd_rawdev that the PCI code touches.  [u.pci]
    points at the one [struct idxd_pci_common] of the device, which lives in
    the [world]: every handle shares it. *)
Record idxd_rawdev := mk_idxd {
  qid : Z;          (* uint8_t qid *)
  portal : Z;       (* public.portal, as a byte offset into BAR2 *)
  max_batches : Z   (* uint16_t max_batches *)
}.

Record rte_rawdev := mk_rawdev {
  dev_name : string;
  dev_private : option idxd_rawdev
}.

Inductive resource :=
| PciCommon                      (* the malloc'ed struct idxd_pci_common *)
| BatchRing (dev : string)       (* public.batch_ring of a handle *)
| HdlRing (dev : string)         (* public.hdl_ring of a handle *)
| Memzone (dev : string).        (* mz of a handle *)

Inductive mmio_reg :=
| REG_cmd
| REG_grpengcfg (g : Z)
| REG_grpwqcfg (g k : Z)
| REG_wqcfg (q k : Z).

(** The IOAT_PMD_ERR messages (debug and info output is not modelled). *)
Inductive log_msg :=
| ERR_timeout                    (* Timeout waiting for command response from HW *)
| ERR_alloc                      (* Can't allocate memory *)
| ERR_not_disabled               (* Device status is not disabled, cannot init *)
| ERR_cmd_in_progress            (* Device has a command in progress, cannot init *)
| ERR_enabling (code : Z)        (* Error enabling device: code .. *)
| ERR_init_hw                    (* Error initializing PCI hardware *)
| ERR_wq_enabled (q : Z)         (* Error, WQ .. seems enabled *)
| ERR_create (name : string)     (* Failed to create rawdev .. *)
| ERR_no_name                    (* Invalid device name *)
| ERR_bad_name (name : string)   (* Invalid device name (..) *)
| ERR_disabling (code : Z).      (* Error disabling device: code .. *)

Record world := mk_world {
  (* what the environment answers *)
  malloc_ok : bool;              (* does malloc(sizeof( *pci)) succeed *)
  cmdstatus : nat -> Z;          (* the value the n-th read of regs->cmdstatus yields *)
  create_ret : string -> Z;      (* the result of idxd_rawdev_create, by name *)
  release_ret : string -> Z;     (* the result of rte_rawdev_pmd_release, by name *)
  (* BAR0 *)
  gensts : Z;
  gencap : Z;
  wqcap : Z;
  grpcap : Z;
  engcap : Z;
  cmd : Z;
  status_reads : nat;            (* reads of regs->cmdstatus made so far *)
  grp_regs : Z -> rte_idxd_grpcfg;
  wq_regs : Z -> rte_idxd_wqcfg;
  (* the process *)
  lk : bool;                     (* pci->lk is held *)
  heap : list resource;          (* live allocations *)
  rawdevs : list rte_rawdev;     (* the rawdev registry, newest first *)
  (* what an observer sees *)
  writes : list (mmio_reg * Z);  (* register writes, newest first *)
  pauses : nat;                  (* calls of rte_pause *)
  log : list log_msg             (* error messages, newest first *)
}.

Definition set_cmd (v : Z) (w : world) : world :=
  mk_world (malloc_ok w) (cmdstatus w) (create_ret w) (release_ret w)
    (gensts w) (gencap w) (wqcap w) (grpcap w) (engcap w)
    v (status_reads w) (grp_regs w) (wq_regs w)
    (lk w) (heap w) (rawdevs w) ((REG_cmd, v) :: writes w) (pauses w) (log w).

Definition set_status_reads (n : nat) (w : world) : world :=
  mk_world (malloc_ok w) (cmdstatus w) (create_ret w) (release_ret w)
    (gensts w) (gencap w) (wqcap w) (grpcap w) (engcap w)
    (cmd w) n (grp_regs w) (wq_regs w)
    (lk w) (heap w) (rawdevs w) (writes w) (pauses w) (log w).

Definition set_grp (r : mmio_reg) (v : Z) (g : Z -> rte_idxd_grpcfg) (w : world) : world :=
  mk_world (malloc_ok w) (cmdstatus w) (create_ret w) (release_ret w)
    (gensts w) (gencap w) (wqcap w) (grpcap w) (engcap w)
    (cmd w) (status_reads w) g (wq_regs w)
    (lk w) (heap w) (rawdevs w) ((r, v) :: writes w) (pauses w) (log w).

Definition set_wq (r : mmio_reg) (v : Z) (q : Z -> rte_idxd_wqcfg) (w : world) : world :=
  mk_world (malloc_ok w) (cmdstatus w) (create_ret w) (release_ret w)
    (gensts w) (gencap w) (wqcap w) (grpcap w) (engcap w)
    (cmd w) (status_reads w) (grp_regs w) q
    (lk w) (heap w) (rawdevs w) ((r, v) :: writes w) (pauses w) (log w).

Definition set_lk (b : bool) (w : world) : world :=
  mk_world (malloc_ok w) (cmdstatus w) (create_ret w) (release_ret w)
    (gensts w) (gencap w) (wqcap w) (grpcap w) (engcap w)
    (cmd w) (status_reads w) (grp_regs w) (wq_regs w)
    b (heap w) (rawdevs w) (writes w) (pauses w) (log w).

Definition set_heap (h : list resource) (w : world) : world :=
  mk_world (malloc_ok w) (cmdstatus w) (create_ret w) (release_ret w)
    (gensts w) (gencap w) (wqcap w) (grpcap w) (engcap w)
    (cmd w) (status_reads w) (grp_regs w) (wq_regs w)
    (lk w) h (rawdevs w) (writes w) (pauses w) (log w).

Definition set_rawdevs (l : list rte_rawdev) (w : world) : world :=
  mk_world (malloc_ok w) (cmdstatus w) (create_ret w) (release_ret w)
    (gensts w) (gencap w) (wqcap w) (grpcap w) (engcap w)
    (cmd w) (status_reads w) (grp_regs w) (wq_regs w)
    (lk w) (heap w) l (writes w) (pauses w) (log w).

Definition set_pauses (n : nat) (w : world) : world :=
  mk_world (malloc_ok w) (cmdstatus w) (create_ret w) (release_ret w)
    (gensts w) (gencap w) (wqcap w) (grpcap w) (engcap w)
    (cmd w) (status_reads w) (grp_regs w) (wq_regs w)
    (lk w) (heap w) (rawdevs w) (writes w) n (log w).

Definition set_log (l : list log_msg) (w : world) : world :=
  mk_world (malloc_ok w) (cmdstatus w) (create_ret w) (release_ret w)
    (gensts w) (gencap w) (wqcap w) (grpcap w) (engcap w)
    (cmd w) (status_reads w) (grp_regs w) (wq_regs w)
    (lk w) (heap w) (rawdevs w) (writes w) (pauses w) l.

(** ** The state-and-fault monad *)

Inductive fault :=
| DivisionByZero
| ModuloByZero
| ShiftCount
| NullPointer
| OutOfFuel.

Inductive res (A : Type) :=
| Ret (a : A) (w : world)
| Fault (f : fault).
Arguments Ret {A} a w.
Arguments Fault {A} f.

Definition M (A : Type) : Type := world -> res A.

Definition ret {A} (a : A) : M A := fun w => Ret a w.
Definition fail {A} (f : fault) : M A := fun _ => Fault f.
Definition bind {A B} (m : M A) (k : A -> M B) : M B :=
  fun w => match m w with
           | Ret a w' => k a w'
           | Fault f => Fault f
           end.
Definition modify (f : world -> world) : M unit := fun w => Ret tt (f w).
Definition gets {A} (f : world -> A) : M A := fun w => Ret (f w) w.
Definition lift {A} (f : fault) (o : option A) : M A :=
  match o with Some a => ret a | None => fail f end.

Notation "x <- m ;; k" := (bind m (fun x => k))
  (at level 61, m at next level, right associativity).
Notation "m ;; k" := (bind m (fun _ => k))
  (at level 61, right associativity).

(** [for (i = lo; <n more iterations>; i++) body(i)] *)
Fixpoint for_loop (n : nat) (i : Z) (body : Z -> M unit) : M unit :=
  match n with
  | O => ret tt
  | S n' => body i ;; for_loop n' (i + 1) body
  end.

(** ** Primitive effects *)

Definition rte_pause : M unit := modify (fun w => set_pauses (S (pauses w)) w).
Definition rte_spinlock_lock : M unit := modify (set_lk true).
Definition rte_spinlock_unlock : M unit := modify (set_lk false).
Definition rte_spinlock_init : M unit := modify (set_lk false).
Definition IOAT_PMD_ERR (m : log_msg) : M unit := modify (fun w => set_log (m :: log w) w).

(** A read of the volatile [regs->cmdstatus] (a uint32_t). *)
Definition read_cmdstatus : M Z :=
  fun w => Ret (uint32 (cmdstatus w (status_reads w)))
               (set_status_reads (S (status_reads w)) w).

Definition write_cmd (v : Z) : M unit := modify (set_cmd v).

Section Driver.

Variable h : ioat_spec.

(** ** idxd_pci_dev_command *)

(** The test [command >= idxd_disable_wq && command <= idxd_reset_wq]. *)
Definition wq_command (command : Z) : bool :=
  (idxd_disable_wq h <=? command) && (command <=? idxd_reset_wq h).

(** The do-while loop; [i] is the C variable, [fuel] bounds the unfolding. *)
Fixpoint poll (fuel : nat) (i : Z) : M Z :=
  match fuel with
  | O => fail OutOfFuel
  | S fuel' =>
      rte_pause ;;
      st <- read_cmdstatus ;;
      let err_code := uint8 st in
      let i := i + 1 in
      if 1000 <=? i then
        IOAT_PMD_ERR ERR_timeout ;;
        rte_spinlock_unlock ;;
        ret err_code
      else
        st' <- read_cmdstatus ;;
        if Z.land st' (CMDSTATUS_ACTIVE_MASK h) =? 0 then
          rte_spinlock_unlock ;;
          ret (Z.land err_code (CMDSTATUS_ERR_MASK h))
        else poll fuel' i
  end.

(** The value of the local [uint16_t qid] when the command is written. *)
Definition cmd_target (idxd : idxd_rawdev) (command : Z) : option Z :=
  let q := uint16 (qid idxd) in
  if wq_command command
  then option_map uint16 (shl_int 1 q)
  else Some q.

Definition idxd_pci_dev_command (idxd : idxd_rawdev) (command : Z) : M Z :=
  q <- lift ShiftCount (cmd_target idxd command) ;;
  rte_spinlock_lock ;;
  write_cmd (uint32 (Z.lor (Z.shiftl command (IDXD_CMD_SHIFT h)) q)) ;;
  poll 1000 0.

(** ** Heap and register-table accessors *)

Definition resource_eqb (a b : resource) : bool :=
  match a, b with
  | PciCommon, PciCommon => true
  | BatchRing x, BatchRing y => String.eqb x y
  | HdlRing x, HdlRing y => String.eqb x y
  | Memzone x, Memzone y => String.eqb x y
  | _, _ => false
  end.

Definition live (r : resource) (w : world) : bool :=
  existsb (resource_eqb r) (heap w).

(** [pci = malloc(sizeof( *pci))]; the result says whether [pci != NULL]. *)
Definition malloc_pci : M bool :=
  fun w => if malloc_ok w
           then Ret true (set_heap (PciCommon :: heap w) w)
           else Ret false w.

Definition free (r : resource) : M unit :=
  modify (fun w => set_heap (filter (fun x => negb (resource_eqb r x)) (heap w)) w).

Definition write_grpengcfg (g v : Z) : M unit :=
  modify (fun w =>
    let e := grp_regs w g in
    set_grp (REG_grpengcfg g) v
      (upd (grp_regs w) g (mk_grpcfg (grpwqcfg e) v (grpflags e))) w).

Definition write_grpwqcfg (g k v : Z) : M unit :=
  modify (fun w =>
    let e := grp_regs w g in
    set_grp (REG_grpwqcfg g k) v
      (upd (grp_regs w) g (mk_grpcfg (upd (grpwqcfg e) k v) (grpengcfg e) (grpflags e))) w).

Definition write_wqcfg (q k v : Z) : M unit :=
  modify (fun w =>
    set_wq (REG_wqcfg q k) v
      (upd (wq_regs w) q (mk_wqcfg (upd (wqcfg (wq_regs w q)) k v))) w).

(** [a / b] and [a % b] on non-negative operands. *)
Definition c_div (a b : Z) : option Z := if b =? 0 then None else Some (a / b).
Definition c_mod (a b : Z) : option Z := if b =? 0 then None else Some (a mod b).

(** ** idxd_is_wq_enabled *)

Definition idxd_is_wq_enabled (idxd : idxd_rawdev) : M bool :=
  state <- gets (fun w => uint32 (wqcfg (wq_regs w (qid idxd)) (WQ_STATE_IDX h))) ;;
  ret (Z.land (Z.shiftr state (WQ_STATE_SHIFT h)) (WQ_STATE_MASK h) =? 1).

(** ** init_pci_device

    The computation of the table addresses from [regs->offsets[0]] is left
    out: the group table and the queue table are the two maps [grp_regs] and
    [wq_regs] of the world.  The capability registers do not change while the
    driver runs, so each is a field of the world. *)

(** The capability fields as [init_pci_device] reads them. *)
Definition cap_groups (w : world) : Z := uint8 (grpcap w).
Definition cap_engines (w : world) : Z := uint8 (engcap w).
Definition cap_queues (w : world) : Z := uint8 (Z.shiftr (uint64 (wqcap w)) 16).
Definition cap_depth (w : world) : Z := uint16 (wqcap w).
Definition cap_copy_exp (w : world) : Z := Z.land (uint8 (Z.shiftr (uint64 (gencap w)) 16)) 31.
Definition cap_batch_exp (w : world) : Z := Z.land (uint8 (Z.shiftr (uint64 (gencap w)) 21)) 15.

(** The values written to the mode and size-limit words of every queue. *)
Definition wq_mode_word : Z :=
  uint32 (Z.lor (Z.shiftl 1 (WQ_PRIORITY_SHIFT h)) (WQ_MODE_DEDICATED h)).
Definition wq_sizes_word (lg2_max_copy_size lg2_max_batch : Z) : Z :=
  uint32 (Z.lor lg2_max_copy_size (Z.shiftl lg2_max_batch (WQ_BATCH_SZ_SHIFT h))).

(** The configuration part of [init_pci_device], from "zero out any old
    config" to the end of the queue loop; it yields [wq_size]. *)
Definition configure_device
    (nb_groups nb_engines nb_wqs total_wq_size lg2_max_copy_size lg2_max_batch : Z) : M Z :=
  (* zero out any old config *)
  for_loop (Z.to_nat nb_groups) 0 (fun i =>
    write_grpengcfg i 0 ;;
    write_grpwqcfg i 0 0) ;;
  for_loop (Z.to_nat nb_wqs) 0 (fun i =>
    write_wqcfg i 0 0) ;;
  (* put each engine into a separate group to avoid reordering *)
  let nb_groups := if nb_engines <? nb_groups then nb_engines else nb_groups in
  let nb_engines := if nb_groups <? nb_engines then nb_groups else nb_engines in
  (* assign engines to groups, round-robin style *)
  for_loop (Z.to_nat nb_engines) 0 (fun i =>
    g <- lift ModuloByZero (c_mod i nb_groups) ;;
    b <- lift ShiftCount (shl_ull 1 i) ;;
    old <- gets (fun w => grpengcfg (grp_regs w g)) ;;
    write_grpengcfg g (uint64 (Z.lor old b))) ;;
  (* now do the same for queues and give work slots to each queue *)
  wq_size <- lift DivisionByZero (c_div total_wq_size nb_wqs) ;;
  let wq_size := uint16 wq_size in
  for_loop (Z.to_nat nb_wqs) 0 (fun i =>
    g <- lift ModuloByZero (c_mod i nb_groups) ;;
    b <- lift ShiftCount (shl_ull 1 i) ;;
    old <- gets (fun w => grpwqcfg (grp_regs w g) 0) ;;
    write_grpwqcfg g 0 (uint64 (Z.lor old b)) ;;
    (* now configure it, in terms of size, max batch, mode *)
    write_wqcfg i (WQ_SIZE_IDX h) wq_size ;;
    write_wqcfg i (WQ_MODE_IDX h) wq_mode_word ;;
    write_wqcfg i (WQ_SIZES_IDX h) (wq_sizes_word lg2_max_copy_size lg2_max_batch)) ;;
  ret wq_size.

Definition init_pci_device (idxd : idxd_rawdev) : M (Z * idxd_rawdev) :=
  pci <- malloc_pci ;;
  if negb pci then
    IOAT_PMD_ERR ERR_alloc ;;
    ret (-1, idxd)                                   (* err: free(NULL) *)
  else
    rte_spinlock_init ;;
    (* sanity check device status *)
    sts <- gets (fun w => uint32 (gensts w)) ;;
    if negb (Z.land sts (GENSTS_DEV_STATE_MASK h) =? 0) then
      IOAT_PMD_ERR ERR_not_disabled ;;
      free PciCommon ;;
      ret (-1, idxd)
    else
    st <- read_cmdstatus ;;
    if negb (Z.land st (CMDSTATUS_ACTIVE_MASK h) =? 0) then
      IOAT_PMD_ERR ERR_cmd_in_progress ;;
      free PciCommon ;;
      ret (-1, idxd)
    else
    (* read basic info about the hardware for use when configuring *)
    nb_groups <- gets cap_groups ;;
    nb_engines <- gets cap_engines ;;
    nb_wqs <- gets cap_queues ;;
    total_wq_size <- gets cap_depth ;;
    lg2_max_copy_size <- gets cap_copy_exp ;;
    lg2_max_batch <- gets cap_batch_exp ;;
    wq_size <- configure_device nb_groups nb_engines nb_wqs total_wq_size
                 lg2_max_copy_size lg2_max_batch ;;
    (* idxd->u.pci = pci; idxd->max_batches = wq_size; *)
    let idxd := mk_idxd (qid idxd) (portal idxd) wq_size in
    (* enable the device itself *)
    err_code <- idxd_pci_dev_command idxd (idxd_enable_dev h) ;;
    if negb (err_code =? 0) then
      IOAT_PMD_ERR (ERR_enabling err_code) ;;
      ret (err_code, idxd)
    else
      ret (nb_wqs, idxd).

(** ** idxd_rawdev_create and rte_rawdev_pmd_release *)

(** Modelled from the spec: [idxd_rawdev_create] is defined in the common
    part of the driver, which is not among the sources.  The spec has one
    queue handle created per queue, referencing (never owning) the shared
    registers, with the data-plane rings attached by the external
    collaborator.  The environment decides the result; on 0 a rawdev of that
    name is registered with a copy of the template as private data and its
    batch ring, handle ring and memzone allocated; otherwise nothing is
    registered. *)
Definition idxd_rawdev_create (name : string) (base : idxd_rawdev) : M Z :=
  r <- gets (fun w => create_ret w name) ;;
  if r =? 0 then
    modify (fun w =>
      set_heap (BatchRing name :: HdlRing name :: Memzone name :: heap w)
        (set_rawdevs (mk_rawdev name (Some base) :: rawdevs w) w)) ;;
    ret 0
  else ret r.

(** [rte_rawdev_pmd_get_named_dev] *)
Definition rte_rawdev_pmd_get_named_dev (name : string) (w : world) : option rte_rawdev :=
  find (fun d => String.eqb (dev_name d) name) (rawdevs w).

(** Modelled from the spec: [rte_rawdev_pmd_release] belongs to the rawdev
    library, which is not among the sources.  The spec has it remove the
    generic device registration.  The environment decides the result; on 0
    the device leaves the registry. *)
Definition rte_rawdev_pmd_release (name : string) : M Z :=
  r <- gets (fun w => release_ret w name) ;;
  if r =? 0 then
    modify (fun w =>
      set_rawdevs (filter (fun d => negb (String.eqb (dev_name d) name)) (rawdevs w)) w) ;;
    ret 0
  else ret r.

(** [rdev->dev_private = NULL] *)
Definition clear_dev_private (name : string) : M unit :=
  modify (fun w =>
    set_rawdevs
      (map (fun d => if String.eqb (dev_name d) name then mk_rawdev (dev_name d) None else d)
           (rawdevs w)) w).

(** ** idxd_rawdev_probe_pci *)

(** [snprintf(qname, sizeof(qname), "%s-q%d", name, qid)]; a PCI device name
    and a queue number fit the 32 characters, so nothing is cut. *)
Definition qname (name : string) (qid : Z) : string :=
  (name ++ "-q" ++ NilZero.string_of_int (Z.to_int qid))%string.

(** The loop [for (qid = 0; qid < nb_wqs; qid++)] with [n] iterations left. *)
Fixpoint probe_queues (name : string) (n : nat) (qid : Z) (idxd : idxd_rawdev) : M Z :=
  match n with
  | O => ret 0
  | S n' =>
      (* idxd.qid = qid; idxd.public.portal = portals + qid * IDXD_PORTAL_SIZE *)
      let idxd := mk_idxd (uint8 qid) (qid * IDXD_PORTAL_SIZE) (max_batches idxd) in
      en <- idxd_is_wq_enabled idxd ;;
      (if en : bool then IOAT_PMD_ERR (ERR_wq_enabled qid) else ret tt) ;;
      r <- idxd_rawdev_create (qname name qid) idxd ;;
      if negb (r =? 0) then
        IOAT_PMD_ERR (ERR_create name) ;;
        (* if no devices using this, free pci *)
        (if qid =? 0 then free PciCommon else ret tt) ;;
        ret r
      else probe_queues name n' (qid + 1) idxd
  end.

Definition idxd_rawdev_probe_pci (name : string) : M Z :=
  let idxd := mk_idxd 0 0 0 in
  r <- init_pci_device idxd ;;
  let '(ret_, idxd) := r in
  if ret_ <? 0 then
    IOAT_PMD_ERR ERR_init_hw ;;
    ret ret_
  else
    let nb_wqs := uint8 ret_ in
    (* set up one device for each queue *)
    probe_queues name (Z.to_nat nb_wqs) 0 idxd.

(** ** idxd_rawdev_destroy and idxd_rawdev_remove_pci *)

Definition idxd_rawdev_destroy (name : option string) : M Z :=
  match name with
  | None =>
      IOAT_PMD_ERR ERR_no_name ;;
      ret (- EINVAL)
  | Some name =>
      rdev <- gets (rte_rawdev_pmd_get_named_dev name) ;;
      match rdev with
      | None =>
          IOAT_PMD_ERR (ERR_bad_name name) ;;
          ret (- EINVAL)
      | Some rdev =>
          (* idxd = rdev->dev_private, dereferenced by the command *)
          idxd <- lift NullPointer (dev_private rdev) ;;
          (* disable the device *)
          r <- idxd_pci_dev_command idxd (idxd_disable_dev h) ;;
          let err_code := uint8 r in
          if negb (err_code =? 0) then
            IOAT_PMD_ERR (ERR_disabling err_code) ;;
            ret err_code
          else
            (* free device memory; rdev->dev_private != NULL holds here *)
            clear_dev_private (dev_name rdev) ;;
            free (BatchRing (dev_name rdev)) ;;
            free (HdlRing (dev_name rdev)) ;;
            free (Memzone (dev_name rdev)) ;;
            (* rte_rawdev_close is called by pmd_release *)
            rte_rawdev_pmd_release (dev_name rdev) ;;
            ret 0
      end
  end.

Definition idxd_rawdev_remove_pci (name : string) : M Z :=
  idxd_rawdev_destroy (Some name).

End Driver.

Arguments uint8 : simpl never.
Arguments uint16 : simpl never.
Arguments uint32 : simpl never.
Arguments uint64 : simpl never.

(** ** The classes of commands *)




(** ** Concrete headers and devices for the worked examples *)

(** Modelled from the spec: a header instance for the worked examples, since
    [ioat_spec.h] is not among the sources.  The spec gives the command shift
    (the register value is [(opcode << 8) | target]), an active bit in the
    command-status word, the error code in its low bits, a state field in the
    device status, priority value 1 and dedicated mode; the remaining numbers
    (opcode values, word indices, shifts) are one choice that fits. *)
Definition spr_spec : ioat_spec := {|
  IDXD_CMD_SHIFT := 8;
  idxd_enable_dev := 1;
  idxd_disable_dev := 2;
  idxd_disable_wq := 7;
  idxd_reset_wq := 10;
  GENSTS_DEV_STATE_MASK := 3;
  CMDSTATUS_ACTIVE_MASK := 2 ^ 31;
  CMDSTATUS_ERR_MASK := 255;
  WQ_SIZE_IDX := 0;
  WQ_MODE_IDX := 2;
  WQ_SIZES_IDX := 3;
  WQ_STATE_IDX := 6;
  WQ_MODE_DEDICATED := 1;
  WQ_PRIORITY_SHIFT := 4;
  WQ_BATCH_SZ_SHIFT := 5;
  WQ_STATE_SHIFT := 30;
  WQ_STATE_MASK := 3
|}.

Definition zero_grpcfg : rte_idxd_grpcfg := mk_grpcfg (fun _ => 0) 0 0.
Definition zero_wqcfg : rte_idxd_wqcfg := mk_wqcfg (fun _ => 0).

(** A quiet device: idle, registers zero, nothing allocated or registered.
    [caps] are the capability registers (gencap, wqcap, grpcap, engcap) and
    [status] the answers of the command-status register. *)
Definition quiet_world (gencap_ wqcap_ grpcap_ engcap_ : Z) (status : nat -> Z) : world :=
  mk_world true status (fun _ => 0) (fun _ => 0)
    0 gencap_ wqcap_ grpcap_ engcap_
    0 0%nat (fun _ => zero_grpcfg) (fun _ => zero_wqcfg)
    false [] [] [] 0%nat [].

(** gencap with max-copy exponent [c] and max-batch exponent [b];
    wqcap with [n] queues and total depth [d]. *)
Definition mk_gencap (c b : Z) : Z := Z.lor (Z.shiftl c 16) (Z.shiftl b 21).
Definition mk_wqcap (n d : Z) : Z := Z.lor (Z.shiftl n 16) d.

(** The device of the end-to-end example: 4 groups, 4 engines, 8 queues of
    total depth 128, max-batch exponent 4 and max-copy exponent 20; the
    command-status register reads 0 (no command active, no error). *)
Definition spr_device : world :=
  quiet_world (mk_gencap 20 4) (mk_wqcap 8 128) 4 4 (fun _ => 0).

(** [struct idxd_rawdev idxd = {{0}}] *)
Definition idxd_zero : idxd_rawdev := mk_idxd 0 0 0.

(** The name of the device in the examples. *)
Definition spr_name : string := "0000:6a:01.0".

(** Answers of [idxd_rawdev_create]: failure [e] for the name [n], success
    for every other name. *)
Definition create_fails_at (n : string) (e : Z) : string -> Z :=
  fun x => if String.eqb x n then e else 0.

(** The example device when the enable command completes with error code 3:
    the first read of the command-status register (the check of
    initialization) is 0, the read stored in [err_code] is 3, the read of the
    loop condition is 0. *)
Definition enable_error_device : world :=
  quiet_world (mk_gencap 20 4) (mk_wqcap 8 128) 4 4
    (fun n => if Nat.eqb n 1 then 3 else 0).

(** A running device with the handle of queue 0 registered, its rings and
    the control structure allocated; the command-status register answers
    [status]. *)
Definition running_device (status : nat -> Z) : world :=
  mk_world true status (fun _ => 0) (fun _ => 0)
    1 (mk_gencap 20 4) (mk_wqcap 8 128) 4 4
    0 0%nat (fun _ => zero_grpcfg) (fun _ => zero_wqcfg)
    false
    [BatchRing (qname spr_name 0); HdlRing (qname spr_name 0);
     Memzone (qname spr_name 0); PciCommon]
    [mk_rawdev (qname spr_name 0) (Some (mk_idxd 0 0 16))]
    [] 0%nat [].

(** Results of a run, for statements about concrete runs. *)
Definition returned {A} (r : res A) : option A :=
  match r with Ret a _ => Some a | Fault _ => None end.
Definition final {A} (r : res A) : option world :=
  match r with Ret _ w => Some w | Fault _ => None end.

(** The bits set in a 64-bit membership bitmap. *)
Definition members (bitmap : Z) : list Z :=
  filter (Z.testbit bitmap) (map Z.of_nat (seq 0 64)).

(** What a run of the loop leaves untouched. *)
Definition same_device (w w' : world) : Prop :=
  cmdstatus w' = cmdstatus w /\ cmd w' = cmd w /\ writes w' = writes w /\
  grp_regs w' = grp_regs w /\ wq_regs w' = wq_regs w /\
  heap w' = heap w /\ rawdevs w' = rawdevs w.

(** The same world with the command-status register answering [status]
    from the next read on. *)
Definition with_status (status : nat -> Z) (w : world) : world :=
  mk_world (malloc_ok w) (fun n => status (n - status_reads w)%nat)
    (create_ret w) (release_ret w)
    (gensts w) (gencap w) (wqcap w) (grpcap w) (engcap w)
    (cmd w) (status_reads w) (grp_regs w) (wq_regs w)
    (lk w) (heap w) (rawdevs w) (writes w) (pauses w) (log w).

(** The bitmap that round-robin assignment of the indices [0 .. k-1] over
    [m] groups leaves in group [g]: the bits [j < k] with [j mod m = g]. *)
Fixpoint round_robin (k : nat) (m g : Z) : Z :=
  match k with
  | O => 0
  | S k' =>
      if Z.of_nat k' mod m =? g
      then Z.lor (round_robin k' m g) (Z.shiftl 1 (Z.of_nat k'))
      else round_robin k' m g
  end.

(** What register writes and commands leave untouched: the answers of the
    environment, the capability and status registers, the heap and the
    registry. *)
Definition same_process (w w' : world) : Prop :=
  malloc_ok w' = malloc_ok w /\ cmdstatus w' = cmdstatus w /\
  create_ret w' = create_ret w /\ release_ret w' = release_ret w /\
  gensts w' = gensts w /\ gencap w' = gencap w /\ wqcap w' = wqcap w /\
  grpcap w' = grpcap w /\ engcap w' = engcap w /\
  heap w' = heap w /\ rawdevs w' = rawdevs w.

(** The group count after clamping: [nb_groups] and [nb_engines] both become
    the smaller of the two. *)
Definition cap_clamped (w : world) : Z := Z.min (cap_groups w) (cap_engines w).

(** Membership as the group table records it: bit [i] of the engine bitmap,
    respectively of word 0 of the queue bitmap, of group [g]. *)
Definition engine_in_group (w : world) (i g : Z) : bool :=
  Z.testbit (grpengcfg (grp_regs w g)) i.
Definition queue_in_group (w : world) (i g : Z) : bool :=
  Z.testbit (grpwqcfg (grp_regs w g) 0) i.

(** A computation that, when it returns, has left the process as it was. *)
Definition keeps {A} (m : M A) : Prop :=
  forall w a w', m w = Ret a w' -> same_process w w'.

(** The handles the probe loop has registered after creating the [k] queues
    from index [q0] on, newest first, and their rings. *)
Definition created_handles (name : string) (max_batches_ : Z) (q0 k : nat) : list rte_rawdev :=
  List.rev (map (fun j => mk_rawdev (qname name (Z.of_nat j))
                            (Some (mk_idxd (uint8 (Z.of_nat j))
                                           (Z.of_nat j * IDXD_PORTAL_SIZE) max_batches_)))
                (seq q0 k)).
Definition created_rings (name : string) (q0 k : nat) : list resource :=
  flat_map (fun j => [BatchRing (qname name (Z.of_nat j));
                      HdlRing (qname name (Z.of_nat j));
                      Memzone (qname name (Z.of_nat j))])
           (List.rev (seq q0 k)).

(** The same world with [idxd_rawdev_create] answering [f]. *)
Definition with_create_ret (f : string -> Z) (w : world) : world :=
  mk_world (malloc_ok w) (cmdstatus w) f (release_ret w)
    (gensts w) (gencap w) (wqcap w) (grpcap w) (engcap w)
    (cmd w) (status_reads w) (grp_regs w) (wq_regs w)
    (lk w) (heap w) (rawdevs w) (writes w) (pauses w) (log w).

(** A computation never ends in the fault [f]. *)
Definition never {A} (f : fault) (m : M A) : Prop := forall w, m w <> Fault f.

(** The same world with the device status register reading [v]. *)
Definition with_gensts (v : Z) (w : world) : world :=
  mk_world (malloc_ok w) (cmdstatus w) (create_ret w) (release_ret w)
    v (gencap w) (wqcap w) (grpcap w) (engcap w)
    (cmd w) (status_reads w) (grp_regs w) (wq_regs w)
    (lk w) (heap w) (rawdevs w) (writes w) (pauses w) (log w).

(** ** Notions for the further properties *)

(** The answers of the command-status register to a command whose first
    read is read number [from]: the loop condition finds the active bit set
    for [k] turns and clear in turn [k + 1], whose stored byte has the error
    field [code]. *)
Definition completes_with (h : ioat_spec) (w : world) (from k : nat) (code : Z) : Prop :=
  (forall j, (j < k)%nat ->
     Z.land (uint32 (cmdstatus w (from + 2 * j + 1)%nat)) (CMDSTATUS_ACTIVE_MASK h) <> 0) /\
  Z.land (uint32 (cmdstatus w (from + 2 * k + 1)%nat)) (CMDSTATUS_ACTIVE_MASK h) = 0 /\
  Z.land (uint8 (uint32 (cmdstatus w (from + 2 * k)%nat))) (CMDSTATUS_ERR_MASK h) = code.

(** A computation that, when it returns, has left the world related by [R]
    to the one it started in. *)
Definition keeps_rel {A} (R : world -> world -> Prop) (m : M A) : Prop :=
  forall w a w', m w = Ret a w' -> R w w'.

(** Nothing but the group table, the queue table and the write trace has
    changed. *)
Definition tables_only (w w' : world) : Prop :=
  same_process w w' /\ cmd w' = cmd w /\ status_reads w' = status_reads w /\
  lk w' = lk w /\ pauses w' = pauses w /\ log w' = log w.

(** What the tables keep when only the entries of the groups below [G] and
    of the queues below [n] are configured: every other entry, the flags of
    every group, every word but word 0 of the queue bitmaps, and every word of
    a queue entry but word 0 and the size, mode and size-limit words. *)
Definition outside_config (h : ioat_spec) (G n : Z) (w w' : world) : Prop :=
  (forall g, ~ 0 <= g < G -> grp_regs w' g = grp_regs w g) /\
  (forall g, grpflags (grp_regs w' g) = grpflags (grp_regs w g)) /\
  (forall g k, k <> 0 -> grpwqcfg (grp_regs w' g) k = grpwqcfg (grp_regs w g) k) /\
  (forall q, ~ 0 <= q < n -> wq_regs w' q = wq_regs w q) /\
  (forall q k, k <> 0 -> k <> WQ_SIZE_IDX h -> k <> WQ_MODE_IDX h -> k <> WQ_SIZES_IDX h ->
     wqcfg (wq_regs w' q) k = wqcfg (wq_regs w q) k).

(** The registry holds nothing new but handles named after queues of
    [name], and the answers of the environment are the same. *)
Definition registers_queues_of (name : string) (w w' : world) : Prop :=
  create_ret w' = create_ret w /\ release_ret w' = release_ret w /\
  forall d, In d (rawdevs w') ->
    In d (rawdevs w) \/ exists q, dev_name d = qname name q.

(** The test of [idxd_is_wq_enabled] for queue [q] of the probe loop, and
    the messages the loop logs for the queues [q0 .. q0 + k - 1], newest
    first. *)
Definition wq_reads_enabled (h : ioat_spec) (w : world) (q : Z) : bool :=
  Z.land (Z.shiftr (uint32 (wqcfg (wq_regs w (uint8 q)) (WQ_STATE_IDX h)))
                   (WQ_STATE_SHIFT h)) (WQ_STATE_MASK h) =? 1.
Definition enabled_anomalies (h : ioat_spec) (w : world) (q0 k : nat) : list log_msg :=
  map ERR_wq_enabled
      (List.rev (filter (wq_reads_enabled h w) (map Z.of_nat (seq q0 k)))).

(** The same world with [rte_rawdev_pmd_release] answering [f]. *)
Definition with_release_ret (f : string -> Z) (w : world) : world :=
  mk_world (malloc_ok w) (cmdstatus w) (create_ret w) f
    (gensts w) (gencap w) (wqcap w) (grpcap w) (engcap w)
    (cmd w) (status_reads w) (grp_regs w) (wq_regs w)
    (lk w) (heap w) (rawdevs w) (writes w) (pauses w) (log w).

(** The same world when [malloc] fails. *)
Definition without_memory (w : world) : world :=
  mk_world false (cmdstatus w) (create_ret w) (release_ret w)
    (gensts w) (gencap w) (wqcap w) (grpcap w) (engcap w)
    (cmd w) (status_reads w) (grp_regs w) (wq_regs w)
    (lk w) (heap w) (rawdevs w) (writes w) (pauses w) (log w).

(** The world a run ends in ([w0] when it faults). *)
Definition world_after {A} (r : res A) (w0 : world) : world :=
  match r with Ret _ w => w | Fault _ => w0 end.

(** ** Proof tools *)

(** Projections of updated worlds, without touching the arithmetic. *)
Ltac wsimpl :=
  cbn [malloc_ok cmdstatus create_ret release_ret gensts gencap wqcap grpcap engcap
       cmd status_reads grp_regs wq_regs lk heap rawdevs writes pauses log
       set_cmd set_status_reads set_grp set_wq set_lk set_heap set_rawdevs
       set_pauses set_log with_status with_gensts with_create_ret].
Ltac wsimpl_in H :=
  cbn [malloc_ok cmdstatus create_ret release_ret gensts gencap wqcap grpcap engcap
       cmd status_reads grp_regs wq_regs lk heap rawdevs writes pauses log
       set_cmd set_status_reads set_grp set_wq set_lk set_heap set_rawdevs
       set_pauses set_log with_status with_gensts with_create_ret] in H.

(** Goals of the form [same_process w w'] for an updated [w]. *)
Ltac same_proc := unfold same_process; cbv beta zeta; wsimpl; repeat split.

(** * Properties *)

(** ** The command executor *)

Section Executor.

Variable h : ioat_spec.

(** One turn of the do-while loop. *)
Lemma poll_unfold (fuel : nat) (i : Z) (w : world) :
  poll h (S fuel) i w =
  let w1 := set_status_reads (S (status_reads w)) (set_pauses (S (pauses w)) w) in
  let st := uint32 (cmdstatus w (status_reads w)) in
  if 1000 <=? i + 1 then
    Ret (uint8 st) (set_lk false (set_log (ERR_timeout :: log w) w1))
  else
    let w2 := set_status_reads (S (S (status_reads w))) w1 in
    let st' := uint32 (cmdstatus w (S (status_reads w))) in
    if Z.land st' (CMDSTATUS_ACTIVE_MASK h) =? 0 then
      Ret (Z.land (uint8 st) (CMDSTATUS_ERR_MASK h)) (set_lk false w2)
    else poll h fuel (i + 1) w2.
Proof.
  cbn [poll]. unfold bind, rte_pause, read_cmdstatus, modify. wsimpl.
  destruct (1000 <=? i + 1); [reflexivity|].
  destruct (Z.land _ _ =? 0); reflexivity.
Qed.

(** While every read of the loop condition finds the active bit set, the
    loop started at [i = 999 - k] pauses [k + 1] times and then gives up with
    the byte of its last read.  The reads alternate: the one stored in
    [err_code], then the one of the loop condition. *)
Lemma poll_busy (k fuel : nat) (i : Z) (w : world) :
  (k < fuel)%nat ->
  i = 999 - Z.of_nat k ->
  (forall j, (j < k)%nat ->
     Z.land (uint32 (cmdstatus w (status_reads w + 2 * j + 1)%nat))
            (CMDSTATUS_ACTIVE_MASK h) <> 0) ->
  exists w',
    poll h fuel i w = Ret (uint8 (uint32 (cmdstatus w (status_reads w + 2 * k)%nat))) w' /\
    pauses w' = (pauses w + S k)%nat /\
    status_reads w' = (status_reads w + 2 * k + 1)%nat /\
    lk w' = false /\
    log w' = ERR_timeout :: log w /\
    same_device w w'.
Proof.
  revert fuel i w. induction k as [|k IH]; intros fuel i w Hf Hi Hact.
  - destruct fuel as [|fuel]; [lia|]. rewrite poll_unfold. cbv zeta.
    replace (1000 <=? i + 1) with true by (symmetry; apply Z.leb_le; lia).
    eexists. split.
    + rewrite Nat.mul_0_r, Nat.add_0_r. reflexivity.
    + unfold same_device. wsimpl. repeat split; lia.
  - destruct fuel as [|fuel]; [lia|]. rewrite poll_unfold. cbv zeta.
    replace (1000 <=? i + 1) with false by (symmetry; apply Z.leb_gt; lia).
    destruct (Z.eqb_spec (Z.land (uint32 (cmdstatus w (S (status_reads w))))
                                 (CMDSTATUS_ACTIVE_MASK h)) 0) as [E|_].
    { exfalso. apply (Hact 0%nat); [lia|].
      replace (status_reads w + 2 * 0 + 1)%nat with (S (status_reads w)) by lia.
      exact E. }
    match goal with |- context [poll h fuel (i + 1) ?w2] =>
      destruct (IH fuel (i + 1) w2) as (w' & Hr & Hp & Hs & Hl & Hg & Hd)
    end; [lia | lia | |].
    { intros j Hj. wsimpl.
      replace (S (S (status_reads w)) + 2 * j + 1)%nat
        with (status_reads w + 2 * S j + 1)%nat by lia.
      apply Hact. lia. }
    exists w'. unfold same_device in *. wsimpl_in Hr. wsimpl_in Hp. wsimpl_in Hs.
    wsimpl_in Hg. wsimpl_in Hd.
    repeat split; try tauto; try lia.
    rewrite Hr. do 4 f_equal. lia.
Qed.

(** The loop never runs out of fuel: from [i] it needs at most [1000 - i]
    turns, pauses at least once and releases the lock. *)
Lemma poll_total (fuel : nat) (i : Z) (w : world) :
  0 <= i < 1000 ->
  1000 - i <= Z.of_nat fuel ->
  exists r w',
    poll h fuel i w = Ret r w' /\
    lk w' = false /\
    (pauses w < pauses w')%nat /\
    Z.of_nat (pauses w') <= Z.of_nat (pauses w) + (1000 - i) /\
    same_device w w'.
Proof.
  revert i w. induction fuel as [|fuel IH]; intros i w Hi Hf; [lia|].
  rewrite poll_unfold. cbv zeta.
  destruct (Z.leb_spec 1000 (i + 1)) as [Hge|Hlt].
  - do 2 eexists. split; [reflexivity|]. unfold same_device. wsimpl.
    repeat split; try reflexivity; lia.
  - destruct (Z.land _ _ =? 0).
    + do 2 eexists. split; [reflexivity|]. unfold same_device. wsimpl.
      repeat split; try reflexivity; lia.
    + match goal with |- context [poll h fuel (i + 1) ?w2] =>
        destruct (IH (i + 1) w2) as (r & w' & Hr & Hl & Hp & Hq & Hd)
      end; [lia | lia |].
      exists r, w'. unfold same_device in *. wsimpl_in Hp. wsimpl_in Hq. wsimpl_in Hd.
      repeat split; try tauto; lia.
Qed.

(** The command once its target is known: take the lock, write the command
    register, poll. *)
Lemma command_unfold (idxd : idxd_rawdev) (command q : Z) (w : world) :
  cmd_target h idxd command = Some q ->
  idxd_pci_dev_command h idxd command w =
  poll h 1000 0
    (set_cmd (uint32 (Z.lor (Z.shiftl command (IDXD_CMD_SHIFT h)) q)) (set_lk true w)).
Proof.
  intro Hq. unfold idxd_pci_dev_command. rewrite Hq. reflexivity.
Qed.

(** A command the target of which is defined returns, with the lock
    released, having written the command register once and nothing else. *)
Lemma command_total (idxd : idxd_rawdev) (command q : Z) (w : world) :
  cmd_target h idxd command = Some q ->
  exists r w',
    idxd_pci_dev_command h idxd command w = Ret r w' /\
    lk w' = false /\
    (pauses w < pauses w' <= pauses w + 1000)%nat /\
    cmd w' = uint32 (Z.lor (Z.shiftl command (IDXD_CMD_SHIFT h)) q) /\
    writes w' = (REG_cmd, cmd w') :: writes w /\
    cmdstatus w' = cmdstatus w /\
    grp_regs w' = grp_regs w /\ wq_regs w' = wq_regs w /\
    heap w' = heap w /\ rawdevs w' = rawdevs w.
Proof.
  intro Hq. rewrite (command_unfold _ _ _ _ Hq).
  match goal with |- context [poll h 1000 0 ?w1] =>
    destruct (poll_total 1000 0 w1) as (r & w' & Hr & Hl & Hp & Hb & Hd)
  end; [lia | lia |].
  exists r, w'. unfold same_device in Hd. wsimpl_in Hp. wsimpl_in Hb. wsimpl_in Hd.
  destruct Hd as (H1 & H2 & H3 & H4 & H5 & H6 & H7).
  repeat split; try assumption; try lia.
  rewrite H3, H2. reflexivity.
Qed.

End Executor.

(** ** Bounds for the bitwise operations *)

Lemma lor_lt_pow2 (a b n : Z) :
  0 <= a < 2 ^ n -> 0 <= b < 2 ^ n -> 0 <= n -> 0 <= Z.lor a b < 2 ^ n.
Proof.
  intros Ha Hb Hn. split; [apply Z.lor_nonneg; lia|].
  destruct (Z.eq_dec (Z.lor a b) 0) as [E|E]; [rewrite E; lia|].
  assert (Hpos : 0 < n).
  { destruct (Z.eq_dec n 0) as [-> |]; [|lia].
    exfalso. apply E. change (2 ^ 0) with 1 in *.
    replace a with 0 by lia. replace b with 0 by lia. reflexivity. }
  apply Z.log2_lt_pow2; [assert (0 <= Z.lor a b) by (apply Z.lor_nonneg; lia); lia|].
  rewrite Z.log2_lor by lia.
  apply Z.max_lub_lt.
  - destruct (Z.eq_dec a 0) as [-> |]; [cbn; lia | apply Z.log2_lt_pow2; lia].
  - destruct (Z.eq_dec b 0) as [-> |]; [cbn; lia | apply Z.log2_lt_pow2; lia].
Qed.

Lemma uint_small (x n : Z) : 0 <= x < 2 ^ n -> x mod 2 ^ n = x.
Proof. intro Hx. apply Z.mod_small. exact Hx. Qed.

(** The target of a command for a queue index below 16. *)
Lemma cmd_target_small (h : ioat_spec) (idxd : idxd_rawdev) (command : Z) :
  0 <= qid idxd < 16 ->
  cmd_target h idxd command =
  Some (if wq_command h command then Z.shiftl 1 (qid idxd) else qid idxd).
Proof.
  intro Hq. unfold cmd_target.
  assert (Hu : uint16 (qid idxd) = qid idxd) by (apply uint_small; lia).
  rewrite Hu. destruct (wq_command h command); [|reflexivity].
  assert (Hp : 2 ^ qid idxd < 2 ^ 16) by (apply Z.pow_lt_mono_r; lia).
  unfold shl_int. rewrite Z.shiftl_1_l.
  replace (0 <=? qid idxd) with true by (symmetry; apply Z.leb_le; lia).
  replace (qid idxd <? 32) with true by (symmetry; apply Z.ltb_lt; lia).
  replace (2 ^ qid idxd <? 2 ^ 31) with true
    by (symmetry; apply Z.ltb_lt; apply Z.pow_lt_mono_r; lia).
  cbn [andb option_map]. f_equal. apply uint_small.
  assert (0 < 2 ^ qid idxd) by (apply Z.pow_pos_nonneg; lia). lia.
Qed.

(** ** Claims about the command executor *)

(** C3: when the active bit never clears in the answers of the command-status
    register, the executor pauses exactly 1000 times (one pause per turn of
    the loop), reads the register 1999 times, logs the timeout, releases the
    lock and returns the low byte of the last value it read.  Whatever the
    answers are, the executor returns with the lock released after at most
    1000 turns. *)
Theorem command_timeout_after_1000_turns
    (h : ioat_spec) (idxd : idxd_rawdev) (command q : Z) (w : world) :
  cmd_target h idxd command = Some q ->
  (forall n, Z.land (uint32 (cmdstatus w n)) (CMDSTATUS_ACTIVE_MASK h) <> 0) ->
  (exists w',
     idxd_pci_dev_command h idxd command w =
       Ret (uint8 (uint32 (cmdstatus w (status_reads w + 1998)%nat))) w' /\
     pauses w' = (pauses w + 1000)%nat /\
     status_reads w' = (status_reads w + 1999)%nat /\
     lk w' = false /\
     log w' = ERR_timeout :: log w) /\
  (forall w0, exists r w0',
     idxd_pci_dev_command h idxd command w0 = Ret r w0' /\
     lk w0' = false /\
     (pauses w0 < pauses w0' <= pauses w0 + 1000)%nat).
Proof.
  intros Hq Hact. split.
  - rewrite (command_unfold h _ _ _ w Hq).
    match goal with |- context [poll h 1000 0 ?w1] =>
      destruct (poll_busy h 999 1000 0 w1) as (w' & Hr & Hp & Hs & Hl & Hg & _)
    end; [lia | lia | intros j _; apply Hact |].
    exists w'. wsimpl_in Hr. wsimpl_in Hp. wsimpl_in Hs. wsimpl_in Hg.
    repeat split; try assumption; lia.
  - intro w0.
    destruct (command_total h idxd command q w0 Hq) as (r & w' & Hr & Hl & Hp & _).
    exists r, w'. repeat split; try assumption; lia.
Qed.

(** An enable command on a device that answers "active, status byte 31" for
    ever. *)
Lemma command_timeout_after_1000_turns_witness :
  (exists w',
     idxd_pci_dev_command spr_spec (mk_idxd 0 0 0) 1
         (quiet_world 0 0 0 0 (fun _ => 2 ^ 31 + 31)) = Ret 31 w' /\
     pauses w' = 1000%nat /\
     status_reads w' = 1999%nat /\
     lk w' = false /\
     log w' = [ERR_timeout]) /\
  (forall w0, exists r w0',
     idxd_pci_dev_command spr_spec (mk_idxd 0 0 0) 1 w0 = Ret r w0' /\
     lk w0' = false /\
     (pauses w0 < pauses w0' <= pauses w0 + 1000)%nat).
Proof.
  apply (command_timeout_after_1000_turns spr_spec (mk_idxd 0 0 0) 1 0
           (quiet_world 0 0 0 0 (fun _ => 2 ^ 31 + 31))).
  - reflexivity.
  - intro n. vm_compute. discriminate.
Defined.







(** C10: some answers of the command-status register make the executor run
    into the cap of 1000 turns and still return 0: every read of the loop
    condition finds the active bit set, while the reads stored in [err_code]
    are 0.  A command that completes at once with error code 0 returns the
    same value. *)
Theorem timeout_returns_zero
    (h : ioat_spec) (idxd : idxd_rawdev) (command q : Z) (w : world) :
  cmd_target h idxd command = Some q ->
  Z.land (uint32 (CMDSTATUS_ACTIVE_MASK h)) (CMDSTATUS_ACTIVE_MASK h) <> 0 ->
  (exists status,
     (forall j, Z.land (uint32 (status (2 * j + 1)%nat)) (CMDSTATUS_ACTIVE_MASK h) <> 0) /\
     exists w',
       idxd_pci_dev_command h idxd command (with_status status w) = Ret 0 w' /\
       pauses w' = (pauses w + 1000)%nat /\
       log w' = ERR_timeout :: log w /\
       lk w' = false) /\
  (exists w',
     idxd_pci_dev_command h idxd command (with_status (fun _ => 0) w) = Ret 0 w' /\
     pauses w' = (pauses w + 1)%nat /\
     log w' = log w /\
     lk w' = false).
Proof.
  intros Hq Hact.
  assert (Hodd : forall j, Nat.even (2 * j + 1) = false).
  { intro j. rewrite Nat.even_add, Nat.even_mul. reflexivity. }
  split.
  - exists (fun n => if Nat.even n then 0 else CMDSTATUS_ACTIVE_MASK h). split.
    + intro j. rewrite Hodd. exact Hact.
    + rewrite (command_unfold h _ _ _ _ Hq).
      match goal with |- context [poll h 1000 0 ?w1] =>
        destruct (poll_busy h 999 1000 0 w1) as (w' & Hr & Hp & Hs & Hl & Hg & _)
      end; [lia | lia | |].
      { intros j _. wsimpl.
        replace (status_reads w + 2 * j + 1 - status_reads w)%nat with (2 * j + 1)%nat by lia.
        rewrite Hodd. exact Hact. }
      exists w'. wsimpl_in Hr. wsimpl_in Hp. wsimpl_in Hg.
      replace (status_reads w + 2 * 999 - status_reads w)%nat with (2 * 999)%nat in Hr by lia.
      repeat split; assumption.
  - rewrite (command_unfold h _ _ _ _ Hq). rewrite poll_unfold. cbv zeta. wsimpl.
    change (1000 <=? 0 + 1) with false. cbv iota.
    change (uint32 0) with 0. change (uint8 0) with 0. rewrite !Z.land_0_l.
    cbv iota. change (0 =? 0) with true. cbv iota.
    eexists. split; [reflexivity|]. wsimpl. repeat split; lia.
Qed.

(** The disable command of the example header on a quiet device. *)
Lemma timeout_returns_zero_witness :
  (exists status,
     (forall j, Z.land (uint32 (status (2 * j + 1)%nat)) (2 ^ 31) <> 0) /\
     exists w',
       idxd_pci_dev_command spr_spec (mk_idxd 0 0 0) 2
         (with_status status (quiet_world 0 0 0 0 (fun _ => 0))) = Ret 0 w' /\
       pauses w' = 1000%nat /\
       log w' = [ERR_timeout] /\
       lk w' = false) /\
  (exists w',
     idxd_pci_dev_command spr_spec (mk_idxd 0 0 0) 2
       (with_status (fun _ => 0) (quiet_world 0 0 0 0 (fun _ => 0))) = Ret 0 w' /\
     pauses w' = 1%nat /\
     log w' = [] /\
     lk w' = false).
Proof.
  apply (timeout_returns_zero spr_spec (mk_idxd 0 0 0) 2 0
           (quiet_world 0 0 0 0 (fun _ => 0))).
  - reflexivity.
  - vm_compute. discriminate.
Defined.

(** ** Initialization: validation *)

Section Init.

Variable h : ioat_spec.

(** The world in which the configuration starts once the checks passed. *)
Lemma init_validated (idxd : idxd_rawdev) (w : world) :
  malloc_ok w = true ->
  Z.land (uint32 (gensts w)) (GENSTS_DEV_STATE_MASK h) = 0 ->
  Z.land (uint32 (cmdstatus w (status_reads w))) (CMDSTATUS_ACTIVE_MASK h) = 0 ->
  init_pci_device h idxd w =
  (wq_size <- configure_device h (cap_groups w) (cap_engines w) (cap_queues w)
                (cap_depth w) (cap_copy_exp w) (cap_batch_exp w) ;;
   err_code <- idxd_pci_dev_command h (mk_idxd (qid idxd) (portal idxd) wq_size)
                 (idxd_enable_dev h) ;;
   if negb (err_code =? 0) then
     IOAT_PMD_ERR (ERR_enabling err_code) ;;
     ret (err_code, mk_idxd (qid idxd) (portal idxd) wq_size)
   else
     ret (cap_queues w, mk_idxd (qid idxd) (portal idxd) wq_size))
  (set_status_reads (S (status_reads w))
     (set_lk false (set_heap (PciCommon :: heap w) w))).
Proof.
  intros Hm Hs Ha. unfold init_pci_device.
  unfold bind at 1. unfold malloc_pci. rewrite Hm. cbn [negb].
  unfold bind at 1. unfold rte_spinlock_init, modify.
  unfold bind at 1. unfold gets at 1. wsimpl. rewrite Hs. cbn [Z.eqb negb].
  unfold bind at 1. unfold read_cmdstatus. wsimpl. rewrite Ha. cbn [Z.eqb negb].
  reflexivity.
Qed.

Lemma live_free (r : resource) (l : list resource) :
  existsb (resource_eqb r) (filter (fun x => negb (resource_eqb r x)) l) = false.
Proof.
  induction l as [|x l IH]; [reflexivity|].
  cbn [filter]. destruct (resource_eqb r x) eqn:E; cbn [negb]; [exact IH|].
  cbn [existsb]. rewrite E, IH. reflexivity.
Qed.

End Init.

(** Initialization of a device that fails one of the two checks. *)
Lemma init_not_idle (h : ioat_spec) (idxd : idxd_rawdev) (w : world) :
  Z.land (uint32 (gensts w)) (GENSTS_DEV_STATE_MASK h) <> 0 \/
  Z.land (uint32 (cmdstatus w (status_reads w))) (CMDSTATUS_ACTIVE_MASK h) <> 0 ->
  exists w',
    init_pci_device h idxd w = Ret (-1, idxd) w' /\
    writes w' = writes w /\
    cmd w' = cmd w /\
    grp_regs w' = grp_regs w /\
    wq_regs w' = wq_regs w /\
    (malloc_ok w = true ->
     live PciCommon w' = false /\
     (log w' = ERR_not_disabled :: log w \/ log w' = ERR_cmd_in_progress :: log w)).
Proof.
  intro Hbad. unfold init_pci_device.
  unfold bind at 1. unfold malloc_pci. destruct (malloc_ok w) eqn:Hm; cbn [negb].
  - unfold bind at 1. unfold rte_spinlock_init, modify.
    unfold bind at 1. unfold gets at 1. wsimpl.
    destruct (Z.eqb_spec (Z.land (uint32 (gensts w)) (GENSTS_DEV_STATE_MASK h)) 0) as [Hs|Hs];
      cbn [negb].
    + unfold bind at 1. unfold read_cmdstatus. wsimpl.
      destruct (Z.eqb_spec (Z.land (uint32 (cmdstatus w (status_reads w)))
                                   (CMDSTATUS_ACTIVE_MASK h)) 0) as [Ha|Ha]; cbn [negb].
      * exfalso. destruct Hbad as [Hb|Hb]; [exact (Hb Hs) | exact (Hb Ha)].
      * eexists. split; [reflexivity|]. wsimpl. repeat split.
        -- unfold live. wsimpl. apply live_free.
        -- right. reflexivity.
    + eexists. split; [reflexivity|]. wsimpl. repeat split.
      * unfold live. wsimpl. apply live_free.
      * left. reflexivity.
  - eexists. split; [reflexivity|]. wsimpl. repeat split; discriminate.
Qed.

(** C7: when the state field of the device status register is not idle, or
    the command-status register shows a command in flight, initialization
    returns -1 and writes no register: the write trace, the command register,
    the group table and the queue table are what they were.  When the control
    structure had been allocated, it is released again and the error logged
    is the one of the failed check. *)
Theorem init_rejects_device_not_idle (h : ioat_spec) (idxd : idxd_rawdev) (w : world) :
  Z.land (uint32 (gensts w)) (GENSTS_DEV_STATE_MASK h) <> 0 \/
  Z.land (uint32 (cmdstatus w (status_reads w))) (CMDSTATUS_ACTIVE_MASK h) <> 0 ->
  exists w',
    init_pci_device h idxd w = Ret (-1, idxd) w' /\
    writes w' = writes w /\
    cmd w' = cmd w /\
    grp_regs w' = grp_regs w /\
    wq_regs w' = wq_regs w /\
    (malloc_ok w = true ->
     live PciCommon w' = false /\
     (log w' = ERR_not_disabled :: log w \/ log w' = ERR_cmd_in_progress :: log w)).
Proof.
  intro Hbad. apply init_not_idle. exact Hbad.
Qed.

(** The example device when its status register reads "enabled". *)
Lemma init_rejects_device_not_idle_witness :
  exists w',
    init_pci_device spr_spec (mk_idxd 0 0 0)
      (with_gensts 1 (quiet_world (mk_gencap 20 4) (mk_wqcap 8 128) 4 4 (fun _ => 0)))
    = Ret (-1, mk_idxd 0 0 0) w' /\
    writes w' = [] /\
    cmd w' = 0 /\
    grp_regs w' = (fun _ => zero_grpcfg) /\
    wq_regs w' = (fun _ => zero_wqcfg) /\
    (true = true ->
     live PciCommon w' = false /\
     (log w' = [ERR_not_disabled] \/ log w' = [ERR_cmd_in_progress])).
Proof.
  apply (init_rejects_device_not_idle spr_spec (mk_idxd 0 0 0)
           (with_gensts 1 (quiet_world (mk_gencap 20 4) (mk_wqcap 8 128) 4 4 (fun _ => 0)))).
  left. vm_compute. discriminate.
Defined.

(** ** Loops and faults *)

Lemma for_loop_inv (I : Z -> world -> Prop) (body : Z -> M unit) (n : nat) :
  forall (i0 : Z) (w : world),
  I i0 w ->
  (forall i w1, i0 <= i < i0 + Z.of_nat n -> I i w1 ->
     exists w2, body i w1 = Ret tt w2 /\ I (i + 1) w2) ->
  exists w', for_loop n i0 body w = Ret tt w' /\ I (i0 + Z.of_nat n) w'.
Proof.
  induction n as [|n IH]; intros i0 w H0 Hstep.
  - exists w. split; [reflexivity|]. replace (i0 + Z.of_nat 0) with i0 by lia. exact H0.
  - destruct (Hstep i0 w) as (w1 & Hb & H1); [lia | exact H0 |].
    destruct (IH (i0 + 1) w1 H1) as (w' & Hl & H').
    { intros i w2 Hi. apply Hstep. lia. }
    exists w'. split.
    + cbn [for_loop]. unfold bind. rewrite Hb. exact Hl.
    + replace (i0 + Z.of_nat (S n)) with (i0 + 1 + Z.of_nat n) by lia. exact H'.
Qed.

Lemma never_ret {A} (f : fault) (a : A) : never f (ret a).
Proof. intros w. discriminate. Qed.

Lemma never_modify (f : fault) (g : world -> world) : never f (modify g).
Proof. intros w. discriminate. Qed.

Lemma never_gets {A} (f : fault) (g : world -> A) : never f (gets g).
Proof. intros w. discriminate. Qed.

Lemma never_lift {A} (f f' : fault) (o : option A) : f <> f' -> never f (lift f' o).
Proof.
  intros Hne w. destruct o; cbn [lift]; unfold ret, fail.
  - discriminate.
  - intro E. apply Hne. congruence.
Qed.

Lemma never_bind {A B} (f : fault) (m : M A) (k : A -> M B) :
  never f m -> (forall a, never f (k a)) -> never f (bind m k).
Proof.
  intros Hm Hk w. unfold bind. destruct (m w) as [a w'|f'] eqn:E.
  - apply Hk.
  - intro Heq. apply (Hm w). rewrite E. inversion Heq. reflexivity.
Qed.

Lemma never_for_loop (f : fault) (body : Z -> M unit) (n : nat) (i : Z) :
  (forall j, never f (body j)) -> never f (for_loop n i body).
Proof.
  intro Hb. revert i. induction n as [|n IH]; intro i; cbn [for_loop].
  - apply never_ret.
  - apply never_bind; [apply Hb | intros _; apply IH].
Qed.

Lemma never_poll (h : ioat_spec) (f : fault) (fuel : nat) (i : Z) :
  f <> OutOfFuel -> never f (poll h fuel i).
Proof.
  intros Hne. revert i. induction fuel as [|fuel IH]; intros i w.
  - cbn [poll]. unfold fail. intro E. inversion E. apply Hne. congruence.
  - rewrite poll_unfold. cbv zeta.
    destruct (1000 <=? i + 1); [discriminate|].
    destruct (Z.land _ _ =? 0); [discriminate|]. apply IH.
Qed.

Lemma never_command (h : ioat_spec) (f : fault) (idxd : idxd_rawdev) (command : Z) :
  f <> OutOfFuel -> f <> ShiftCount -> never f (idxd_pci_dev_command h idxd command).
Proof.
  intros H1 H2. unfold idxd_pci_dev_command.
  apply never_bind; [apply never_lift; exact H2 | intros q].
  apply never_bind; [apply never_modify | intros _].
  apply never_bind; [apply never_modify | intros _].
  apply never_poll. exact H1.
Qed.

(** ** Round-robin bitmaps *)

Lemma round_robin_bound (k : nat) (m g : Z) :
  0 <= round_robin k m g < 2 ^ Z.of_nat k.
Proof.
  induction k as [|k IH]; [cbn; lia|].
  assert (Hp : 2 ^ Z.of_nat k < 2 ^ Z.of_nat (S k)) by (apply Z.pow_lt_mono_r; lia).
  cbn [round_robin]. destruct (Z.of_nat k mod m =? g); [|lia].
  apply lor_lt_pow2; [lia | | lia].
  rewrite Z.shiftl_1_l. split; [apply Z.pow_nonneg; lia | exact Hp].
Qed.

Lemma round_robin_bit (k : nat) (m g j : Z) :
  Z.testbit (round_robin k m g) j = (0 <=? j) && (j <? Z.of_nat k) && (j mod m =? g).
Proof.
  induction k as [|k IH].
  - cbn [round_robin]. rewrite Z.testbit_0_l.
    destruct (0 <=? j) eqn:E0; [|reflexivity].
    replace (j <? Z.of_nat 0) with false by (symmetry; apply Z.ltb_ge; apply Z.leb_le in E0; lia).
    reflexivity.
  - cbn [round_robin].
    destruct (Z.leb_spec 0 j) as [Hj|Hj].
    2:{ rewrite Z.testbit_neg_r by lia. reflexivity. }
    assert (Hone : Z.testbit (Z.shiftl 1 (Z.of_nat k)) j = (j =? Z.of_nat k)).
    { rewrite Z.shiftl_1_l. destruct (Z.eqb_spec j (Z.of_nat k)) as [-> |Hne].
      - apply Z.pow2_bits_true. lia.
      - apply Z.pow2_bits_false. lia. }
    destruct (Z.eqb_spec (Z.of_nat k mod m) g) as [Hg|Hg].
    + rewrite Z.lor_spec, IH, Hone.
      replace (0 <=? j) with true by (symmetry; apply Z.leb_le; lia). cbn [andb].
      destruct (Z.eqb_spec j (Z.of_nat k)) as [-> |Hne].
      * rewrite Hg, Z.eqb_refl.
        replace (Z.of_nat k <? Z.of_nat (S k)) with true by (symmetry; apply Z.ltb_lt; lia).
        rewrite orb_true_r. reflexivity.
      * rewrite orb_false_r.
        destruct (Z.ltb_spec j (Z.of_nat k)); destruct (Z.ltb_spec j (Z.of_nat (S k)));
          try lia; reflexivity.
    + rewrite IH.
      replace (0 <=? j) with true by (symmetry; apply Z.leb_le; lia). cbn [andb].
      destruct (Z.ltb_spec j (Z.of_nat k)); destruct (Z.ltb_spec j (Z.of_nat (S k)));
        try lia; try reflexivity.
      assert (j = Z.of_nat k) by lia. subst j.
      cbn [andb]. symmetry. apply Z.eqb_neq. exact Hg.
Qed.

Lemma round_robin_step (i m : Z) :
  0 <= i < 64 ->
  uint64 (Z.lor (round_robin (Z.to_nat i) m (i mod m)) (uint64 (Z.shiftl 1 i))) =
  round_robin (Z.to_nat (i + 1)) m (i mod m).
Proof.
  intro Hi. replace (Z.to_nat (i + 1)) with (S (Z.to_nat i)) by lia.
  cbn [round_robin]. rewrite Z2Nat.id by lia. rewrite Z.eqb_refl.
  pose proof (round_robin_bound (Z.to_nat i) m (i mod m)) as Hb.
  rewrite Z2Nat.id in Hb by lia.
  assert (H1 : 2 ^ i < 2 ^ (i + 1)) by (apply Z.pow_lt_mono_r; lia).
  assert (H2 : 2 ^ (i + 1) <= 2 ^ 64) by (apply Z.pow_le_mono_r; lia).
  assert (H3 : 0 < 2 ^ i) by (apply Z.pow_pos_nonneg; lia).
  rewrite Z.shiftl_1_l.
  assert (Hu : uint64 (2 ^ i) = 2 ^ i) by (apply uint_small; lia).
  rewrite Hu. apply uint_small.
  assert (0 <= Z.lor (round_robin (Z.to_nat i) m (i mod m)) (2 ^ i) < 2 ^ (i + 1))
    by (apply lor_lt_pow2; lia).
  lia.
Qed.

Lemma round_robin_other (i m g : Z) :
  0 <= i -> g <> i mod m ->
  round_robin (Z.to_nat (i + 1)) m g = round_robin (Z.to_nat i) m g.
Proof.
  intros Hi Hg. replace (Z.to_nat (i + 1)) with (S (Z.to_nat i)) by lia.
  cbn [round_robin]. rewrite Z2Nat.id by lia.
  destruct (Z.eqb_spec (i mod m) g); [congruence | reflexivity].
Qed.

Lemma same_process_refl (w : world) : same_process w w.
Proof. unfold same_process. repeat split. Qed.

Lemma same_process_trans (w1 w2 w3 : world) :
  same_process w1 w2 -> same_process w2 w3 -> same_process w1 w3.
Proof.
  unfold same_process.
  intros (A1 & A2 & A3 & A4 & A5 & A6 & A7 & A8 & A9 & A10 & A11)
         (B1 & B2 & B3 & B4 & B5 & B6 & B7 & B8 & B9 & B10 & B11).
  repeat split; congruence.
Qed.

(** ** The configuration loops *)

Section Configure.

Variable h : ioat_spec.

Lemma zero_groups_ok (n : nat) (w : world) :
  exists w',
    for_loop n 0 (fun i => write_grpengcfg i 0 ;; write_grpwqcfg i 0 0) w = Ret tt w' /\
    (forall g, 0 <= g < Z.of_nat n ->
       grpengcfg (grp_regs w' g) = 0 /\ grpwqcfg (grp_regs w' g) 0 = 0) /\
    wq_regs w' = wq_regs w /\ same_process w w'.
Proof.
  destruct (for_loop_inv
    (fun i w1 =>
       (forall g, 0 <= g < i ->
          grpengcfg (grp_regs w1 g) = 0 /\ grpwqcfg (grp_regs w1 g) 0 = 0) /\
       wq_regs w1 = wq_regs w /\ same_process w w1)
    (fun i => write_grpengcfg i 0 ;; write_grpwqcfg i 0 0) n 0 w) as (w' & Hl & HI).
  - split; [intros g Hg; lia|]. split; [reflexivity | apply same_process_refl].
  - intros i w1 Hi (Hz & Hq & Hp). eexists. split; [reflexivity|].
    wsimpl. split; [|split; [exact Hq | exact Hp]].
    intros g Hg. unfold upd. destruct (Z.eqb_spec g i) as [-> |Hne].
    + cbn [grpengcfg grpwqcfg]. rewrite Z.eqb_refl. split; reflexivity.
    + apply Hz. lia.
  - exists w'. split; [exact Hl|]. cbn [Z.add] in HI. exact HI.
Qed.

Lemma zero_queues_ok (n : nat) (w : world) :
  exists w',
    for_loop n 0 (fun i => write_wqcfg i 0 0) w = Ret tt w' /\
    grp_regs w' = grp_regs w /\ same_process w w'.
Proof.
  destruct (for_loop_inv
    (fun i w1 => grp_regs w1 = grp_regs w /\ same_process w w1)
    (fun i => write_wqcfg i 0 0) n 0 w) as (w' & Hl & HI).
  - split; [reflexivity | apply same_process_refl].
  - intros i w1 Hi (Hg & Hp). eexists. split; [reflexivity|].
    wsimpl. split; [exact Hg | exact Hp].
  - exists w'. split; [exact Hl | exact HI].
Qed.

Lemma upd_same {A} (f : Z -> A) (k : Z) (v : A) : upd f k v k = v.
Proof. unfold upd. rewrite Z.eqb_refl. reflexivity. Qed.

Lemma upd_other {A} (f : Z -> A) (k j : Z) (v : A) : j <> k -> upd f k v j = f j.
Proof. intro Hne. unfold upd. destruct (Z.eqb_spec j k); [contradiction | reflexivity]. Qed.

Lemma c_mod_some (i m : Z) : m <> 0 -> c_mod i m = Some (i mod m).
Proof. intro Hm. unfold c_mod. destruct (Z.eqb_spec m 0); [contradiction | reflexivity]. Qed.

Lemma shl_ull_some (i : Z) : 0 <= i < 64 -> shl_ull 1 i = Some (uint64 (Z.shiftl 1 i)).
Proof.
  intro Hi. unfold shl_ull.
  replace (0 <=? i) with true by (symmetry; apply Z.leb_le; lia).
  replace (i <? 64) with true by (symmetry; apply Z.ltb_lt; lia).
  reflexivity.
Qed.

(** The engine loop over [m] groups, started with empty engine bitmaps. *)
Lemma assign_engines_ok (m : Z) (n : nat) (w : world) :
  0 < m -> Z.of_nat n <= 64 ->
  (forall g, 0 <= g < m -> grpengcfg (grp_regs w g) = 0) ->
  exists w',
    for_loop n 0 (fun i =>
      g <- lift ModuloByZero (c_mod i m) ;;
      b <- lift ShiftCount (shl_ull 1 i) ;;
      old <- gets (fun w => grpengcfg (grp_regs w g)) ;;
      write_grpengcfg g (uint64 (Z.lor old b))) w = Ret tt w' /\
    (forall g, 0 <= g < m -> grpengcfg (grp_regs w' g) = round_robin n m g) /\
    (forall g, ~ 0 <= g < m -> grpengcfg (grp_regs w' g) = grpengcfg (grp_regs w g)) /\
    (forall g, grpwqcfg (grp_regs w' g) = grpwqcfg (grp_regs w g)) /\
    wq_regs w' = wq_regs w /\ same_process w w'.
Proof.
  intros Hm Hn Hz.
  destruct (for_loop_inv
    (fun i w1 =>
       (forall g, 0 <= g < m -> grpengcfg (grp_regs w1 g) = round_robin (Z.to_nat i) m g) /\
       (forall g, ~ 0 <= g < m -> grpengcfg (grp_regs w1 g) = grpengcfg (grp_regs w g)) /\
       (forall g, grpwqcfg (grp_regs w1 g) = grpwqcfg (grp_regs w g)) /\
       wq_regs w1 = wq_regs w /\ same_process w w1)
    (fun i =>
      g <- lift ModuloByZero (c_mod i m) ;;
      b <- lift ShiftCount (shl_ull 1 i) ;;
      old <- gets (fun w => grpengcfg (grp_regs w g)) ;;
      write_grpengcfg g (uint64 (Z.lor old b))) n 0 w) as (w' & Hl & HI).
  - split; [exact Hz|]. repeat split; apply same_process_refl.
  - intros i w1 Hi (He & Ho & Hw & Hq & Hp).
    assert (Hg : 0 <= i mod m < m) by (apply Z.mod_pos_bound; lia).
    rewrite c_mod_some by lia. rewrite shl_ull_some by lia.
    eexists. split; [reflexivity|]. wsimpl.
    split; [|split; [|split; [|split; [exact Hq | exact Hp]]]].
    + intros g Hgr. unfold upd. destruct (Z.eqb_spec g (i mod m)) as [-> |Hne].
      * cbn [grpengcfg]. rewrite He by exact Hg. apply round_robin_step. lia.
      * rewrite He by exact Hgr. symmetry. apply round_robin_other; [lia | exact Hne].
    + intros g Hgr. unfold upd. destruct (Z.eqb_spec g (i mod m)) as [-> |Hne].
      * contradiction.
      * apply Ho. exact Hgr.
    + intros g. unfold upd. destruct (Z.eqb_spec g (i mod m)) as [-> |Hne].
      * cbn [grpwqcfg]. apply Hw.
      * apply Hw.
  - exists w'. split; [exact Hl|]. cbn [Z.add] in HI. rewrite Nat2Z.id in HI. exact HI.
Qed.

(** The queue loop over [m] groups, started with empty queue bitmaps; the
    three words written for every queue are distinct words of its entry. *)
Lemma assign_queues_ok (m wq_size mode sizes : Z) (n : nat) (w : world) :
  0 < m -> Z.of_nat n <= 64 ->
  WQ_SIZE_IDX h <> WQ_MODE_IDX h ->
  WQ_SIZE_IDX h <> WQ_SIZES_IDX h ->
  WQ_MODE_IDX h <> WQ_SIZES_IDX h ->
  (forall g, 0 <= g < m -> grpwqcfg (grp_regs w g) 0 = 0) ->
  exists w',
    for_loop n 0 (fun i =>
      g <- lift ModuloByZero (c_mod i m) ;;
      b <- lift ShiftCount (shl_ull 1 i) ;;
      old <- gets (fun w => grpwqcfg (grp_regs w g) 0) ;;
      write_grpwqcfg g 0 (uint64 (Z.lor old b)) ;;
      write_wqcfg i (WQ_SIZE_IDX h) wq_size ;;
      write_wqcfg i (WQ_MODE_IDX h) mode ;;
      write_wqcfg i (WQ_SIZES_IDX h) sizes) w = Ret tt w' /\
    (forall g, 0 <= g < m -> grpwqcfg (grp_regs w' g) 0 = round_robin n m g) /\
    (forall g, ~ 0 <= g < m -> grpwqcfg (grp_regs w' g) 0 = grpwqcfg (grp_regs w g) 0) /\
    (forall g, grpengcfg (grp_regs w' g) = grpengcfg (grp_regs w g)) /\
    (forall q, 0 <= q < Z.of_nat n ->
       wqcfg (wq_regs w' q) (WQ_SIZE_IDX h) = wq_size /\
       wqcfg (wq_regs w' q) (WQ_MODE_IDX h) = mode /\
       wqcfg (wq_regs w' q) (WQ_SIZES_IDX h) = sizes) /\
    same_process w w'.
Proof.
  intros Hm Hn D1 D2 D3 Hz.
  destruct (for_loop_inv
    (fun i w1 =>
       (forall g, 0 <= g < m -> grpwqcfg (grp_regs w1 g) 0 = round_robin (Z.to_nat i) m g) /\
       (forall g, ~ 0 <= g < m -> grpwqcfg (grp_regs w1 g) 0 = grpwqcfg (grp_regs w g) 0) /\
       (forall g, grpengcfg (grp_regs w1 g) = grpengcfg (grp_regs w g)) /\
       (forall q, 0 <= q < i ->
          wqcfg (wq_regs w1 q) (WQ_SIZE_IDX h) = wq_size /\
          wqcfg (wq_regs w1 q) (WQ_MODE_IDX h) = mode /\
          wqcfg (wq_regs w1 q) (WQ_SIZES_IDX h) = sizes) /\
       same_process w w1)
    (fun i =>
      g <- lift ModuloByZero (c_mod i m) ;;
      b <- lift ShiftCount (shl_ull 1 i) ;;
      old <- gets (fun w => grpwqcfg (grp_regs w g) 0) ;;
      write_grpwqcfg g 0 (uint64 (Z.lor old b)) ;;
      write_wqcfg i (WQ_SIZE_IDX h) wq_size ;;
      write_wqcfg i (WQ_MODE_IDX h) mode ;;
      write_wqcfg i (WQ_SIZES_IDX h) sizes) n 0 w) as (w' & Hl & HI).
  - split; [exact Hz|]. repeat split; try apply same_process_refl; lia.
  - intros i w1 Hi (Hb & Ho & He & Hq & Hp).
    assert (Hg : 0 <= i mod m < m) by (apply Z.mod_pos_bound; lia).
    rewrite c_mod_some by lia. rewrite shl_ull_some by lia.
    eexists. split; [reflexivity|]. wsimpl.
    split; [|split; [|split; [|split; [|exact Hp]]]].
    + intros g Hgr. unfold upd at 1. destruct (Z.eqb_spec g (i mod m)) as [-> |Hne].
      * cbn [grpwqcfg]. unfold upd. cbn [Z.eqb]. rewrite Hb by exact Hg.
        apply round_robin_step. lia.
      * rewrite Hb by exact Hgr. symmetry. apply round_robin_other; [lia | exact Hne].
    + intros g Hgr. unfold upd at 1. destruct (Z.eqb_spec g (i mod m)) as [-> |Hne].
      * contradiction.
      * apply Ho. exact Hgr.
    + intros g. unfold upd. destruct (Z.eqb_spec g (i mod m)) as [-> |Hne].
      * cbn [grpengcfg]. apply He.
      * apply He.
    + intros q Hqr. destruct (Z.eq_dec q i) as [-> |Hne].
      * repeat (rewrite upd_same; cbn [wqcfg]).
        rewrite (upd_other _ (WQ_SIZES_IDX h) (WQ_SIZE_IDX h)) by exact D2.
        rewrite (upd_other _ (WQ_SIZES_IDX h) (WQ_MODE_IDX h)) by exact D3.
        repeat (rewrite upd_same; cbn [wqcfg]).
        rewrite (upd_other _ (WQ_MODE_IDX h) (WQ_SIZE_IDX h)) by exact D1.
        repeat (rewrite upd_same; cbn [wqcfg]).
        repeat split; reflexivity.
      * rewrite !(upd_other _ i q) by exact Hne.
        apply Hq. lia.
  - exists w'. split; [exact Hl|]. cbn [Z.add] in HI. rewrite Nat2Z.id in HI. exact HI.
Qed.

(** The whole configuration for a device with at least one and at most 64
    groups after clamping, and between 1 and 64 queues. *)
Lemma configure_device_ok (G E n d c b : Z) (w : world) :
  0 <= G ->
  1 <= Z.min G E <= 64 ->
  1 <= n <= 64 ->
  WQ_SIZE_IDX h <> WQ_MODE_IDX h ->
  WQ_SIZE_IDX h <> WQ_SIZES_IDX h ->
  WQ_MODE_IDX h <> WQ_SIZES_IDX h ->
  exists w',
    configure_device h G E n d c b w = Ret (uint16 (d / n)) w' /\
    (forall g, 0 <= g < Z.min G E ->
       grpengcfg (grp_regs w' g) = round_robin (Z.to_nat (Z.min G E)) (Z.min G E) g /\
       grpwqcfg (grp_regs w' g) 0 = round_robin (Z.to_nat n) (Z.min G E) g) /\
    (forall g, Z.min G E <= g < G ->
       grpengcfg (grp_regs w' g) = 0 /\ grpwqcfg (grp_regs w' g) 0 = 0) /\
    (forall q, 0 <= q < n ->
       wqcfg (wq_regs w' q) (WQ_SIZE_IDX h) = uint16 (d / n) /\
       wqcfg (wq_regs w' q) (WQ_MODE_IDX h) = wq_mode_word h /\
       wqcfg (wq_regs w' q) (WQ_SIZES_IDX h) = wq_sizes_word h c b) /\
    same_process w w'.
Proof.
  intros HG Hm Hn D1 D2 D3.
  unfold configure_device. cbv zeta.
  assert (Hc1 : (if E <? G then E else G) = Z.min G E).
  { destruct (Z.ltb_spec E G); lia. }
  rewrite Hc1.
  assert (Hc2 : (if Z.min G E <? E then Z.min G E else E) = Z.min G E).
  { destruct (Z.ltb_spec (Z.min G E) E); lia. }
  rewrite Hc2.
  destruct (zero_groups_ok (Z.to_nat G) w) as (w1 & L1 & Z1 & Q1 & P1).
  unfold bind at 1. rewrite L1.
  destruct (zero_queues_ok (Z.to_nat n) w1) as (w2 & L2 & G2 & P2).
  unfold bind at 1. rewrite L2.
  destruct (assign_engines_ok (Z.min G E) (Z.to_nat (Z.min G E)) w2)
    as (w3 & L3 & E3 & O3 & W3 & Q3 & P3); [lia | lia | |].
  { intros g Hg. rewrite G2. apply Z1. lia. }
  unfold bind at 1. rewrite L3.
  unfold bind at 1. unfold c_div.
  destruct (Z.eqb_spec n 0) as [|_]; [lia|]. cbn [lift]. unfold ret at 1.
  destruct (assign_queues_ok (Z.min G E) (uint16 (d / n)) (wq_mode_word h)
              (wq_sizes_word h c b) (Z.to_nat n) w3)
    as (w4 & L4 & B4 & O4 & E4 & Q4 & P4); [lia | lia | exact D1 | exact D2 | exact D3 | |].
  { intros g Hg. rewrite W3, G2. apply Z1. lia. }
  unfold bind at 1. rewrite L4.
  exists w4. split; [reflexivity|].
  split; [|split; [|split]].
  - intros g Hg. split.
    + rewrite E4. apply E3. exact Hg.
    + apply B4. exact Hg.
  - intros g Hg. split.
    + rewrite E4, O3 by lia. rewrite G2. apply Z1. lia.
    + rewrite O4 by lia. rewrite W3, G2. apply Z1. lia.
  - intros q Hq. apply Q4. lia.
  - eapply same_process_trans; [exact P1|].
    eapply same_process_trans; [exact P2|].
    eapply same_process_trans; [exact P3 | exact P4].
Qed.

End Configure.

(** ** Initialization: configuration *)

Lemma cap_depth_bound (w : world) : 0 <= cap_depth w < 2 ^ 16.
Proof. unfold cap_depth, uint16. apply Z.mod_pos_bound. lia. Qed.

Lemma cap_groups_bound (w : world) : 0 <= cap_groups w < 2 ^ 8.
Proof. unfold cap_groups, uint8. apply Z.mod_pos_bound. lia. Qed.

Lemma cap_engines_bound (w : world) : 0 <= cap_engines w < 2 ^ 8.
Proof. unfold cap_engines, uint8. apply Z.mod_pos_bound. lia. Qed.

(** Initialization of an idle device with between 1 and 64 groups after
    clamping and between 1 and 64 queues: the tables it leaves, whatever the
    enable command answers. *)
Lemma init_configures (h : ioat_spec) (idxd : idxd_rawdev) (w : world) :
  malloc_ok w = true ->
  Z.land (uint32 (gensts w)) (GENSTS_DEV_STATE_MASK h) = 0 ->
  Z.land (uint32 (cmdstatus w (status_reads w))) (CMDSTATUS_ACTIVE_MASK h) = 0 ->
  0 <= qid idxd < 16 ->
  1 <= cap_clamped w <= 64 ->
  1 <= cap_queues w <= 64 ->
  WQ_SIZE_IDX h <> WQ_MODE_IDX h ->
  WQ_SIZE_IDX h <> WQ_SIZES_IDX h ->
  WQ_MODE_IDX h <> WQ_SIZES_IDX h ->
  exists r w',
    init_pci_device h idxd w =
      Ret (r, mk_idxd (qid idxd) (portal idxd) (cap_depth w / cap_queues w)) w' /\
    (forall g, 0 <= g < cap_clamped w ->
       grpengcfg (grp_regs w' g) =
         round_robin (Z.to_nat (cap_clamped w)) (cap_clamped w) g /\
       grpwqcfg (grp_regs w' g) 0 =
         round_robin (Z.to_nat (cap_queues w)) (cap_clamped w) g) /\
    (forall g, cap_clamped w <= g < cap_groups w ->
       grpengcfg (grp_regs w' g) = 0 /\ grpwqcfg (grp_regs w' g) 0 = 0) /\
    (forall q, 0 <= q < cap_queues w ->
       wqcfg (wq_regs w' q) (WQ_SIZE_IDX h) = cap_depth w / cap_queues w /\
       wqcfg (wq_regs w' q) (WQ_MODE_IDX h) = wq_mode_word h /\
       wqcfg (wq_regs w' q) (WQ_SIZES_IDX h) =
         wq_sizes_word h (cap_copy_exp w) (cap_batch_exp w)).
Proof.
  intros Hm Hs Ha Hq Hc Hn D1 D2 D3.
  rewrite (init_validated h idxd w Hm Hs Ha).
  pose proof (cap_groups_bound w) as HG. pose proof (cap_depth_bound w) as HD.
  assert (Hsz : uint16 (cap_depth w / cap_queues w) = cap_depth w / cap_queues w).
  { apply uint_small. split; [apply Z.div_pos; lia|].
    apply Z.le_lt_trans with (cap_depth w); [|lia].
    apply Z.div_le_upper_bound; nia. }
  destruct (configure_device_ok h (cap_groups w) (cap_engines w) (cap_queues w)
              (cap_depth w) (cap_copy_exp w) (cap_batch_exp w)
              (set_status_reads (S (status_reads w))
                 (set_lk false (set_heap (PciCommon :: heap w) w))))
    as (w1 & L1 & G1 & Z1 & Q1 & P1); try assumption; try lia.
  unfold bind at 1. rewrite L1. rewrite Hsz in *.
  pose proof (cmd_target_small h
                (mk_idxd (qid idxd) (portal idxd) (cap_depth w / cap_queues w))
                (idxd_enable_dev h) Hq) as Ht.
  destruct (command_total h _ _ _ w1 Ht)
    as (r & w2 & L2 & _ & _ & _ & _ & _ & G2 & Q2 & _).
  unfold bind at 1. rewrite L2.
  destruct (negb (r =? 0)).
  - eexists _, _. split; [reflexivity|]. wsimpl. rewrite G2, Q2.
    split; [exact G1 | split; [exact Z1 | exact Q1]].
  - eexists _, _. split; [reflexivity|]. rewrite G2, Q2.
    split; [exact G1 | split; [exact Z1 | exact Q1]].
Qed.

(** ** Claims about the topology *)

(** C5 (as amended): on an idle device reporting at least one group and one
    engine, at most 64 groups after clamping and between 1 and 64 queues,
    initialization returns, and with [m = min(groups, engines)]: engine [i]
    is in group [i mod m] for every [i < m], and the engine bitmaps of the
    groups hold nothing else (engines from [m] on are in no group); queue [i]
    is in group [i mod m] for every queue, and the queue bitmaps hold nothing
    else; every group below [m] has its engine; and the size word of every
    queue is [depth / queues], rounded down. *)
Theorem init_round_robin_topology (h : ioat_spec) (idxd : idxd_rawdev) (w : world) :
  malloc_ok w = true ->
  Z.land (uint32 (gensts w)) (GENSTS_DEV_STATE_MASK h) = 0 ->
  Z.land (uint32 (cmdstatus w (status_reads w))) (CMDSTATUS_ACTIVE_MASK h) = 0 ->
  0 <= qid idxd < 16 ->
  WQ_SIZE_IDX h <> WQ_MODE_IDX h ->
  WQ_SIZE_IDX h <> WQ_SIZES_IDX h ->
  WQ_MODE_IDX h <> WQ_SIZES_IDX h ->
  1 <= cap_groups w ->
  1 <= cap_engines w ->
  cap_clamped w <= 64 ->
  1 <= cap_queues w <= 64 ->
  exists r idxd' w',
    init_pci_device h idxd w = Ret (r, idxd') w' /\
    (forall i, 0 <= i < cap_clamped w ->
       engine_in_group w' i (i mod cap_clamped w) = true) /\
    (forall i g, 0 <= g < cap_groups w ->
       engine_in_group w' i g = true ->
       0 <= i < cap_clamped w /\ g = i mod cap_clamped w) /\
    (forall i, 0 <= i < cap_queues w ->
       queue_in_group w' i (i mod cap_clamped w) = true) /\
    (forall i g, 0 <= g < cap_groups w ->
       queue_in_group w' i g = true ->
       0 <= i < cap_queues w /\ g = i mod cap_clamped w) /\
    (forall g, 0 <= g < cap_clamped w ->
       exists i, 0 <= i < cap_clamped w /\ engine_in_group w' i g = true) /\
    (forall q, 0 <= q < cap_queues w ->
       wqcfg (wq_regs w' q) (WQ_SIZE_IDX h) = cap_depth w / cap_queues w).
Proof.
  intros Hm Hs Ha Hq D1 D2 D3 HG HE Hc Hn.
  assert (Hc1 : 1 <= cap_clamped w <= 64) by (unfold cap_clamped in *; lia).
  assert (Hc2 : cap_clamped w <= cap_groups w) by (unfold cap_clamped; lia).
  destruct (init_configures h idxd w Hm Hs Ha Hq Hc1 Hn D1 D2 D3)
    as (r & w' & L & G1 & Z1 & Q1).
  eexists r, _, w'. split; [exact L|].
  assert (Hbit : forall i g k, 0 <= g < cap_clamped w ->
            Z.testbit (round_robin (Z.to_nat k) (cap_clamped w) g) i = true ->
            0 <= k ->
            0 <= i < k /\ g = i mod cap_clamped w).
  { intros i g k Hg Hb Hk. rewrite round_robin_bit in Hb.
    apply andb_prop in Hb. destruct Hb as (Hb & Hg').
    apply andb_prop in Hb. destruct Hb as (H0 & H1).
    apply Z.leb_le in H0. apply Z.ltb_lt in H1. apply Z.eqb_eq in Hg'. lia. }
  assert (Hset : forall i k, 0 <= i < k ->
            Z.testbit (round_robin (Z.to_nat k) (cap_clamped w) (i mod cap_clamped w)) i
            = true).
  { intros i k Hi. rewrite round_robin_bit.
    replace (0 <=? i) with true by (symmetry; apply Z.leb_le; lia).
    replace (i <? Z.of_nat (Z.to_nat k)) with true by (symmetry; apply Z.ltb_lt; lia).
    rewrite Z.eqb_refl. reflexivity. }
  assert (Hmod : forall i, 0 <= i mod cap_clamped w < cap_clamped w)
    by (intro i; apply Z.mod_pos_bound; lia).
  unfold engine_in_group, queue_in_group.
  split; [|split; [|split; [|split; [|split]]]].
  - intros i Hi. rewrite (proj1 (G1 _ (Hmod i))). apply Hset. exact Hi.
  - intros i g Hg Hb. destruct (Z.lt_ge_cases g (cap_clamped w)) as [Hlt|Hge].
    + rewrite (proj1 (G1 g (conj (proj1 Hg) Hlt))) in Hb.
      apply (Hbit i g (cap_clamped w)); [lia | exact Hb | lia].
    + rewrite (proj1 (Z1 g (conj Hge (proj2 Hg)))) in Hb.
      rewrite Z.testbit_0_l in Hb. discriminate.
  - intros i Hi. rewrite (proj2 (G1 _ (Hmod i))). apply Hset. exact Hi.
  - intros i g Hg Hb. destruct (Z.lt_ge_cases g (cap_clamped w)) as [Hlt|Hge].
    + rewrite (proj2 (G1 g (conj (proj1 Hg) Hlt))) in Hb.
      apply (Hbit i g (cap_queues w)); [lia | exact Hb | lia].
    + rewrite (proj2 (Z1 g (conj Hge (proj2 Hg)))) in Hb.
      rewrite Z.testbit_0_l in Hb. discriminate.
  - intros g Hg. exists g. split; [exact Hg|].
    rewrite (proj1 (G1 g Hg)).
    pose proof (Hset g (cap_clamped w) Hg) as Hb.
    rewrite (Z.mod_small g (cap_clamped w) Hg) in Hb. exact Hb.
  - intros q Hqr. apply (Q1 q Hqr).
Qed.

(** The example device: 4 groups, 4 engines, 8 queues. *)
Lemma init_round_robin_topology_witness :
  exists r idxd' w',
    init_pci_device spr_spec idxd_zero spr_device = Ret (r, idxd') w' /\
    (forall i, 0 <= i < cap_clamped spr_device ->
       engine_in_group w' i (i mod cap_clamped spr_device) = true) /\
    (forall i g, 0 <= g < cap_groups spr_device ->
       engine_in_group w' i g = true ->
       0 <= i < cap_clamped spr_device /\ g = i mod cap_clamped spr_device) /\
    (forall i, 0 <= i < cap_queues spr_device ->
       queue_in_group w' i (i mod cap_clamped spr_device) = true) /\
    (forall i g, 0 <= g < cap_groups spr_device ->
       queue_in_group w' i g = true ->
       0 <= i < cap_queues spr_device /\ g = i mod cap_clamped spr_device) /\
    (forall g, 0 <= g < cap_clamped spr_device ->
       exists i, 0 <= i < cap_clamped spr_device /\ engine_in_group w' i g = true) /\
    (forall q, 0 <= q < cap_queues spr_device ->
       wqcfg (wq_regs w' q) (WQ_SIZE_IDX spr_spec) =
       cap_depth spr_device / cap_queues spr_device).
Proof.
  apply (init_round_robin_topology spr_spec idxd_zero spr_device);
    try reflexivity; try (vm_compute; intuition discriminate).
Defined.

(** C5, the claim as stated fails in two ways.  With 1 group and 2 engines,
    engine 1 is in no group: the engine bitmap of group 0 = 1 mod 1 holds
    engine 0 only.  With 65 queues, initialization shifts [1ULL] by 64 for the
    last queue and its result is not defined although every stated bound
    holds. *)
Lemma init_round_robin_topology_fails :
  option_map (fun w' => (engine_in_group w' 0 0, engine_in_group w' 1 0))
    (final (init_pci_device spr_spec idxd_zero
              (quiet_world 0 (mk_wqcap 1 1) 1 2 (fun _ => 0))))
  = Some (true, false) /\
  init_pci_device spr_spec idxd_zero
    (quiet_world 0 (mk_wqcap 65 65) 1 1 (fun _ => 0))
  = Fault ShiftCount.
Proof.
  split; vm_compute; reflexivity.
Qed.

(** C6: for 4 groups, 4 engines, 8 queues of total depth 128, max-batch
    exponent 4 and max-copy exponent 20, initialization of an idle device
    leaves 4 groups, group [g] holding exactly engine [g] and exactly the
    queues [g] and [g + 4]; every queue has size 16, the mode word
    [(1 << WQ_PRIORITY_SHIFT) | WQ_MODE_DEDICATED] and the size-limits word
    [20 | (4 << WQ_BATCH_SZ_SHIFT)]. *)
Theorem init_example_plan (h : ioat_spec) (idxd : idxd_rawdev) (w : world) :
  malloc_ok w = true ->
  Z.land (uint32 (gensts w)) (GENSTS_DEV_STATE_MASK h) = 0 ->
  Z.land (uint32 (cmdstatus w (status_reads w))) (CMDSTATUS_ACTIVE_MASK h) = 0 ->
  0 <= qid idxd < 16 ->
  WQ_SIZE_IDX h <> WQ_MODE_IDX h ->
  WQ_SIZE_IDX h <> WQ_SIZES_IDX h ->
  WQ_MODE_IDX h <> WQ_SIZES_IDX h ->
  cap_groups w = 4 ->
  cap_engines w = 4 ->
  cap_queues w = 8 ->
  cap_depth w = 128 ->
  cap_batch_exp w = 4 ->
  cap_copy_exp w = 20 ->
  exists r idxd' w',
    init_pci_device h idxd w = Ret (r, idxd') w' /\
    cap_clamped w = 4 /\
    (forall g, 0 <= g < 4 ->
       members (grpengcfg (grp_regs w' g)) = [g] /\
       members (grpwqcfg (grp_regs w' g) 0) = [g; g + 4]) /\
    (forall q, 0 <= q < 8 ->
       wqcfg (wq_regs w' q) (WQ_SIZE_IDX h) = 16 /\
       wqcfg (wq_regs w' q) (WQ_MODE_IDX h) =
         uint32 (Z.lor (Z.shiftl 1 (WQ_PRIORITY_SHIFT h)) (WQ_MODE_DEDICATED h)) /\
       wqcfg (wq_regs w' q) (WQ_SIZES_IDX h) =
         uint32 (Z.lor 20 (Z.shiftl 4 (WQ_BATCH_SZ_SHIFT h)))).
Proof.
  intros Hm Hs Ha Hq D1 D2 D3 HG HE Hn Hd Hb Hc.
  assert (Hcl : cap_clamped w = 4) by (unfold cap_clamped; rewrite HG, HE; reflexivity).
  destruct (init_configures h idxd w Hm Hs Ha Hq) as (r & w' & L & G1 & _ & Q1);
    try assumption; try lia.
  eexists r, _, w'. split; [exact L|]. split; [exact Hcl|].
  rewrite Hcl, Hn, Hd, Hb, Hc in *. split.
  - intros g Hg. destruct (G1 g Hg) as (-> & ->).
    assert (Hcases : g = 0 \/ g = 1 \/ g = 2 \/ g = 3) by lia.
    destruct Hcases as [-> | [-> | [-> | ->]]]; split; vm_compute; reflexivity.
  - intros q Hqr. destruct (Q1 q Hqr) as (-> & -> & ->).
    repeat split; reflexivity.
Qed.

(** With the example header the mode word is 17 and the size-limits word
    148. *)
Lemma init_example_plan_witness :
  exists r idxd' w',
    init_pci_device spr_spec idxd_zero spr_device = Ret (r, idxd') w' /\
    cap_clamped spr_device = 4 /\
    (forall g, 0 <= g < 4 ->
       members (grpengcfg (grp_regs w' g)) = [g] /\
       members (grpwqcfg (grp_regs w' g) 0) = [g; g + 4]) /\
    (forall q, 0 <= q < 8 ->
       wqcfg (wq_regs w' q) 0 = 16 /\
       wqcfg (wq_regs w' q) 2 = 17 /\
       wqcfg (wq_regs w' q) 3 = 148).
Proof.
  apply (init_example_plan spr_spec idxd_zero spr_device);
    try reflexivity; try (vm_compute; intuition discriminate).
Defined.

(** ** The division by the queue count *)

Lemma never_configure_division (h : ioat_spec) (G E n d c b : Z) :
  n <> 0 -> never DivisionByZero (configure_device h G E n d c b).
Proof.
  intro Hn. unfold configure_device. cbv zeta.
  apply never_bind.
  { apply never_for_loop. intro j.
    apply never_bind; [apply never_modify | intros _; apply never_modify]. }
  intros _. apply never_bind.
  { apply never_for_loop. intro j. apply never_modify. }
  intros _. apply never_bind.
  { apply never_for_loop. intro j.
    apply never_bind; [apply never_lift; discriminate | intros g].
    apply never_bind; [apply never_lift; discriminate | intros s].
    apply never_bind; [apply never_gets | intros old]. apply never_modify. }
  intros _. apply never_bind.
  { unfold c_div. destruct (Z.eqb_spec n 0); [contradiction|]. apply never_ret. }
  intros q. apply never_bind; [|intros _; apply never_ret].
  apply never_for_loop. intro j.
  apply never_bind; [apply never_lift; discriminate | intros g].
  apply never_bind; [apply never_lift; discriminate | intros s].
  apply never_bind; [apply never_gets | intros old].
  repeat (apply never_bind; [apply never_modify | intros _]).
  apply never_modify.
Qed.

(** The configuration of a device that reports no queue stops at the
    division. *)
Lemma configure_device_no_queue (h : ioat_spec) (G E d c b : Z) (w : world) :
  0 <= G -> 0 <= E -> Z.min G E <= 64 ->
  configure_device h G E 0 d c b w = Fault DivisionByZero.
Proof.
  intros HG HE Hm. unfold configure_device. cbv zeta.
  assert (Hc1 : (if E <? G then E else G) = Z.min G E).
  { destruct (Z.ltb_spec E G); lia. }
  rewrite Hc1.
  assert (Hc2 : (if Z.min G E <? E then Z.min G E else E) = Z.min G E).
  { destruct (Z.ltb_spec (Z.min G E) E); lia. }
  rewrite Hc2.
  destruct (zero_groups_ok (Z.to_nat G) w) as (w1 & L1 & Z1 & Q1 & P1).
  unfold bind at 1. rewrite L1.
  unfold bind at 1. cbn [Z.to_nat for_loop]. unfold ret at 1.
  destruct (Z.eq_dec (Z.min G E) 0) as [E0|NE0].
  - rewrite E0. cbn [Z.to_nat for_loop]. reflexivity.
  - destruct (assign_engines_ok (Z.min G E) (Z.to_nat (Z.min G E)) w1)
      as (w2 & L2 & _); [lia | lia | |].
    { intros g Hg. apply Z1. lia. }
    unfold bind at 1. rewrite L2. reflexivity.
Qed.

(** C9: on a device that passes the checks, initialization reaches the
    division [total_wq_size / nb_wqs] unguarded: when the queue-count field
    of wqcap is 0 (and the loops before the division are defined, at most 64
    groups after clamping) it ends in a division by zero; when the field is at
    least 1 it never does. *)
Theorem init_divides_by_queue_count (h : ioat_spec) (idxd : idxd_rawdev) (w : world) :
  malloc_ok w = true ->
  Z.land (uint32 (gensts w)) (GENSTS_DEV_STATE_MASK h) = 0 ->
  Z.land (uint32 (cmdstatus w (status_reads w))) (CMDSTATUS_ACTIVE_MASK h) = 0 ->
  (cap_queues w = 0 -> cap_clamped w <= 64 ->
   init_pci_device h idxd w = Fault DivisionByZero) /\
  (1 <= cap_queues w ->
   init_pci_device h idxd w <> Fault DivisionByZero).
Proof.
  intros Hm Hs Ha. rewrite (init_validated h idxd w Hm Hs Ha). split.
  - intros Hn Hc. unfold bind at 1. rewrite Hn.
    rewrite configure_device_no_queue; [reflexivity | | | exact Hc].
    + apply cap_groups_bound.
    + apply cap_engines_bound.
  - intros Hn. apply never_bind.
    + apply never_configure_division. lia.
    + intros q. apply never_bind; [apply never_command; discriminate | intros r].
      destruct (negb (r =? 0)).
      * apply never_bind; [apply never_modify | intros _; apply never_ret].
      * apply never_ret.
Qed.

(** A device reporting 0 queues, and the example device with its 8. *)
Lemma init_divides_by_queue_count_witness :
  init_pci_device spr_spec idxd_zero (quiet_world 0 (mk_wqcap 0 128) 4 4 (fun _ => 0))
  = Fault DivisionByZero /\
  init_pci_device spr_spec idxd_zero spr_device <> Fault DivisionByZero.
Proof.
  split.
  - apply (init_divides_by_queue_count spr_spec idxd_zero
             (quiet_world 0 (mk_wqcap 0 128) 4 4 (fun _ => 0)));
      try reflexivity. vm_compute. discriminate.
  - apply (init_divides_by_queue_count spr_spec idxd_zero spr_device);
      try reflexivity. vm_compute. discriminate.
Defined.

(** ** What initialization leaves of the process *)

Lemma keeps_ret {A} (a : A) : keeps (ret a).
Proof. intros w a' w' E. inversion E. apply same_process_refl. Qed.

Lemma keeps_gets {A} (g : world -> A) : keeps (gets g).
Proof. intros w a' w' E. inversion E. apply same_process_refl. Qed.

Lemma keeps_lift {A} (f : fault) (o : option A) : keeps (lift f o).
Proof.
  intros w a' w' E. destruct o; cbn [lift] in E; [|discriminate].
  inversion E. apply same_process_refl.
Qed.

Lemma keeps_modify (g : world -> world) :
  (forall w, same_process w (g w)) -> keeps (modify g).
Proof. intros Hg w a' w' E. inversion E. apply Hg. Qed.

Lemma keeps_bind {A B} (m : M A) (k : A -> M B) :
  keeps m -> (forall a, keeps (k a)) -> keeps (bind m k).
Proof.
  intros Hm Hk w b w' E. unfold bind in E. destruct (m w) as [a w1|f] eqn:E1; [|discriminate].
  eapply same_process_trans; [exact (Hm _ _ _ E1) | exact (Hk _ _ _ _ E)].
Qed.

Lemma keeps_for_loop (body : Z -> M unit) (n : nat) (i : Z) :
  (forall j, keeps (body j)) -> keeps (for_loop n i body).
Proof.
  intro Hb. revert i. induction n as [|n IH]; intro i; cbn [for_loop].
  - apply keeps_ret.
  - apply keeps_bind; [apply Hb | intros _; apply IH].
Qed.

Lemma keeps_write_grpengcfg (g v : Z) : keeps (write_grpengcfg g v).
Proof. apply keeps_modify. intro w. same_proc. Qed.

Lemma keeps_write_grpwqcfg (g k v : Z) : keeps (write_grpwqcfg g k v).
Proof. apply keeps_modify. intro w. same_proc. Qed.

Lemma keeps_write_wqcfg (q k v : Z) : keeps (write_wqcfg q k v).
Proof. apply keeps_modify. intro w. same_proc. Qed.

Lemma keeps_configure (h : ioat_spec) (G E n d c b : Z) :
  keeps (configure_device h G E n d c b).
Proof.
  unfold configure_device. cbv zeta.
  apply keeps_bind.
  { apply keeps_for_loop. intro j.
    apply keeps_bind; [apply keeps_write_grpengcfg | intros _; apply keeps_write_grpwqcfg]. }
  intros _. apply keeps_bind.
  { apply keeps_for_loop. intro j. apply keeps_write_wqcfg. }
  intros _. apply keeps_bind.
  { apply keeps_for_loop. intro j.
    apply keeps_bind; [apply keeps_lift | intros g].
    apply keeps_bind; [apply keeps_lift | intros s].
    apply keeps_bind; [apply keeps_gets | intros old]. apply keeps_write_grpengcfg. }
  intros _. apply keeps_bind; [apply keeps_lift | intros q].
  apply keeps_bind; [|intros _; apply keeps_ret].
  apply keeps_for_loop. intro j.
  apply keeps_bind; [apply keeps_lift | intros g].
  apply keeps_bind; [apply keeps_lift | intros s].
  apply keeps_bind; [apply keeps_gets | intros old].
  apply keeps_bind; [apply keeps_write_grpwqcfg | intros _].
  repeat (apply keeps_bind; [apply keeps_write_wqcfg | intros _]).
  apply keeps_write_wqcfg.
Qed.

Lemma keeps_poll (h : ioat_spec) (fuel : nat) (i : Z) : keeps (poll h fuel i).
Proof.
  revert i. induction fuel as [|fuel IH]; intros i w a w' E.
  - discriminate.
  - rewrite poll_unfold in E. cbv zeta in E.
    destruct (1000 <=? i + 1).
    + inversion E. same_proc.
    + destruct (Z.land _ _ =? 0).
      * inversion E. same_proc.
      * eapply same_process_trans; [|exact (IH _ _ _ _ E)]. same_proc.
Qed.

Lemma keeps_command (h : ioat_spec) (idxd : idxd_rawdev) (command : Z) :
  keeps (idxd_pci_dev_command h idxd command).
Proof.
  unfold idxd_pci_dev_command.
  apply keeps_bind; [apply keeps_lift | intros q].
  apply keeps_bind; [apply keeps_modify; intro w; same_proc | intros _].
  apply keeps_bind; [apply keeps_modify; intro w; same_proc | intros _].
  apply keeps_poll.
Qed.

Lemma bind_ret_inv {A B} (m : M A) (k : A -> M B) (w w' : world) (b : B) :
  bind m k w = Ret b w' ->
  exists a w1, m w = Ret a w1 /\ k a w1 = Ret b w'.
Proof.
  unfold bind. intro E. destruct (m w) as [a w1|f]; [|discriminate].
  exists a, w1. split; [reflexivity | exact E].
Qed.

(** What the configuration yields when it returns: the queue size. *)
Lemma configure_device_returns (h : ioat_spec) (G E n d c b q : Z) (w w' : world) :
  configure_device h G E n d c b w = Ret q w' -> q = uint16 (d / n).
Proof.
  unfold configure_device. cbv zeta. intro E0.
  destruct (bind_ret_inv _ _ _ _ _ E0) as (? & w1 & _ & E1).
  destruct (bind_ret_inv _ _ _ _ _ E1) as (? & w2 & _ & E2).
  destruct (bind_ret_inv _ _ _ _ _ E2) as (? & w3 & _ & E3).
  destruct (bind_ret_inv _ _ _ _ _ E3) as (a & w4 & Ea & E4).
  destruct (bind_ret_inv _ _ _ _ _ E4) as (? & w5 & _ & E5).
  unfold c_div in Ea. destruct (n =? 0); cbn [lift] in Ea; [discriminate|].
  inversion Ea. inversion E5. subst. reflexivity.
Qed.

(** When initialization returns a non-negative value, the control structure
    has been allocated and is still live, and nothing else of the process
    has changed. *)
Lemma init_nonneg (h : ioat_spec) (idxd idxd1 : idxd_rawdev) (r : Z) (w w1 : world) :
  init_pci_device h idxd w = Ret (r, idxd1) w1 ->
  0 <= r ->
  same_process (set_heap (PciCommon :: heap w) w) w1 /\
  max_batches idxd1 = uint16 (cap_depth w / cap_queues w).
Proof.
  intros E Hr.
  destruct (malloc_ok w) eqn:Hm.
  2:{ unfold init_pci_device in E. unfold bind at 1 in E. unfold malloc_pci in E.
      rewrite Hm in E. cbn [negb] in E. inversion E. lia. }
  destruct (Z.eq_dec (Z.land (uint32 (gensts w)) (GENSTS_DEV_STATE_MASK h)) 0) as [Hs|Hs].
  2:{ destruct (init_not_idle h idxd w) as (w' & E' & _); [left; exact Hs|].
      rewrite E' in E. inversion E. lia. }
  destruct (Z.eq_dec (Z.land (uint32 (cmdstatus w (status_reads w)))
                             (CMDSTATUS_ACTIVE_MASK h)) 0) as [Ha|Ha].
  2:{ destruct (init_not_idle h idxd w) as (w' & E' & _); [right; exact Ha|].
      rewrite E' in E. inversion E. lia. }
  rewrite (init_validated h idxd w Hm Hs Ha) in E.
  unfold bind at 1 in E.
  match type of E with context [configure_device ?a ?b ?c ?d ?e ?f ?g ?w0] =>
    destruct (configure_device a b c d e f g w0) as [q w2|f0] eqn:E1; [|discriminate];
    pose proof (keeps_configure _ _ _ _ _ _ _ _ _ _ E1) as P1
  end.
  unfold bind at 1 in E.
  match type of E with context [idxd_pci_dev_command ?a ?b ?c ?w0] =>
    destruct (idxd_pci_dev_command a b c w0) as [e w3|f0] eqn:E2; [|discriminate];
    pose proof (keeps_command _ _ _ _ _ _ E2) as P2
  end.
  pose proof (configure_device_returns _ _ _ _ _ _ _ _ _ _ E1) as Hq.
  destruct (negb (e =? 0)).
  - unfold bind, IOAT_PMD_ERR, modify, ret in E. inversion E. subst. split; [|reflexivity].
    eapply same_process_trans; [|eapply same_process_trans; [exact P1|]].
    + same_proc.
    + eapply same_process_trans; [exact P2 | same_proc].
  - inversion E. subst. split; [|reflexivity].
    eapply same_process_trans; [|eapply same_process_trans; [exact P1 | exact P2]].
    same_proc.
Qed.

(** ** Probe *)

Section Probe.

Variable h : ioat_spec.

(** One turn of the probe loop. *)
Lemma probe_queues_unfold (name : string) (n : nat) (q : Z) (idxd : idxd_rawdev) (w : world) :
  probe_queues h name (S n) q idxd w =
  let idxd' := mk_idxd (uint8 q) (q * IDXD_PORTAL_SIZE) (max_batches idxd) in
  let w1 :=
    if Z.land (Z.shiftr (uint32 (wqcfg (wq_regs w (uint8 q)) (WQ_STATE_IDX h)))
                        (WQ_STATE_SHIFT h)) (WQ_STATE_MASK h) =? 1
    then set_log (ERR_wq_enabled q :: log w) w else w in
  if create_ret w (qname name q) =? 0 then
    probe_queues h name n (q + 1) idxd'
      (set_heap (BatchRing (qname name q) :: HdlRing (qname name q)
                   :: Memzone (qname name q) :: heap w)
         (set_rawdevs (mk_rawdev (qname name q) (Some idxd') :: rawdevs w) w1))
  else
    Ret (create_ret w (qname name q))
      (if q =? 0
       then set_heap (filter (fun x => negb (resource_eqb PciCommon x)) (heap w))
              (set_log (ERR_create name :: log w1) w1)
       else set_log (ERR_create name :: log w1) w1).
Proof.
  cbn [probe_queues]. cbv zeta.
  unfold idxd_is_wq_enabled, idxd_rawdev_create, IOAT_PMD_ERR, free.
  unfold bind, gets, ret, modify. cbn [qid].
  destruct (Z.land _ _ =? 1); wsimpl;
    destruct (create_ret w (qname name q) =? 0) eqn:E;
    cbv beta iota; rewrite ?E; cbn [negb Z.eqb]; cbv beta iota; wsimpl;
    try reflexivity; destruct (q =? 0); reflexivity.
Qed.

(** The probe loop when the creation of queue [q0 + k] is the first one to
    fail: the handles created before it stay registered with their rings, and
    the control structure is freed exactly when the failing queue is queue 0. *)
Lemma probe_queues_fails (name : string) (mb : Z) (k : nat) :
  forall (n q0 : nat) (idxd : idxd_rawdev) (w : world),
  (k < n)%nat ->
  max_batches idxd = mb ->
  (forall j, (j < k)%nat -> create_ret w (qname name (Z.of_nat (q0 + j))) = 0) ->
  create_ret w (qname name (Z.of_nat (q0 + k))) <> 0 ->
  exists w',
    probe_queues h name n (Z.of_nat q0) idxd w =
      Ret (create_ret w (qname name (Z.of_nat (q0 + k)))) w' /\
    rawdevs w' = created_handles name mb q0 k ++ rawdevs w /\
    heap w' = (if (q0 + k =? 0)%nat
               then filter (fun x => negb (resource_eqb PciCommon x)) (heap w)
               else created_rings name q0 k ++ heap w).
Proof.
  induction k as [|k IH]; intros n q0 idxd w Hn Hmb Hok Hfail.
  - destruct n as [|n]; [lia|]. rewrite probe_queues_unfold. cbv zeta.
    rewrite Nat.add_0_r in *.
    destruct (Z.eqb_spec (create_ret w (qname name (Z.of_nat q0))) 0) as [E|_];
      [contradiction|].
    eexists. split; [reflexivity|].
    destruct q0 as [|q0].
    + cbn [Z.of_nat Z.eqb Nat.eqb].
      destruct (Z.land _ _ =? 1); wsimpl; split; reflexivity.
    + replace (Z.of_nat (S q0) =? 0) with false by (symmetry; apply Z.eqb_neq; lia).
      cbn [Nat.eqb].
      destruct (Z.land _ _ =? 1); wsimpl; split; reflexivity.
  - destruct n as [|n]; [lia|]. rewrite probe_queues_unfold. cbv zeta.
    assert (E0 : create_ret w (qname name (Z.of_nat q0)) = 0).
    { specialize (Hok 0%nat). rewrite Nat.add_0_r in Hok. apply Hok. lia. }
    rewrite E0. cbn [Z.eqb].
    replace (Z.of_nat q0 + 1) with (Z.of_nat (S q0)) by lia.
    match goal with |- context [probe_queues h name n _ ?i ?w2] =>
      destruct (IH n (S q0) i w2) as (w' & L & R & H)
    end.
    + lia.
    + exact Hmb.
    + intros j Hj. replace (S q0 + j)%nat with (q0 + S j)%nat by lia.
      destruct (Z.land _ _ =? 1); wsimpl; apply Hok; lia.
    + replace (S q0 + k)%nat with (q0 + S k)%nat by lia.
      destruct (Z.land _ _ =? 1); wsimpl; exact Hfail.
    + exists w'.
      replace (S q0 + k)%nat with (q0 + S k)%nat in * by lia.
      replace (q0 + S k =? 0)%nat with false in * by (symmetry; apply Nat.eqb_neq; lia).
      split; [|split].
      * rewrite L. destruct (Z.land _ _ =? 1); wsimpl; reflexivity.
      * rewrite R. unfold created_handles. cbn [seq map List.rev].
        rewrite <- app_assoc. rewrite Hmb.
        destruct (Z.land _ _ =? 1); wsimpl; reflexivity.
      * rewrite H. unfold created_rings. cbn [seq List.rev].
        rewrite flat_map_app. cbn [flat_map]. rewrite <- app_assoc.
        destruct (Z.land _ _ =? 1); wsimpl; reflexivity.
Qed.

Lemma existsb_created_rings (name : string) (q0 k : nat) :
  existsb (resource_eqb PciCommon) (created_rings name q0 k) = false.
Proof.
  unfold created_rings. induction (List.rev (seq q0 k)) as [|j l IH]; [reflexivity|].
  cbn [flat_map app existsb resource_eqb orb]. exact IH.
Qed.

End Probe.

(** ** Claims about probe *)

(** C8: when the creation of the handle of queue [k] is the first to fail
    during probe, probe returns that failure; the handles of the queues before
    [k] stay in the registry (and, for [k > 0], their rings and the shared
    control structure stay allocated); the control structure is freed exactly
    when [k = 0]. *)
Theorem probe_partial_failure
    (h : ioat_spec) (name : string) (w : world) (r : Z) (idxd1 : idxd_rawdev) (k : nat) :
  returned (init_pci_device h idxd_zero w) = Some (r, idxd1) ->
  0 <= r ->
  Z.of_nat k < uint8 r ->
  (forall j, (j < k)%nat -> create_ret w (qname name (Z.of_nat j)) = 0) ->
  create_ret w (qname name (Z.of_nat k)) <> 0 ->
  exists w',
    idxd_rawdev_probe_pci h name w = Ret (create_ret w (qname name (Z.of_nat k))) w' /\
    rawdevs w' = created_handles name (max_batches idxd1) 0 k ++ rawdevs w /\
    live PciCommon w' = negb (k =? 0)%nat /\
    (k <> 0%nat -> heap w' = created_rings name 0 k ++ PciCommon :: heap w).
Proof.
  intros Hinit Hr Hk Hok Hfail.
  destruct (init_pci_device h idxd_zero w) as [[r' i'] w1|f] eqn:E; [|discriminate].
  cbn [returned] in Hinit. inversion Hinit. subst r' i'.
  destruct (init_nonneg h _ _ _ _ _ E Hr) as (P & _).
  unfold same_process in P. wsimpl_in P.
  destruct P as (_ & _ & Pc & _ & _ & _ & _ & _ & _ & Ph & Pr).
  unfold idxd_rawdev_probe_pci. unfold bind. unfold idxd_zero in E. rewrite E.
  replace (r <? 0) with false by (symmetry; apply Z.ltb_ge; lia).
  destruct (probe_queues_fails h name (max_batches idxd1) k (Z.to_nat (uint8 r)) 0 idxd1 w1)
    as (w' & L & R & H); [lia | reflexivity | | |].
  { intros j Hj. cbn [Nat.add]. rewrite Pc. apply Hok. exact Hj. }
  { cbn [Nat.add]. rewrite Pc. exact Hfail. }
  cbn [Nat.add Z.of_nat] in L, R, H. rewrite Pc in L. rewrite Pr in R. rewrite Ph in H.
  exists w'. split; [exact L|]. split; [exact R|].
  unfold live. rewrite H. destruct k as [|k].
  - cbn [Nat.eqb negb]. split; [apply live_free | intro Hc; contradiction].
  - cbn [Nat.eqb negb]. split; [|intros _; reflexivity].
    rewrite existsb_app, existsb_created_rings. reflexivity.
Qed.

(** The example device when the creation of the handle of queue 2 fails
    with -12. *)
Lemma probe_partial_failure_witness :
  exists w',
    idxd_rawdev_probe_pci spr_spec spr_name
      (with_create_ret (create_fails_at (qname spr_name 2) (-12)) spr_device)
    = Ret (-12) w' /\
    rawdevs w' = created_handles spr_name 16 0 2 ++ [] /\
    live PciCommon w' = true /\
    (2%nat <> 0%nat -> heap w' = created_rings spr_name 0 2 ++ [PciCommon]).
Proof.
  apply (probe_partial_failure spr_spec spr_name
           (with_create_ret (create_fails_at (qname spr_name 2) (-12)) spr_device)
           8 (mk_idxd 0 0 16) 2).
  - vm_compute. reflexivity.
  - lia.
  - vm_compute. reflexivity.
  - intros j Hj. destruct j as [|[|j]]; [reflexivity | reflexivity | lia].
  - vm_compute. discriminate.
Defined.

(** C2, what the code does when the enable command fails: initialization
    logs the error and returns the positive error code 3, which probe then
    reads as a queue count; it creates the handles of queues 0 to 2 of the
    8-queue device and returns 0. *)
Theorem probe_takes_enable_error_for_queue_count :
  returned (init_pci_device spr_spec idxd_zero enable_error_device)
    = Some (3, mk_idxd 0 0 16) /\
  option_map log (final (init_pci_device spr_spec idxd_zero enable_error_device))
    = Some [ERR_enabling 3] /\
  returned (idxd_rawdev_probe_pci spr_spec spr_name enable_error_device) = Some 0 /\
  option_map (fun w' => map dev_name (rawdevs w'))
    (final (idxd_rawdev_probe_pci spr_spec spr_name enable_error_device))
    = Some [qname spr_name 2; qname spr_name 1; qname spr_name 0].
Proof.
  repeat split; vm_compute; reflexivity.
Qed.

(** ** Removal *)

Lemma existsb_filter_false {A} (p q : A -> bool) (l : list A) :
  existsb p l = false -> existsb p (filter q l) = false.
Proof.
  induction l as [|x l IH]; [reflexivity|].
  cbn [existsb filter]. intro Hx. apply orb_false_iff in Hx. destruct Hx as (Hp & Hl).
  destruct (q x); [cbn [existsb]; rewrite Hp; exact (IH Hl) | exact (IH Hl)].
Qed.

Lemma find_filter_name (name : string) (l : list rte_rawdev) :
  find (fun d => String.eqb (dev_name d) name)
       (filter (fun d => negb (String.eqb (dev_name d) name)) l) = None.
Proof.
  induction l as [|d l IH]; [reflexivity|].
  cbn [filter]. destruct (String.eqb (dev_name d) name) eqn:E; cbn [negb]; [exact IH|].
  cbn [find]. rewrite E. exact IH.
Qed.

Lemma found_name (name : string) (w : world) (rdev : rte_rawdev) :
  rte_rawdev_pmd_get_named_dev name w = Some rdev -> dev_name rdev = name.
Proof.
  unfold rte_rawdev_pmd_get_named_dev. intro Hf.
  apply find_some in Hf. destruct Hf as (_ & E). apply String.eqb_eq. exact E.
Qed.

(** C1 (as amended): on removal of a registered handle, the disable command
    is issued; when its result is nonzero, removal logs it, returns it and
    stops: heap and registry are what they were; when it is zero, removal
    clears the private data, frees the batch ring, the handle ring and the
    memzone, calls the release of the registration (which removes the handle
    when it succeeds) and returns 0. *)
Theorem destroy_stops_when_disable_fails
    (h : ioat_spec) (name : string) (w : world) (rdev : rte_rawdev)
    (idxd : idxd_rawdev) (q : Z) :
  rte_rawdev_pmd_get_named_dev name w = Some rdev ->
  dev_private rdev = Some idxd ->
  cmd_target h idxd (idxd_disable_dev h) = Some q ->
  exists r w1,
    idxd_pci_dev_command h idxd (idxd_disable_dev h) w = Ret r w1 /\
    (uint8 r <> 0 ->
     exists w',
       idxd_rawdev_destroy h (Some name) w = Ret (uint8 r) w' /\
       heap w' = heap w /\
       rawdevs w' = rawdevs w /\
       log w' = ERR_disabling (uint8 r) :: log w1) /\
    (uint8 r = 0 ->
     exists w',
       idxd_rawdev_destroy h (Some name) w = Ret 0 w' /\
       live (BatchRing name) w' = false /\
       live (HdlRing name) w' = false /\
       live (Memzone name) w' = false /\
       (release_ret w name = 0 -> rte_rawdev_pmd_get_named_dev name w' = None)).
Proof.
  intros Hf Hp Hq.
  pose proof (found_name name w rdev Hf) as Hn.
  destruct (command_total h idxd _ q w Hq)
    as (r & w1 & L & _ & _ & _ & _ & _ & _ & _ & Hh & Hr).
  pose proof (keeps_command h idxd _ _ _ _ L) as P.
  unfold same_process in P. destruct P as (_ & _ & _ & Prel & _).
  exists r, w1. split; [exact L|].
  assert (Hd : idxd_rawdev_destroy h (Some name) w =
               (let err_code := uint8 r in
                if negb (err_code =? 0) then
                  (IOAT_PMD_ERR (ERR_disabling err_code) ;; ret err_code) w1
                else
                  (clear_dev_private name ;;
                   free (BatchRing name) ;; free (HdlRing name) ;; free (Memzone name) ;;
                   rte_rawdev_pmd_release name ;; ret 0) w1)).
  { unfold idxd_rawdev_destroy. unfold bind at 1. unfold gets at 1. rewrite Hf.
    rewrite Hp, Hn. cbn [lift]. unfold bind at 1. unfold ret at 1.
    unfold bind at 1. rewrite L. cbv zeta.
    destruct (negb (uint8 r =? 0)); reflexivity. }
  rewrite Hd. cbv zeta. split.
  - intro Hne. destruct (Z.eqb_spec (uint8 r) 0) as [E|_]; [contradiction|]. cbn [negb].
    eexists. split; [reflexivity|]. wsimpl. repeat split; assumption.
  - intro He. rewrite He. cbn [Z.eqb negb].
    unfold clear_dev_private, free, rte_rawdev_pmd_release.
    unfold bind, modify, gets, ret. cbv beta. wsimpl.
    rewrite Prel.
    destruct (Z.eqb_spec (release_ret w name) 0) as [E|E].
    + eexists. split; [reflexivity|]. unfold live, rte_rawdev_pmd_get_named_dev. wsimpl.
      split; [|split; [|split]].
      * apply existsb_filter_false. apply existsb_filter_false. apply live_free.
      * apply existsb_filter_false. apply live_free.
      * apply live_free.
      * intros _. apply find_filter_name.
    + eexists. split; [reflexivity|]. unfold live. wsimpl.
      split; [|split; [|split]].
      * apply existsb_filter_false. apply existsb_filter_false. apply live_free.
      * apply existsb_filter_false. apply live_free.
      * apply live_free.
      * intro Hc. contradiction.
Qed.

(** A running device whose disable command completes with error code 1. *)
Lemma destroy_stops_when_disable_fails_witness :
  exists r w1,
    idxd_pci_dev_command spr_spec (mk_idxd 0 0 16) 2
      (running_device (fun n => if Nat.eqb n 0 then 1 else 0)) = Ret r w1 /\
    (uint8 r <> 0 ->
     exists w',
       idxd_rawdev_destroy spr_spec (Some (qname spr_name 0))
         (running_device (fun n => if Nat.eqb n 0 then 1 else 0)) = Ret (uint8 r) w' /\
       heap w' = [BatchRing (qname spr_name 0); HdlRing (qname spr_name 0);
                  Memzone (qname spr_name 0); PciCommon] /\
       rawdevs w' = [mk_rawdev (qname spr_name 0) (Some (mk_idxd 0 0 16))] /\
       log w' = ERR_disabling (uint8 r) :: log w1) /\
    (uint8 r = 0 ->
     exists w',
       idxd_rawdev_destroy spr_spec (Some (qname spr_name 0))
         (running_device (fun n => if Nat.eqb n 0 then 1 else 0)) = Ret 0 w' /\
       live (BatchRing (qname spr_name 0)) w' = false /\
       live (HdlRing (qname spr_name 0)) w' = false /\
       live (Memzone (qname spr_name 0)) w' = false /\
       (0 = 0 -> rte_rawdev_pmd_get_named_dev (qname spr_name 0) w' = None)).
Proof.
  apply (destroy_stops_when_disable_fails spr_spec (qname spr_name 0)
           (running_device (fun n => if Nat.eqb n 0 then 1 else 0))
           (mk_rawdev (qname spr_name 0) (Some (mk_idxd 0 0 16)))
           (mk_idxd 0 0 16) 0);
    reflexivity.
Defined.

(** C1, the claim as stated fails: when the disable command completes with
    error code 1, removal returns 1 and nothing is torn down: the rings, the
    memzone and the control structure stay allocated and the handle stays
    registered with its private data. *)
Lemma destroy_keeps_everything_on_error :
  returned (idxd_rawdev_destroy spr_spec (Some (qname spr_name 0))
              (running_device (fun n => if Nat.eqb n 0 then 1 else 0)))
    = Some 1 /\
  option_map heap
    (final (idxd_rawdev_destroy spr_spec (Some (qname spr_name 0))
              (running_device (fun n => if Nat.eqb n 0 then 1 else 0))))
    = Some [BatchRing (qname spr_name 0); HdlRing (qname spr_name 0);
            Memzone (qname spr_name 0); PciCommon] /\
  option_map rawdevs
    (final (idxd_rawdev_destroy spr_spec (Some (qname spr_name 0))
              (running_device (fun n => if Nat.eqb n 0 then 1 else 0))))
    = Some [mk_rawdev (qname spr_name 0) (Some (mk_idxd 0 0 16))] /\
  returned (idxd_rawdev_remove_pci spr_spec (qname spr_name 0)
              (running_device (fun n => if Nat.eqb n 0 then 1 else 0)))
    = Some 1.
Proof.
  repeat split; vm_compute; reflexivity.
Qed.

(** * Further properties *)

(** ** The command executor: completion, result range, target range *)

Lemma land_byte (x m : Z) : 0 <= x < 2 ^ 8 -> 0 <= Z.land x m < 2 ^ 8.
Proof.
  intro Hx.
  assert (Hn : 0 <= Z.land x m) by (apply Z.land_nonneg; left; lia).
  split; [exact Hn|].
  assert (E : Z.land x m = Z.land x m mod 2 ^ 8).
  { apply Z.bits_inj'. intros n Hnn.
    destruct (Z.lt_ge_cases n 8) as [Hlt|Hge].
    - rewrite Z.mod_pow2_bits_low by lia. reflexivity.
    - rewrite Z.mod_pow2_bits_high by lia. rewrite Z.land_spec.
      replace x with (x mod 2 ^ 8) by (apply Z.mod_small; exact Hx).
      rewrite Z.mod_pow2_bits_high by lia. reflexivity. }
  rewrite E. apply Z.mod_pos_bound. lia.
Qed.

Lemma uint8_byte (x : Z) : 0 <= uint8 x < 2 ^ 8.
Proof. unfold uint8. apply Z.mod_pos_bound. lia. Qed.

Section ExecutorMore.

Variable h : ioat_spec.

(** Whatever the loop returns is a byte. *)
Lemma poll_result_byte (fuel : nat) :
  forall (i : Z) (w w' : world) (r : Z),
  poll h fuel i w = Ret r w' -> 0 <= r < 2 ^ 8.
Proof.
  induction fuel as [|fuel IH]; intros i w w' r E.
  - discriminate.
  - rewrite poll_unfold in E. cbv zeta in E.
    destruct (1000 <=? i + 1).
    + inversion E. apply uint8_byte.
    + destruct (Z.land _ _ =? 0).
      * inversion E. apply land_byte. apply uint8_byte.
      * exact (IH _ _ _ _ E).
Qed.

(** The loop started at [i] when the command completes in turn [k + 1],
    before the cap. *)
Lemma poll_done (k : nat) :
  forall (fuel : nat) (i : Z) (w : world) (code : Z),
  (k < fuel)%nat ->
  0 <= i -> i + Z.of_nat k + 1 < 1000 ->
  completes_with h w (status_reads w) k code ->
  exists w',
    poll h fuel i w = Ret code w' /\
    pauses w' = (pauses w + k + 1)%nat /\
    status_reads w' = (status_reads w + 2 * k + 2)%nat /\
    lk w' = false /\
    log w' = log w /\
    same_device w w'.
Proof.
  induction k as [|k IH]; intros fuel i w code Hf Hi Hk (Hbusy & Hclear & Hcode).
  - destruct fuel as [|fuel]; [lia|]. rewrite poll_unfold. cbv zeta.
    replace (1000 <=? i + 1) with false by (symmetry; apply Z.leb_gt; lia).
    replace (status_reads w + 2 * 0 + 1)%nat with (S (status_reads w)) in Hclear by lia.
    replace (status_reads w + 2 * 0)%nat with (status_reads w) in Hcode by lia.
    rewrite Hclear, Hcode. cbn [Z.eqb].
    eexists. split; [reflexivity|]. unfold same_device. wsimpl.
    repeat split; lia.
  - destruct fuel as [|fuel]; [lia|]. rewrite poll_unfold. cbv zeta.
    replace (1000 <=? i + 1) with false by (symmetry; apply Z.leb_gt; lia).
    destruct (Z.eqb_spec (Z.land (uint32 (cmdstatus w (S (status_reads w))))
                                 (CMDSTATUS_ACTIVE_MASK h)) 0) as [E|_].
    { exfalso. apply (Hbusy 0%nat); [lia|].
      replace (status_reads w + 2 * 0 + 1)%nat with (S (status_reads w)) by lia.
      exact E. }
    match goal with |- context [poll h fuel (i + 1) ?w2] =>
      destruct (IH fuel (i + 1) w2 code) as (w' & Hr & Hp & Hs & Hl & Hg & Hd)
    end; [lia | lia | lia | |].
    { unfold completes_with. wsimpl. split; [|split].
      - intros j Hj.
        replace (S (S (status_reads w)) + 2 * j + 1)%nat
          with (status_reads w + 2 * S j + 1)%nat by lia.
        apply Hbusy. lia.
      - replace (S (S (status_reads w)) + 2 * k + 1)%nat
          with (status_reads w + 2 * S k + 1)%nat by lia.
        exact Hclear.
      - replace (S (S (status_reads w)) + 2 * k)%nat
          with (status_reads w + 2 * S k)%nat by lia.
        exact Hcode. }
    exists w'. unfold same_device in *. wsimpl_in Hp. wsimpl_in Hs.
    wsimpl_in Hg. wsimpl_in Hd.
    repeat split; try tauto; try lia.
Qed.

(** A command that returns had a defined target, and its world is the one
    [command_total] describes. *)
Lemma command_ret_inv (idxd : idxd_rawdev) (command r : Z) (w w' : world) :
  idxd_pci_dev_command h idxd command w = Ret r w' ->
  exists q,
    cmd_target h idxd command = Some q /\
    0 <= r < 2 ^ 8 /\
    lk w' = false /\
    cmd w' = uint32 (Z.lor (Z.shiftl command (IDXD_CMD_SHIFT h)) q) /\
    writes w' = (REG_cmd, cmd w') :: writes w /\
    grp_regs w' = grp_regs w /\ wq_regs w' = wq_regs w /\
    same_process w w'.
Proof.
  intro E. destruct (cmd_target h idxd command) as [q|] eqn:Hq.
  2:{ unfold idxd_pci_dev_command in E. rewrite Hq in E. discriminate. }
  exists q. split; [reflexivity|].
  pose proof (keeps_command h idxd command _ _ _ E) as P.
  destruct (command_total h idxd command q w Hq)
    as (r2 & w2 & L & Hl & _ & Hc & Hw & _ & Hg & Hwq & _).
  rewrite E in L. inversion L. subst r2 w2.
  rewrite (command_unfold h _ _ _ _ Hq) in E.
  pose proof (poll_result_byte _ _ _ _ _ E) as Hb.
  split; [exact Hb|]. split; [exact Hl|]. split; [exact Hc|]. split; [exact Hw|].
  split; [exact Hg|]. split; [exact Hwq | exact P].
Qed.

End ExecutorMore.

(** X1: a command completes in turn [k + 1] of the poll loop, for any
    [k < 999], when the loop condition finds the active bit set in the first
    [k] turns and clear in turn [k + 1]: it returns the error field of the
    byte stored in that turn, after exactly [k + 1] pauses and [2k + 2] reads
    of the status register, with the lock released and no timeout logged. *)
Theorem command_completes_in_turn
    (h : ioat_spec) (idxd : idxd_rawdev) (command q code : Z) (w : world) (k : nat) :
  cmd_target h idxd command = Some q ->
  (k < 999)%nat ->
  completes_with h w (status_reads w) k code ->
  exists w',
    idxd_pci_dev_command h idxd command w = Ret code w' /\
    pauses w' = (pauses w + k + 1)%nat /\
    status_reads w' = (status_reads w + 2 * k + 2)%nat /\
    lk w' = false /\
    log w' = log w.
Proof.
  intros Hq Hk Hc. rewrite (command_unfold h _ _ _ w Hq).
  match goal with |- context [poll h 1000 0 ?w1] =>
    destruct (poll_done h k 1000 0 w1 code) as (w' & Hr & Hp & Hs & Hl & Hg & _)
  end; [lia | lia | lia | exact Hc |].
  exists w'. wsimpl_in Hp. wsimpl_in Hs. wsimpl_in Hg.
  repeat split; assumption.
Qed.

(** The enable command on a device that stays busy for two turns and then
    reports error code 5. *)
Lemma command_completes_in_turn_witness :
  exists w',
    idxd_pci_dev_command spr_spec idxd_zero 1
      (quiet_world 0 0 0 0 (fun n => if (n <? 4)%nat then 2 ^ 31 else 5)) = Ret 5 w' /\
    pauses w' = 3%nat /\
    status_reads w' = 6%nat /\
    lk w' = false /\
    log w' = [].
Proof.
  apply (command_completes_in_turn spr_spec idxd_zero 1 0 5
           (quiet_world 0 0 0 0 (fun n => if (n <? 4)%nat then 2 ^ 31 else 5)) 2).
  - reflexivity.
  - lia.
  - split; [|split].
    + intros j Hj. destruct j as [|[|j]]; [vm_compute; discriminate .. | lia].
    + reflexivity.
    + reflexivity.
Defined.

(** X2: every command whose target is defined returns a value between 0 and
    255 with the lock released, having written the command register once and
    no other register, and having left the group table, the queue table, the
    heap and the registry as they were. *)
Theorem command_returns_byte_and_writes_once
    (h : ioat_spec) (idxd : idxd_rawdev) (command q : Z) (w : world) :
  cmd_target h idxd command = Some q ->
  exists r w',
    idxd_pci_dev_command h idxd command w = Ret r w' /\
    0 <= r <= 255 /\
    lk w' = false /\
    writes w' = (REG_cmd, uint32 (Z.lor (Z.shiftl command (IDXD_CMD_SHIFT h)) q)) :: writes w /\
    grp_regs w' = grp_regs w /\ wq_regs w' = wq_regs w /\
    heap w' = heap w /\ rawdevs w' = rawdevs w.
Proof.
  intro Hq.
  destruct (command_total h idxd command q w Hq) as (r & w' & L & _).
  destruct (command_ret_inv h _ _ _ _ _ L) as (q' & Hq' & Hb & Hl & Hc & Hw & Hg & Hwq & P).
  rewrite Hq in Hq'. inversion Hq'. subst q'.
  unfold same_process in P. destruct P as (_ & _ & _ & _ & _ & _ & _ & _ & _ & Hh & Hr).
  exists r, w'. rewrite Hc in Hw.
  change (2 ^ 8) with 256 in Hb.
  repeat split; try assumption; lia.
Qed.

(** The disable command of the example header for the handle of queue 0. *)
Lemma command_returns_byte_and_writes_once_witness :
  exists r w',
    idxd_pci_dev_command spr_spec (mk_idxd 0 0 16) 2 (running_device (fun _ => 0))
      = Ret r w' /\
    0 <= r <= 255 /\
    lk w' = false /\
    writes w' = [(REG_cmd, 512)] /\
    grp_regs w' = (fun _ => zero_grpcfg) /\ wq_regs w' = (fun _ => zero_wqcfg) /\
    heap w' = heap (running_device (fun _ => 0)) /\
    rawdevs w' = rawdevs (running_device (fun _ => 0)).
Proof.
  apply (command_returns_byte_and_writes_once spr_spec (mk_idxd 0 0 16) 2 0
           (running_device (fun _ => 0))).
  reflexivity.
Defined.

(** X3: for a command in the queue range [idxd_disable_wq .. idxd_reset_wq]
    and a queue index from 16 to 30, the mask [1 << qid] does not fit the
    16-bit local that holds the target: the target is 0 and the command
    register is written, once, with the shifted opcode alone, so the value
    written is the same for all these queues. *)
Theorem command_target_beyond_16_bits
    (h : ioat_spec) (idxd : idxd_rawdev) (command : Z) (w : world) :
  wq_command h command = true ->
  16 <= qid idxd <= 30 ->
  exists r w',
    idxd_pci_dev_command h idxd command w = Ret r w' /\
    cmd w' = uint32 (Z.shiftl command (IDXD_CMD_SHIFT h)) /\
    writes w' = (REG_cmd, cmd w') :: writes w.
Proof.
  intros Hwq Hq.
  assert (Ht : cmd_target h idxd command = Some 0).
  { unfold cmd_target. rewrite Hwq.
    assert (Hu : uint16 (qid idxd) = qid idxd) by (apply uint_small; lia).
    rewrite Hu. unfold shl_int. rewrite Z.shiftl_1_l.
    replace (0 <=? qid idxd) with true by (symmetry; apply Z.leb_le; lia).
    replace (qid idxd <? 32) with true by (symmetry; apply Z.ltb_lt; lia).
    replace (2 ^ qid idxd <? 2 ^ 31) with true
      by (symmetry; apply Z.ltb_lt; apply Z.pow_lt_mono_r; lia).
    cbn [andb option_map]. f_equal. unfold uint16.
    assert (E : 2 ^ qid idxd = 2 ^ (qid idxd - 16) * 2 ^ 16)
      by (rewrite <- Z.pow_add_r by lia; f_equal; lia).
    rewrite E. apply Z.mod_mul. lia. }
  destruct (command_total h idxd command 0 w Ht) as (r & w' & L & _ & _ & Hc & Hw & _).
  exists r, w'. split; [exact L|]. split; [|exact Hw].
  rewrite Hc, Z.lor_0_r. reflexivity.
Qed.

(** Opcode 7 of the example header for queue 20. *)
Lemma command_target_beyond_16_bits_witness :
  exists r w',
    idxd_pci_dev_command spr_spec (mk_idxd 20 0 0) 7 (quiet_world 0 0 0 0 (fun _ => 0))
      = Ret r w' /\
    cmd w' = 1792 /\
    writes w' = [(REG_cmd, cmd w')].
Proof.
  apply (command_target_beyond_16_bits spr_spec (mk_idxd 20 0 0) 7
           (quiet_world 0 0 0 0 (fun _ => 0))); [reflexivity | cbn; lia].
Defined.

(** ** Frames *)

Section Frames.

Variable R : world -> world -> Prop.
Hypothesis R_refl : forall w, R w w.
Hypothesis R_trans : forall w1 w2 w3, R w1 w2 -> R w2 w3 -> R w1 w3.

Lemma keeps_rel_ret {A} (a : A) : keeps_rel R (ret a).
Proof. intros w a' w' E. inversion E. apply R_refl. Qed.

Lemma keeps_rel_gets {A} (g : world -> A) : keeps_rel R (gets g).
Proof. intros w a' w' E. inversion E. apply R_refl. Qed.

Lemma keeps_rel_modify (g : world -> world) :
  (forall w, R w (g w)) -> keeps_rel R (modify g).
Proof. intros Hg w a' w' E. inversion E. apply Hg. Qed.

Lemma keeps_rel_bind {A B} (m : M A) (k : A -> M B) :
  keeps_rel R m -> (forall a, keeps_rel R (k a)) -> keeps_rel R (bind m k).
Proof.
  intros Hm Hk w b w' E. destruct (bind_ret_inv _ _ _ _ _ E) as (a & w1 & E1 & E2).
  eapply R_trans; [exact (Hm _ _ _ E1) | exact (Hk _ _ _ _ E2)].
Qed.

(** Binding the value of an option: the continuation only runs on it. *)
Lemma keeps_rel_bind_lift {A B} (f : fault) (o : option A) (k : A -> M B) :
  (forall a, o = Some a -> keeps_rel R (k a)) -> keeps_rel R (bind (lift f o) k).
Proof.
  intros Hk w b w' E. destruct o as [a|]; [|discriminate].
  exact (Hk a eq_refl _ _ _ E).
Qed.

(** A loop whose body keeps [R] for the indices it runs over. *)
Lemma keeps_rel_for_loop (body : Z -> M unit) (n : nat) :
  forall i0,
  (forall j, i0 <= j < i0 + Z.of_nat n -> keeps_rel R (body j)) ->
  keeps_rel R (for_loop n i0 body).
Proof.
  induction n as [|n IH]; intros i0 Hb; cbn [for_loop].
  - apply keeps_rel_ret.
  - apply keeps_rel_bind; [apply Hb; lia | intros _].
    apply IH. intros j Hj. apply Hb. lia.
Qed.

End Frames.

Lemma tables_only_refl (w : world) : tables_only w w.
Proof. unfold tables_only. repeat split. Qed.

Lemma tables_only_trans (w1 w2 w3 : world) :
  tables_only w1 w2 -> tables_only w2 w3 -> tables_only w1 w3.
Proof.
  unfold tables_only. intros (A0 & A1 & A2 & A3 & A4 & A5) (B0 & B1 & B2 & B3 & B4 & B5).
  split; [exact (same_process_trans _ _ _ A0 B0)|]. repeat split; congruence.
Qed.

Lemma outside_config_refl (h : ioat_spec) (G n : Z) (w : world) : outside_config h G n w w.
Proof. unfold outside_config. repeat split. Qed.

Lemma outside_config_trans (h : ioat_spec) (G n : Z) (w1 w2 w3 : world) :
  outside_config h G n w1 w2 -> outside_config h G n w2 w3 -> outside_config h G n w1 w3.
Proof.
  unfold outside_config. intros (A1 & A2 & A3 & A4 & A5) (B1 & B2 & B3 & B4 & B5).
  split; [|split; [|split; [|split]]].
  - intros g Hg. rewrite B1, A1 by exact Hg. reflexivity.
  - intros g. rewrite B2, A2. reflexivity.
  - intros g k Hk. rewrite B3, A3 by exact Hk. reflexivity.
  - intros q Hq. rewrite B4, A4 by exact Hq. reflexivity.
  - intros q k H0 H1 H2 H3. rewrite B5, A5 by assumption. reflexivity.
Qed.

Section ConfigureFrames.

Variable h : ioat_spec.

Lemma tables_only_write_grpengcfg (g v : Z) : keeps_rel tables_only (write_grpengcfg g v).
Proof.
  apply keeps_rel_modify. intro w. unfold tables_only, same_process.
  cbv beta zeta. wsimpl. repeat split.
Qed.

Lemma tables_only_write_grpwqcfg (g k v : Z) : keeps_rel tables_only (write_grpwqcfg g k v).
Proof.
  apply keeps_rel_modify. intro w. unfold tables_only, same_process.
  cbv beta zeta. wsimpl. repeat split.
Qed.

Lemma tables_only_write_wqcfg (q k v : Z) : keeps_rel tables_only (write_wqcfg q k v).
Proof.
  apply keeps_rel_modify. intro w. unfold tables_only, same_process.
  cbv beta zeta. wsimpl. repeat split.
Qed.

Lemma tables_only_configure (G E n d c b : Z) :
  keeps_rel tables_only (configure_device h G E n d c b).
Proof.
  pose proof tables_only_refl as Rr. pose proof tables_only_trans as Rt.
  unfold configure_device. cbv zeta.
  apply keeps_rel_bind; try assumption.
  { apply keeps_rel_for_loop; try assumption. intros j _.
    apply keeps_rel_bind; try assumption;
      [apply tables_only_write_grpengcfg | intros _; apply tables_only_write_grpwqcfg]. }
  intros _. apply keeps_rel_bind; try assumption.
  { apply keeps_rel_for_loop; try assumption. intros j _. apply tables_only_write_wqcfg. }
  intros _. apply keeps_rel_bind; try assumption.
  { apply keeps_rel_for_loop; try assumption. intros j _.
    apply keeps_rel_bind_lift. intros g _.
    apply keeps_rel_bind_lift. intros s _.
    apply keeps_rel_bind; try assumption; [apply keeps_rel_gets; assumption | intros old].
    apply tables_only_write_grpengcfg. }
  intros _. apply keeps_rel_bind_lift. intros q _.
  apply keeps_rel_bind; try assumption; [|intros _; apply keeps_rel_ret; assumption].
  apply keeps_rel_for_loop; try assumption. intros j _.
  apply keeps_rel_bind_lift. intros g _.
  apply keeps_rel_bind_lift. intros s _.
  apply keeps_rel_bind; try assumption; [apply keeps_rel_gets; assumption | intros old].
  apply keeps_rel_bind; try assumption; [apply tables_only_write_grpwqcfg | intros _].
  repeat (apply keeps_rel_bind; try assumption; [apply tables_only_write_wqcfg | intros _]).
  apply tables_only_write_wqcfg.
Qed.

Lemma outside_write_grpengcfg (G n g v : Z) :
  0 <= g < G -> keeps_rel (outside_config h G n) (write_grpengcfg g v).
Proof.
  intro Hg. apply keeps_rel_modify. intro w. unfold outside_config.
  cbv beta zeta. wsimpl.
  split; [|split; [|split; [|split]]].
  - intros g' Hg'. apply upd_other. lia.
  - intros g'. unfold upd. destruct (g' =? g) eqn:E; [|reflexivity].
    apply Z.eqb_eq in E. subst. reflexivity.
  - intros g' k _. unfold upd. destruct (g' =? g) eqn:E; [|reflexivity].
    apply Z.eqb_eq in E. subst. reflexivity.
  - reflexivity.
  - reflexivity.
Qed.

Lemma outside_write_grpwqcfg (G n g v : Z) :
  0 <= g < G -> keeps_rel (outside_config h G n) (write_grpwqcfg g 0 v).
Proof.
  intro Hg. apply keeps_rel_modify. intro w. unfold outside_config.
  cbv beta zeta. wsimpl.
  split; [|split; [|split; [|split]]].
  - intros g' Hg'. apply upd_other. lia.
  - intros g'. unfold upd at 1. destruct (g' =? g) eqn:E; [|reflexivity].
    apply Z.eqb_eq in E. subst. reflexivity.
  - intros g' k Hk. unfold upd at 1. destruct (g' =? g) eqn:E; [|reflexivity].
    apply Z.eqb_eq in E. subst. cbn [grpwqcfg]. apply upd_other. exact Hk.
  - reflexivity.
  - reflexivity.
Qed.

Lemma outside_write_wqcfg (G n q k v : Z) :
  0 <= q < n ->
  k = 0 \/ k = WQ_SIZE_IDX h \/ k = WQ_MODE_IDX h \/ k = WQ_SIZES_IDX h ->
  keeps_rel (outside_config h G n) (write_wqcfg q k v).
Proof.
  intros Hq Hk. apply keeps_rel_modify. intro w. unfold outside_config.
  cbv beta zeta. wsimpl.
  split; [|split; [|split; [|split]]]; try reflexivity.
  - intros q' Hq'. apply upd_other. lia.
  - intros q' k' H0 H1 H2 H3. unfold upd at 1. destruct (q' =? q) eqn:E; [|reflexivity].
    apply Z.eqb_eq in E. subst. cbn [wqcfg]. apply upd_other.
    destruct Hk as [-> | [-> | [-> | ->]]]; assumption.
Qed.

Lemma c_mod_inv (i m g : Z) : c_mod i m = Some g -> m <> 0 /\ g = i mod m.
Proof.
  unfold c_mod. destruct (Z.eqb_spec m 0); intro E; [discriminate|].
  inversion E. split; [assumption | reflexivity].
Qed.

Lemma outside_configure (G E n d c b : Z) :
  0 <= G -> 0 <= E ->
  keeps_rel (outside_config h G n) (configure_device h G E n d c b).
Proof.
  intros HG HE.
  pose proof (outside_config_refl h G n) as Rr.
  pose proof (outside_config_trans h G n) as Rt.
  unfold configure_device. cbv zeta.
  assert (Hc1 : (if E <? G then E else G) = Z.min G E).
  { destruct (Z.ltb_spec E G); lia. }
  rewrite Hc1.
  assert (Hmod : forall i g, c_mod i (Z.min G E) = Some g -> 0 <= g < G).
  { intros i g Hm. apply c_mod_inv in Hm. destruct Hm as (Hne & ->).
    assert (0 <= i mod Z.min G E < Z.min G E) by (apply Z.mod_pos_bound; lia). lia. }
  apply keeps_rel_bind; try assumption.
  { apply keeps_rel_for_loop; try assumption. intros j Hj.
    apply keeps_rel_bind; try assumption;
      [apply outside_write_grpengcfg | intros _; apply outside_write_grpwqcfg]; lia. }
  intros _. apply keeps_rel_bind; try assumption.
  { apply keeps_rel_for_loop; try assumption. intros j Hj.
    apply outside_write_wqcfg; [lia | left; reflexivity]. }
  intros _. apply keeps_rel_bind; try assumption.
  { apply keeps_rel_for_loop; try assumption. intros j _.
    apply keeps_rel_bind_lift. intros g Hg.
    apply keeps_rel_bind_lift. intros s _.
    apply keeps_rel_bind; try assumption; [apply keeps_rel_gets; assumption | intros old].
    apply outside_write_grpengcfg. exact (Hmod _ _ Hg). }
  intros _. apply keeps_rel_bind_lift. intros q _.
  apply keeps_rel_bind; try assumption; [|intros _; apply keeps_rel_ret; assumption].
  apply keeps_rel_for_loop; try assumption. intros j Hj.
  apply keeps_rel_bind_lift. intros g Hg.
  apply keeps_rel_bind_lift. intros s _.
  apply keeps_rel_bind; try assumption; [apply keeps_rel_gets; assumption | intros old].
  apply keeps_rel_bind; try assumption;
    [apply outside_write_grpwqcfg; exact (Hmod _ _ Hg) | intros _].
  apply keeps_rel_bind; try assumption;
    [apply outside_write_wqcfg; [lia | right; left; reflexivity] | intros _].
  apply keeps_rel_bind; try assumption;
    [apply outside_write_wqcfg; [lia | right; right; left; reflexivity] | intros _].
  apply outside_write_wqcfg; [lia | right; right; right; reflexivity].
Qed.

End ConfigureFrames.

(** ** Initialization: every outcome *)

Section InitMore.

Variable h : ioat_spec.

Lemma init_no_memory (idxd : idxd_rawdev) (w : world) :
  malloc_ok w = false ->
  init_pci_device h idxd w = Ret (-1, idxd) (set_log (ERR_alloc :: log w) w).
Proof.
  intro Hm. unfold init_pci_device. unfold bind at 1. unfold malloc_pci. rewrite Hm.
  reflexivity.
Qed.

(** What a run of initialization that passed the checks and returned went
    through: the configuration, then the enable command, whose result decides
    the value returned. *)
Lemma init_validated_inv (idxd i' : idxd_rawdev) (r : Z) (w w' : world) :
  malloc_ok w = true ->
  Z.land (uint32 (gensts w)) (GENSTS_DEV_STATE_MASK h) = 0 ->
  Z.land (uint32 (cmdstatus w (status_reads w))) (CMDSTATUS_ACTIVE_MASK h) = 0 ->
  init_pci_device h idxd w = Ret (r, i') w' ->
  exists w2 e w3,
    configure_device h (cap_groups w) (cap_engines w) (cap_queues w)
      (cap_depth w) (cap_copy_exp w) (cap_batch_exp w)
      (set_status_reads (S (status_reads w))
         (set_lk false (set_heap (PciCommon :: heap w) w)))
    = Ret (uint16 (cap_depth w / cap_queues w)) w2 /\
    idxd_pci_dev_command h
      (mk_idxd (qid idxd) (portal idxd) (uint16 (cap_depth w / cap_queues w)))
      (idxd_enable_dev h) w2 = Ret e w3 /\
    ((e <> 0 /\ r = e /\ w' = set_log (ERR_enabling e :: log w3) w3) \/
     (e = 0 /\ r = cap_queues w /\ w' = w3)).
Proof.
  intros Hm Hs Ha E. rewrite (init_validated h idxd w Hm Hs Ha) in E.
  destruct (bind_ret_inv _ _ _ _ _ E) as (q & w2 & E1 & E2).
  pose proof (configure_device_returns _ _ _ _ _ _ _ _ _ _ E1) as Hq. subst q.
  destruct (bind_ret_inv _ _ _ _ _ E2) as (e & w3 & E3 & E4).
  exists w2, e, w3. split; [exact E1|]. split; [exact E3|].
  destruct (Z.eqb_spec e 0) as [He|He]; cbn [negb] in E4.
  - right. inversion E4. split; [exact He|]. split; reflexivity.
  - left. unfold bind, IOAT_PMD_ERR, modify, ret in E4. inversion E4. subst.
    split; [exact He|]. split; reflexivity.
Qed.

(** The configuration returns whenever its loops are defined. *)
Lemma configure_device_total (G E n d c b : Z) (w : world) :
  1 <= Z.min G E <= 64 ->
  1 <= n <= 64 ->
  exists w', configure_device h G E n d c b w = Ret (uint16 (d / n)) w'.
Proof.
  intros Hm Hn. unfold configure_device. cbv zeta.
  assert (Hc1 : (if E <? G then E else G) = Z.min G E).
  { destruct (Z.ltb_spec E G); lia. }
  rewrite Hc1.
  destruct (zero_groups_ok (Z.to_nat G) w) as (w1 & L1 & _).
  unfold bind at 1. rewrite L1.
  destruct (zero_queues_ok (Z.to_nat n) w1) as (w2 & L2 & _).
  unfold bind at 1. rewrite L2.
  match goal with |- context [bind (for_loop ?k 0 ?body) _ w2] =>
    destruct (for_loop_inv (fun _ _ => True) body k 0 w2) as (w3 & L3 & _)
  end; [exact I | |].
  { intros i wi Hi _.
    assert (i < 64).
    { destruct (Z.ltb_spec (Z.min G E) E); lia. }
    rewrite c_mod_some by lia. rewrite shl_ull_some by lia.
    eexists. split; [reflexivity | exact I]. }
  unfold bind at 1. rewrite L3.
  unfold bind at 1. unfold c_div.
  destruct (Z.eqb_spec n 0) as [|_]; [lia|]. cbn [lift]. unfold ret at 1.
  match goal with |- context [bind (for_loop ?k 0 ?body) _ w3] =>
    destruct (for_loop_inv (fun _ _ => True) body k 0 w3) as (w4 & L4 & _)
  end; [exact I | |].
  { intros i wi Hi _.
    rewrite c_mod_some by lia. rewrite shl_ull_some by lia.
    eexists. split; [reflexivity | exact I]. }
  unfold bind at 1. rewrite L4. exists w4. reflexivity.
Qed.

(** Initialization of an idle device when the enable command completes in
    turn [k + 1] with the error field [code]. *)
Lemma init_completes (idxd : idxd_rawdev) (w : world) (q code : Z) (k : nat) :
  malloc_ok w = true ->
  Z.land (uint32 (gensts w)) (GENSTS_DEV_STATE_MASK h) = 0 ->
  Z.land (uint32 (cmdstatus w (status_reads w))) (CMDSTATUS_ACTIVE_MASK h) = 0 ->
  cmd_target h idxd (idxd_enable_dev h) = Some q ->
  1 <= cap_clamped w <= 64 ->
  1 <= cap_queues w <= 64 ->
  (k < 999)%nat ->
  completes_with h w (S (status_reads w)) k code ->
  exists w',
    init_pci_device h idxd w =
      Ret (if code =? 0 then cap_queues w else code,
           mk_idxd (qid idxd) (portal idxd) (cap_depth w / cap_queues w)) w' /\
    log w' = (if code =? 0 then log w else ERR_enabling code :: log w) /\
    lk w' = false /\
    heap w' = PciCommon :: heap w /\
    rawdevs w' = rawdevs w /\
    create_ret w' = create_ret w /\
    pauses w' = (pauses w + k + 1)%nat /\
    cmd w' = uint32 (Z.lor (Z.shiftl (idxd_enable_dev h) (IDXD_CMD_SHIFT h)) q).
Proof.
  intros Hm Hs Ha Hq Hc Hn Hk Hdone.
  rewrite (init_validated h idxd w Hm Hs Ha).
  pose proof (cap_depth_bound w) as HD.
  assert (Hsz : uint16 (cap_depth w / cap_queues w) = cap_depth w / cap_queues w).
  { apply uint_small. split; [apply Z.div_pos; lia|].
    apply Z.le_lt_trans with (cap_depth w); [|lia].
    apply Z.div_le_upper_bound; nia. }
  match goal with |- context [configure_device h ?a ?b ?c ?d ?e ?f] =>
    match goal with |- context [bind _ _ ?w1] =>
      destruct (configure_device_total a b c d e f w1) as (w2 & L1); [exact Hc | exact Hn |];
      pose proof (tables_only_configure h _ _ _ _ _ _ _ _ _ L1) as T
    end
  end.
  unfold bind at 1. rewrite L1. rewrite Hsz.
  unfold tables_only, same_process in T. wsimpl_in T.
  destruct T as ((_ & Tc & Tcr & _ & _ & _ & _ & _ & _ & Th & Tr) & Tcmd & Ts & Tl & Tp & Tlog).
  unfold bind at 1.
  assert (Hq2 : cmd_target h
                  (mk_idxd (qid idxd) (portal idxd) (cap_depth w / cap_queues w))
                  (idxd_enable_dev h) = Some q) by exact Hq.
  rewrite (command_unfold h _ _ _ w2 Hq2).
  match goal with |- context [poll h 1000 0 ?w3] =>
    destruct (poll_done h k 1000 0 w3 code) as (w' & Lp & Pp & Ps & Pl & Plog & Pd)
  end; [lia | lia | lia | |].
  { unfold completes_with in *. wsimpl. rewrite Tc, Ts. exact Hdone. }
  rewrite Lp. unfold same_device in Pd. wsimpl_in Pp. wsimpl_in Plog. wsimpl_in Pd.
  destruct Pd as (_ & Pcmd & _ & _ & _ & Ph & Pr).
  assert (Pcr : create_ret w' = create_ret w).
  { pose proof (keeps_poll h _ _ _ _ _ Lp) as K. unfold same_process in K. wsimpl_in K.
    destruct K as (_ & _ & K & _). rewrite K. exact Tcr. }
  destruct (Z.eqb_spec code 0) as [E0|E0]; cbn [negb].
  - exists w'. split; [reflexivity|].
    repeat split; congruence.
  - eexists. split; [reflexivity|]. wsimpl.
    repeat split; congruence.
Qed.

End InitMore.

(** X4: whenever initialization returns, its value is -1 or lies between 0
    and 255; it is -1 exactly when the allocation failed, the state field of
    the device status was not idle, or a command was in flight, and then no
    register was written.  So the [(uint8_t)] cast in probe loses nothing of a
    non-negative result. *)
Theorem init_return_value
    (h : ioat_spec) (idxd i' : idxd_rawdev) (r : Z) (w w' : world) :
  init_pci_device h idxd w = Ret (r, i') w' ->
  -1 <= r <= 255 /\
  (r = -1 <->
   malloc_ok w = false \/
   Z.land (uint32 (gensts w)) (GENSTS_DEV_STATE_MASK h) <> 0 \/
   Z.land (uint32 (cmdstatus w (status_reads w))) (CMDSTATUS_ACTIVE_MASK h) <> 0) /\
  (r = -1 -> writes w' = writes w /\ cmd w' = cmd w).
Proof.
  intro E.
  destruct (malloc_ok w) eqn:Hm.
  2:{ rewrite (init_no_memory h idxd w Hm) in E. inversion E. subst.
      split; [lia|]. split; [split; [intros _; left; reflexivity | reflexivity]|].
      intros _. split; reflexivity. }
  destruct (Z.eq_dec (Z.land (uint32 (gensts w)) (GENSTS_DEV_STATE_MASK h)) 0) as [Hs|Hs].
  2:{ destruct (init_not_idle h idxd w) as (w2 & E2 & Hw & Hc & _); [left; exact Hs|].
      rewrite E2 in E. inversion E. subst.
      split; [lia|]. split; [split; [intros _; right; left; exact Hs | reflexivity]|].
      intros _. split; assumption. }
  destruct (Z.eq_dec (Z.land (uint32 (cmdstatus w (status_reads w)))
                             (CMDSTATUS_ACTIVE_MASK h)) 0) as [Ha|Ha].
  2:{ destruct (init_not_idle h idxd w) as (w2 & E2 & Hw & Hc & _); [right; exact Ha|].
      rewrite E2 in E. inversion E. subst.
      split; [lia|]. split; [split; [intros _; right; right; exact Ha | reflexivity]|].
      intros _. split; assumption. }
  destruct (init_validated_inv h _ _ _ _ _ Hm Hs Ha E) as (w2 & e & w3 & _ & E3 & Hr).
  destruct (command_ret_inv h _ _ _ _ _ E3) as (q & _ & Hb & _).
  change (2 ^ 8) with 256 in Hb.
  assert (Hn : 0 <= cap_queues w < 256).
  { unfold cap_queues, uint8. apply Z.mod_pos_bound. lia. }
  assert (Hr0 : 0 <= r <= 255) by (destruct Hr as [(_ & -> & _) | (_ & -> & _)]; lia).
  split; [lia|]. split.
  - split; [intro; lia|]. intros [Hx | [Hx | Hx]]; [discriminate | contradiction ..].
  - intro. lia.
Qed.

(** The example device when its status register reads "enabled". *)
Lemma init_return_value_witness :
  -1 <= -1 <= 255 /\
  (-1 = -1 <->
   malloc_ok (with_gensts 1 spr_device) = false \/
   Z.land (uint32 (gensts (with_gensts 1 spr_device))) (GENSTS_DEV_STATE_MASK spr_spec) <> 0 \/
   Z.land (uint32 (cmdstatus (with_gensts 1 spr_device)
                     (status_reads (with_gensts 1 spr_device))))
          (CMDSTATUS_ACTIVE_MASK spr_spec) <> 0) /\
  (-1 = -1 ->
   writes (world_after (init_pci_device spr_spec idxd_zero (with_gensts 1 spr_device))
             spr_device) = writes (with_gensts 1 spr_device) /\
   cmd (world_after (init_pci_device spr_spec idxd_zero (with_gensts 1 spr_device))
          spr_device) = cmd (with_gensts 1 spr_device)).
Proof.
  apply (init_return_value spr_spec idxd_zero idxd_zero (-1) (with_gensts 1 spr_device)
           (world_after (init_pci_device spr_spec idxd_zero (with_gensts 1 spr_device))
              spr_device)).
  vm_compute. reflexivity.
Defined.

(** X5: on an idle device with at least one and at most 64 groups after
    clamping and between 1 and 64 queues, when the enable command completes
    before the cap with error field 0, initialization returns the queue
    count, sets [max_batches] to the queue size [depth / queues], logs
    nothing, keeps the control structure allocated and leaves the lock
    released and the registry as it was. *)
Theorem init_success
    (h : ioat_spec) (idxd : idxd_rawdev) (w : world) (q : Z) (k : nat) :
  malloc_ok w = true ->
  Z.land (uint32 (gensts w)) (GENSTS_DEV_STATE_MASK h) = 0 ->
  Z.land (uint32 (cmdstatus w (status_reads w))) (CMDSTATUS_ACTIVE_MASK h) = 0 ->
  cmd_target h idxd (idxd_enable_dev h) = Some q ->
  1 <= cap_clamped w <= 64 ->
  1 <= cap_queues w <= 64 ->
  (k < 999)%nat ->
  completes_with h w (S (status_reads w)) k 0 ->
  exists w',
    init_pci_device h idxd w =
      Ret (cap_queues w, mk_idxd (qid idxd) (portal idxd) (cap_depth w / cap_queues w)) w' /\
    log w' = log w /\
    lk w' = false /\
    heap w' = PciCommon :: heap w /\
    rawdevs w' = rawdevs w /\
    pauses w' = (pauses w + k + 1)%nat.
Proof.
  intros Hm Hs Ha Hq Hc Hn Hk Hd.
  destruct (init_completes h idxd w q 0 k Hm Hs Ha Hq Hc Hn Hk Hd)
    as (w' & L & Hl & Hlk & Hh & Hr & _ & Hp & _).
  exists w'. cbn [Z.eqb] in L, Hl. repeat split; assumption.
Qed.

(** The example device; the enable command completes in its first turn. *)
Lemma init_success_witness :
  exists w',
    init_pci_device spr_spec idxd_zero spr_device = Ret (8, mk_idxd 0 0 16) w' /\
    log w' = [] /\
    lk w' = false /\
    heap w' = [PciCommon] /\
    rawdevs w' = [] /\
    pauses w' = 1%nat.
Proof.
  apply (init_success spr_spec idxd_zero spr_device 0 0).
  - reflexivity.
  - reflexivity.
  - reflexivity.
  - reflexivity.
  - vm_compute. split; discriminate.
  - vm_compute. split; discriminate.
  - lia.
  - split; [intros j Hj; lia | split; reflexivity].
Defined.

(** X6: under the same conditions, when the enable command completes with a
    nonzero error field, initialization logs it and returns it as a positive
    value; the control structure stays allocated (this path does not free
    it), the lock is released and the registry is as it was. *)
Theorem init_enable_error
    (h : ioat_spec) (idxd : idxd_rawdev) (w : world) (q code : Z) (k : nat) :
  malloc_ok w = true ->
  Z.land (uint32 (gensts w)) (GENSTS_DEV_STATE_MASK h) = 0 ->
  Z.land (uint32 (cmdstatus w (status_reads w))) (CMDSTATUS_ACTIVE_MASK h) = 0 ->
  cmd_target h idxd (idxd_enable_dev h) = Some q ->
  1 <= cap_clamped w <= 64 ->
  1 <= cap_queues w <= 64 ->
  (k < 999)%nat ->
  completes_with h w (S (status_reads w)) k code ->
  code <> 0 ->
  exists w',
    init_pci_device h idxd w =
      Ret (code, mk_idxd (qid idxd) (portal idxd) (cap_depth w / cap_queues w)) w' /\
    0 < code <= 255 /\
    log w' = ERR_enabling code :: log w /\
    lk w' = false /\
    heap w' = PciCommon :: heap w /\
    rawdevs w' = rawdevs w.
Proof.
  intros Hm Hs Ha Hq Hc Hn Hk Hd Hne.
  destruct (init_completes h idxd w q code k Hm Hs Ha Hq Hc Hn Hk Hd)
    as (w' & L & Hl & Hlk & Hh & Hr & _).
  destruct (Z.eqb_spec code 0) as [|_]; [contradiction|].
  exists w'. split; [exact L|]. split.
  - destruct Hd as (_ & _ & Hcode).
    pose proof (land_byte (uint8 (uint32 (cmdstatus w (S (status_reads w) + 2 * k)%nat)))
                  (CMDSTATUS_ERR_MASK h) (uint8_byte _)) as Hb.
    rewrite Hcode in Hb. change (2 ^ 8) with 256 in Hb. lia.
  - repeat split; assumption.
Qed.

(** The example device when the enable command completes with error 3. *)
Lemma init_enable_error_witness :
  exists w',
    init_pci_device spr_spec idxd_zero enable_error_device = Ret (3, mk_idxd 0 0 16) w' /\
    0 < 3 <= 255 /\
    log w' = [ERR_enabling 3] /\
    lk w' = false /\
    heap w' = [PciCommon] /\
    rawdevs w' = [].
Proof.
  apply (init_enable_error spr_spec idxd_zero enable_error_device 0 3 0).
  - reflexivity.
  - reflexivity.
  - reflexivity.
  - reflexivity.
  - vm_compute. split; discriminate.
  - vm_compute. split; discriminate.
  - lia.
  - split; [intros j Hj; lia | split; reflexivity].
  - discriminate.
Defined.

(** X7: the queue loop takes [i % nb_groups] unguarded: on a device that
    passes the checks and reports no group or no engine (so that the clamped
    group count is 0) but at least one queue, initialization ends in a modulo
    by zero at the first queue. *)
Theorem init_modulo_by_group_count (h : ioat_spec) (idxd : idxd_rawdev) (w : world) :
  malloc_ok w = true ->
  Z.land (uint32 (gensts w)) (GENSTS_DEV_STATE_MASK h) = 0 ->
  Z.land (uint32 (cmdstatus w (status_reads w))) (CMDSTATUS_ACTIVE_MASK h) = 0 ->
  cap_clamped w = 0 ->
  1 <= cap_queues w ->
  init_pci_device h idxd w = Fault ModuloByZero.
Proof.
  intros Hm Hs Ha Hc Hn. rewrite (init_validated h idxd w Hm Hs Ha).
  unfold bind at 1. unfold configure_device. cbv zeta.
  assert (Hc1 : (if cap_engines w <? cap_groups w then cap_engines w else cap_groups w) = 0).
  { unfold cap_clamped in Hc. destruct (Z.ltb_spec (cap_engines w) (cap_groups w)); lia. }
  rewrite Hc1.
  assert (Hc2 : (if 0 <? cap_engines w then 0 else cap_engines w) = 0).
  { pose proof (cap_engines_bound w). destruct (Z.ltb_spec 0 (cap_engines w)); lia. }
  rewrite Hc2.
  match goal with |- context [bind (for_loop ?k 0 ?body) _ ?w1] =>
    destruct (zero_groups_ok k w1) as (w2 & L1 & _)
  end.
  unfold bind at 1. rewrite L1.
  destruct (zero_queues_ok (Z.to_nat (cap_queues w)) w2) as (w3 & L2 & _).
  unfold bind at 1. rewrite L2.
  unfold bind at 1. cbn [Z.to_nat for_loop]. unfold ret at 1.
  unfold bind at 1. unfold c_div.
  destruct (Z.eqb_spec (cap_queues w) 0) as [|_]; [lia|]. cbn [lift]. unfold ret at 1.
  destruct (Z.to_nat (cap_queues w)) as [|n] eqn:En; [lia|].
  cbn [for_loop]. reflexivity.
Qed.

(** A device reporting 4 groups, no engine and 8 queues. *)
Lemma init_modulo_by_group_count_witness :
  init_pci_device spr_spec idxd_zero
    (quiet_world (mk_gencap 20 4) (mk_wqcap 8 128) 4 0 (fun _ => 0))
  = Fault ModuloByZero.
Proof.
  apply (init_modulo_by_group_count spr_spec idxd_zero
           (quiet_world (mk_gencap 20 4) (mk_wqcap 8 128) 4 0 (fun _ => 0)));
    try reflexivity.
  vm_compute. discriminate.
Defined.

(** X8: whenever initialization returns, it has written no table entry
    beyond the groups and queues the device reports, no flags word of a
    group, no word of a queue bitmap but word 0, and no word of a queue entry
    but word 0 and the size, mode and size-limit words. *)
Theorem init_writes_within_reported_tables
    (h : ioat_spec) (idxd i' : idxd_rawdev) (r : Z) (w w' : world) :
  init_pci_device h idxd w = Ret (r, i') w' ->
  outside_config h (cap_groups w) (cap_queues w) w w'.
Proof.
  intro E.
  destruct (malloc_ok w) eqn:Hm.
  2:{ rewrite (init_no_memory h idxd w Hm) in E. inversion E.
      unfold outside_config. wsimpl. repeat split. }
  destruct (Z.eq_dec (Z.land (uint32 (gensts w)) (GENSTS_DEV_STATE_MASK h)) 0) as [Hs|Hs].
  2:{ destruct (init_not_idle h idxd w) as (w2 & E2 & _ & _ & Hg & Hq & _); [left; exact Hs|].
      rewrite E2 in E. inversion E. subst. unfold outside_config. rewrite Hg, Hq.
      repeat split. }
  destruct (Z.eq_dec (Z.land (uint32 (cmdstatus w (status_reads w)))
                             (CMDSTATUS_ACTIVE_MASK h)) 0) as [Ha|Ha].
  2:{ destruct (init_not_idle h idxd w) as (w2 & E2 & _ & _ & Hg & Hq & _); [right; exact Ha|].
      rewrite E2 in E. inversion E. subst. unfold outside_config. rewrite Hg, Hq.
      repeat split. }
  destruct (init_validated_inv h _ _ _ _ _ Hm Hs Ha E) as (w2 & e & w3 & E1 & E3 & Hr).
  pose proof (outside_configure h _ _ _ _ _ _
                (proj1 (cap_groups_bound w)) (proj1 (cap_engines_bound w)) _ _ _ E1) as O.
  destruct (command_ret_inv h _ _ _ _ _ E3) as (q & _ & _ & _ & _ & _ & Hg & Hq & _).
  unfold outside_config in *. wsimpl_in O.
  destruct Hr as [(_ & _ & ->) | (_ & _ & ->)]; wsimpl; rewrite Hg, Hq; exact O.
Qed.

(** The example device after its initialization. *)
Lemma init_writes_within_reported_tables_witness :
  outside_config spr_spec (cap_groups spr_device) (cap_queues spr_device) spr_device
    (world_after (init_pci_device spr_spec idxd_zero spr_device) spr_device).
Proof.
  apply (init_writes_within_reported_tables spr_spec idxd_zero (mk_idxd 0 0 16) 8).
  vm_compute. reflexivity.
Defined.

(** ** Probe: the other outcomes *)

Section ProbeMore.

Variable h : ioat_spec.

(** The probe loop when every creation succeeds. *)
Lemma probe_queues_succeeds (name : string) (mb : Z) (n : nat) :
  forall (q0 : nat) (idxd : idxd_rawdev) (w : world),
  max_batches idxd = mb ->
  (forall j, (j < n)%nat -> create_ret w (qname name (Z.of_nat (q0 + j))) = 0) ->
  exists w',
    probe_queues h name n (Z.of_nat q0) idxd w = Ret 0 w' /\
    rawdevs w' = created_handles name mb q0 n ++ rawdevs w /\
    heap w' = created_rings name q0 n ++ heap w /\
    log w' = enabled_anomalies h w q0 n ++ log w /\
    wq_regs w' = wq_regs w /\
    writes w' = writes w /\
    lk w' = lk w.
Proof.
  induction n as [|n IH]; intros q0 idxd w Hmb Hok.
  - exists w. repeat split.
  - rewrite probe_queues_unfold. cbv zeta.
    assert (E0 : create_ret w (qname name (Z.of_nat q0)) = 0).
    { specialize (Hok 0%nat). rewrite Nat.add_0_r in Hok. apply Hok. lia. }
    rewrite E0. cbn [Z.eqb].
    replace (Z.of_nat q0 + 1) with (Z.of_nat (S q0)) by lia.
    match goal with |- context [probe_queues h name n _ ?i ?w2] =>
      destruct (IH (S q0) i w2) as (w' & L & R & H & Lg & Q & W & K)
    end.
    + exact Hmb.
    + intros j Hj. replace (S q0 + j)%nat with (q0 + S j)%nat by lia.
      destruct (Z.land _ _ =? 1); wsimpl; apply Hok; lia.
    + exists w'. split; [exact L|].
      assert (Hen : enabled_anomalies h w q0 (S n) =
                    enabled_anomalies h w (S q0) n ++
                    (if wq_reads_enabled h w (Z.of_nat q0)
                     then [ERR_wq_enabled (Z.of_nat q0)] else [])).
      { unfold enabled_anomalies. cbn [seq map filter].
        destruct (wq_reads_enabled h w (Z.of_nat q0)).
        - cbn [List.rev]. rewrite map_app. reflexivity.
        - rewrite app_nil_r. reflexivity. }
      rewrite Hen. unfold wq_reads_enabled.
      split; [|split; [|split; [|split; [|split]]]].
      * rewrite R. unfold created_handles. cbn [seq map List.rev].
        rewrite <- app_assoc. rewrite Hmb.
        destruct (Z.land _ _ =? 1); wsimpl; reflexivity.
      * rewrite H. unfold created_rings. cbn [seq List.rev].
        rewrite flat_map_app. cbn [flat_map]. rewrite <- app_assoc.
        destruct (Z.land _ _ =? 1); wsimpl; reflexivity.
      * rewrite Lg. rewrite <- app_assoc.
        destruct (Z.land _ _ =? 1); wsimpl; reflexivity.
      * rewrite Q. destruct (Z.land _ _ =? 1); wsimpl; reflexivity.
      * rewrite W. destruct (Z.land _ _ =? 1); wsimpl; reflexivity.
      * rewrite K. destruct (Z.land _ _ =? 1); wsimpl; reflexivity.
Qed.

(** The probe loop, whatever its outcome, adds to the registry nothing but
    handles named after queues of [name]. *)
Lemma probe_queues_registry (name : string) (n : nat) :
  forall (q : Z) (idxd : idxd_rawdev) (w w' : world) (x : Z),
  probe_queues h name n q idxd w = Ret x w' ->
  registers_queues_of name w w'.
Proof.
  induction n as [|n IH]; intros q idxd w w' x E.
  - inversion E. unfold registers_queues_of. repeat split. intros d Hd. left. exact Hd.
  - rewrite probe_queues_unfold in E. cbv zeta in E.
    destruct (create_ret w (qname name q) =? 0).
    + apply IH in E. unfold registers_queues_of in *.
      destruct E as (Ec & Er & Ein).
      split; [|split].
      * rewrite Ec. destruct (Z.land _ _ =? 1); reflexivity.
      * rewrite Er. destruct (Z.land _ _ =? 1); reflexivity.
      * intros d Hd. destruct (Ein d Hd) as [Hin|Hq]; [|right; exact Hq].
        assert (Hin' : In d (mk_rawdev (qname name q)
                               (Some (mk_idxd (uint8 q) (q * IDXD_PORTAL_SIZE)
                                        (max_batches idxd))) :: rawdevs w)).
        { destruct (Z.land _ _ =? 1); exact Hin. }
        destruct Hin' as [<- | Hin']; [right; exists q; reflexivity | left; exact Hin'].
    + inversion E. unfold registers_queues_of.
      destruct (q =? 0); destruct (Z.land _ _ =? 1); wsimpl;
        (repeat split; intros d Hd; left; exact Hd).
Qed.

(** Initialization never touches the registry or the answers of the
    environment. *)
Lemma init_keeps_registry (idxd : idxd_rawdev) (w w' : world) (x : Z * idxd_rawdev) :
  init_pci_device h idxd w = Ret x w' ->
  rawdevs w' = rawdevs w /\ create_ret w' = create_ret w /\ release_ret w' = release_ret w.
Proof.
  intro E. destruct x as [r i'].
  destruct (malloc_ok w) eqn:Hm.
  2:{ rewrite (init_no_memory h idxd w Hm) in E. inversion E. repeat split. }
  assert (Hbad : forall w2, init_pci_device h idxd w = Ret (-1, idxd) w2 ->
            Z.land (uint32 (gensts w)) (GENSTS_DEV_STATE_MASK h) <> 0 \/
            Z.land (uint32 (cmdstatus w (status_reads w))) (CMDSTATUS_ACTIVE_MASK h) <> 0 ->
            rawdevs w2 = rawdevs w /\ create_ret w2 = create_ret w /\
            release_ret w2 = release_ret w).
  { intros w2 E2 Hb. unfold init_pci_device in E2.
    unfold bind at 1 in E2. unfold malloc_pci in E2. rewrite Hm in E2. cbn [negb] in E2.
    unfold bind at 1 in E2. unfold rte_spinlock_init, modify in E2.
    unfold bind at 1 in E2. unfold gets at 1 in E2. wsimpl_in E2.
    destruct (Z.eqb_spec (Z.land (uint32 (gensts w)) (GENSTS_DEV_STATE_MASK h)) 0) as [Hs|Hs];
      cbn [negb] in E2.
    - unfold bind at 1 in E2. unfold read_cmdstatus in E2. wsimpl_in E2.
      destruct (Z.eqb_spec (Z.land (uint32 (cmdstatus w (status_reads w)))
                                   (CMDSTATUS_ACTIVE_MASK h)) 0) as [Ha|Ha]; cbn [negb] in E2.
      + exfalso. destruct Hb as [Hb|Hb]; [exact (Hb Hs) | exact (Hb Ha)].
      + inversion E2. repeat split.
    - inversion E2. repeat split. }
  destruct (Z.eq_dec (Z.land (uint32 (gensts w)) (GENSTS_DEV_STATE_MASK h)) 0) as [Hs|Hs].
  2:{ destruct (init_not_idle h idxd w) as (w2 & E2 & _); [left; exact Hs|].
      pose proof (Hbad w2 E2 (or_introl Hs)) as Hx.
      rewrite E2 in E. inversion E. subst. exact Hx. }
  destruct (Z.eq_dec (Z.land (uint32 (cmdstatus w (status_reads w)))
                             (CMDSTATUS_ACTIVE_MASK h)) 0) as [Ha|Ha].
  2:{ destruct (init_not_idle h idxd w) as (w2 & E2 & _); [right; exact Ha|].
      pose proof (Hbad w2 E2 (or_intror Ha)) as Hx.
      rewrite E2 in E. inversion E. subst. exact Hx. }
  destruct (init_validated_inv h _ _ _ _ _ Hm Hs Ha E) as (w2 & e & w3 & E1 & E3 & Hr).
  pose proof (keeps_configure _ _ _ _ _ _ _ _ _ _ E1) as P1.
  pose proof (keeps_command _ _ _ _ _ _ E3) as P2.
  pose proof (same_process_trans _ _ _ P1 P2) as P.
  unfold same_process in P. wsimpl_in P.
  destruct P as (_ & _ & Pc & Prel & _ & _ & _ & _ & _ & _ & Pr).
  destruct Hr as [(_ & _ & ->) | (_ & _ & ->)]; wsimpl; repeat split; assumption.
Qed.

End ProbeMore.

(** X9: probe of an idle device (at least one and at most 64 groups after
    clamping, between 1 and 64 queues) whose enable command completes with
    error field 0 and whose handles can all be created returns 0 and
    registers one handle per reported queue, queue [j] under the name
    [name-qj] with queue index [j], portal offset [j * 16384] and
    [max_batches = depth / queues], each with its rings; the control structure
    stays allocated, the lock is released, and the only messages logged are
    those for queues that read enabled. *)
Theorem probe_registers_every_queue
    (h : ioat_spec) (name : string) (w : world) (k : nat) :
  malloc_ok w = true ->
  Z.land (uint32 (gensts w)) (GENSTS_DEV_STATE_MASK h) = 0 ->
  Z.land (uint32 (cmdstatus w (status_reads w))) (CMDSTATUS_ACTIVE_MASK h) = 0 ->
  1 <= cap_clamped w <= 64 ->
  1 <= cap_queues w <= 64 ->
  (k < 999)%nat ->
  completes_with h w (S (status_reads w)) k 0 ->
  (forall j, 0 <= j < cap_queues w -> create_ret w (qname name j) = 0) ->
  exists w',
    idxd_rawdev_probe_pci h name w = Ret 0 w' /\
    rawdevs w' =
      created_handles name (cap_depth w / cap_queues w) 0 (Z.to_nat (cap_queues w))
      ++ rawdevs w /\
    heap w' = created_rings name 0 (Z.to_nat (cap_queues w)) ++ PciCommon :: heap w /\
    log w' = enabled_anomalies h w' 0 (Z.to_nat (cap_queues w)) ++ log w /\
    lk w' = false.
Proof.
  intros Hm Hs Ha Hc Hn Hk Hd Hok.
  assert (Hq : cmd_target h idxd_zero (idxd_enable_dev h)
               = Some (if wq_command h (idxd_enable_dev h) then Z.shiftl 1 0 else 0)).
  { apply (cmd_target_small h idxd_zero). cbn. lia. }
  destruct (init_completes h idxd_zero w _ 0 k Hm Hs Ha Hq Hc Hn Hk Hd)
    as (w1 & L & Hl & Hlk & Hh & Hr & Hcr & _).
  cbn [Z.eqb] in L, Hl.
  unfold idxd_rawdev_probe_pci. unfold bind. unfold idxd_zero in L. rewrite L.
  replace (cap_queues w <? 0) with false by (symmetry; apply Z.ltb_ge; lia).
  assert (Hu : uint8 (cap_queues w) = cap_queues w) by (apply uint_small; lia).
  rewrite Hu.
  match goal with |- context [probe_queues h name ?n 0 ?i w1] =>
    destruct (probe_queues_succeeds h name (cap_depth w / cap_queues w) n 0 i w1)
      as (w' & Lp & R & H & Lg & Q & _ & K)
  end; [reflexivity | |].
  { intros j Hj. cbn [Nat.add]. rewrite Hcr. apply Hok. lia. }
  exists w'. split; [exact Lp|].
  split; [rewrite R, Hr; reflexivity|].
  split; [rewrite H, Hh; reflexivity|].
  split; [|rewrite K; exact Hlk].
  rewrite Lg, Hl. f_equal. unfold enabled_anomalies, wq_reads_enabled. rewrite Q. reflexivity.
Qed.

(** The example device when every handle can be created. *)
Lemma probe_registers_every_queue_witness :
  exists w',
    idxd_rawdev_probe_pci spr_spec spr_name spr_device = Ret 0 w' /\
    rawdevs w' = created_handles spr_name 16 0 8 ++ [] /\
    heap w' = created_rings spr_name 0 8 ++ [PciCommon] /\
    log w' = enabled_anomalies spr_spec w' 0 8 ++ [] /\
    lk w' = false.
Proof.
  apply (probe_registers_every_queue spr_spec spr_name spr_device 0).
  - reflexivity.
  - reflexivity.
  - reflexivity.
  - vm_compute. split; discriminate.
  - vm_compute. split; discriminate.
  - lia.
  - split; [intros j Hj; lia | split; reflexivity].
  - intros j Hj. reflexivity.
Defined.

(** X10: probe reads any non-negative result [r] of initialization as a
    queue count: when the handles of the queues below [(uint8_t) r] can all be
    created, it creates them and returns 0.  A queue whose state field reads
    enabled is logged and its handle is created all the same; the loop writes
    no register. *)
Theorem probe_after_init
    (h : ioat_spec) (name : string) (w w1 : world) (r : Z) (idxd1 : idxd_rawdev) :
  init_pci_device h idxd_zero w = Ret (r, idxd1) w1 ->
  0 <= r ->
  (forall j, 0 <= j < uint8 r -> create_ret w (qname name j) = 0) ->
  exists w',
    idxd_rawdev_probe_pci h name w = Ret 0 w' /\
    rawdevs w' = created_handles name (max_batches idxd1) 0 (Z.to_nat (uint8 r)) ++ rawdevs w /\
    log w' = enabled_anomalies h w1 0 (Z.to_nat (uint8 r)) ++ log w1 /\
    writes w' = writes w1 /\
    live PciCommon w' = true.
Proof.
  intros E Hr Hok.
  destruct (init_keeps_registry h _ _ _ _ E) as (Pr & Pc & _).
  destruct (init_nonneg h _ _ _ _ _ E Hr) as (P & _).
  unfold same_process in P. wsimpl_in P.
  destruct P as (_ & _ & _ & _ & _ & _ & _ & _ & _ & Ph & _).
  unfold idxd_rawdev_probe_pci. unfold bind. unfold idxd_zero in E. rewrite E.
  replace (r <? 0) with false by (symmetry; apply Z.ltb_ge; lia).
  destruct (probe_queues_succeeds h name (max_batches idxd1) (Z.to_nat (uint8 r)) 0 idxd1 w1)
    as (w' & Lp & R & H & Lg & _ & W & _); [reflexivity | |].
  { intros j Hj. cbn [Nat.add]. rewrite Pc. apply Hok. lia. }
  exists w'. split; [exact Lp|]. split; [rewrite R, Pr; reflexivity|].
  split; [exact Lg|]. split; [exact W|].
  unfold live. rewrite H, Ph, existsb_app. cbn [existsb resource_eqb].
  apply orb_true_r.
Qed.

(** The example device when the enable command completes with error 3:
    three handles are created. *)
Lemma probe_after_init_witness :
  exists w',
    idxd_rawdev_probe_pci spr_spec spr_name enable_error_device = Ret 0 w' /\
    rawdevs w' = created_handles spr_name 16 0 3 ++ [] /\
    log w' = enabled_anomalies spr_spec
               (world_after (init_pci_device spr_spec idxd_zero enable_error_device)
                  enable_error_device) 0 3
             ++ [ERR_enabling 3] /\
    writes w' = writes (world_after (init_pci_device spr_spec idxd_zero enable_error_device)
                          enable_error_device) /\
    live PciCommon w' = true.
Proof.
  apply (probe_after_init spr_spec spr_name enable_error_device
           (world_after (init_pci_device spr_spec idxd_zero enable_error_device)
              enable_error_device)
           3 (mk_idxd 0 0 16)).
  - vm_compute. reflexivity.
  - lia.
  - intros j Hj. reflexivity.
Defined.

(** X11: when the allocation fails, the device is not idle or a command is
    in flight, probe logs the failure of initialization on top of its cause,
    returns -1, creates no handle and writes no register. *)
Theorem probe_fails_with_init
    (h : ioat_spec) (name : string) (w : world) :
  malloc_ok w = false \/
  Z.land (uint32 (gensts w)) (GENSTS_DEV_STATE_MASK h) <> 0 \/
  Z.land (uint32 (cmdstatus w (status_reads w))) (CMDSTATUS_ACTIVE_MASK h) <> 0 ->
  exists w' cause,
    idxd_rawdev_probe_pci h name w = Ret (-1) w' /\
    log w' = ERR_init_hw :: cause :: log w /\
    (cause = ERR_alloc \/ cause = ERR_not_disabled \/ cause = ERR_cmd_in_progress) /\
    rawdevs w' = rawdevs w /\
    writes w' = writes w.
Proof.
  intro Hbad.
  assert (Hinit : exists w1 cause,
            init_pci_device h idxd_zero w = Ret (-1, idxd_zero) w1 /\
            log w1 = cause :: log w /\
            (cause = ERR_alloc \/ cause = ERR_not_disabled \/ cause = ERR_cmd_in_progress) /\
            writes w1 = writes w).
  { destruct (malloc_ok w) eqn:Hm.
    - destruct Hbad as [Hx|Hbad]; [discriminate|].
      destruct (init_not_idle h idxd_zero w Hbad) as (w1 & E & Hw & _ & _ & _ & Hl).
      destruct (Hl Hm) as (_ & [Hlog|Hlog]).
      + exists w1, ERR_not_disabled. repeat split; auto.
      + exists w1, ERR_cmd_in_progress. repeat split; auto.
    - exists (set_log (ERR_alloc :: log w) w), ERR_alloc.
      split; [apply init_no_memory; exact Hm|]. repeat split; auto. }
  destruct Hinit as (w1 & cause & E & Hl & Hc & Hw).
  destruct (init_keeps_registry h _ _ _ _ E) as (Pr & _).
  unfold idxd_rawdev_probe_pci. unfold bind at 1. unfold idxd_zero in E. rewrite E.
  cbn [Z.ltb Z.compare].
  eexists _, cause. split; [reflexivity|]. wsimpl.
  rewrite Hl. repeat split; assumption.
Qed.

(** The example device when [malloc] fails. *)
Lemma probe_fails_with_init_witness :
  exists w' cause,
    idxd_rawdev_probe_pci spr_spec spr_name (without_memory spr_device) = Ret (-1) w' /\
    log w' = ERR_init_hw :: cause :: [] /\
    (cause = ERR_alloc \/ cause = ERR_not_disabled \/ cause = ERR_cmd_in_progress) /\
    rawdevs w' = [] /\
    writes w' = [].
Proof.
  apply (probe_fails_with_init spr_spec spr_name (without_memory spr_device)).
  left. reflexivity.
Defined.

(** ** Removal after probe, and removal twice *)

Lemma append_eq_self (a b : string) : (a ++ b)%string = a -> b = EmptyString.
Proof.
  induction a as [|c a IH]; cbn [append]; intro E.
  - exact E.
  - inversion E. apply IH. assumption.
Qed.

(** A queue name is never the device name itself. *)
Lemma qname_neq (name : string) (q : Z) : qname name q <> name.
Proof.
  unfold qname. intro E. apply append_eq_self in E. cbn [append] in E. discriminate.
Qed.

Lemma find_all_false {A} (f : A -> bool) (l : list A) :
  (forall x, In x l -> f x = false) -> find f l = None.
Proof.
  induction l as [|x l IH]; intro Hf; [reflexivity|].
  cbn [find]. rewrite (Hf x (or_introl eq_refl)). apply IH.
  intros y Hy. apply Hf. right. exact Hy.
Qed.

Lemma find_cleared (name : string) (l : list rte_rawdev) (rdev : rte_rawdev) :
  find (fun d => String.eqb (dev_name d) name) l = Some rdev ->
  find (fun d => String.eqb (dev_name d) name)
       (map (fun d => if String.eqb (dev_name d) name
                      then mk_rawdev (dev_name d) None else d) l)
  = Some (mk_rawdev (dev_name rdev) None).
Proof.
  induction l as [|d l IH]; [discriminate|].
  cbn [find map]. destruct (String.eqb (dev_name d) name) eqn:E.
  - intro Hd. inversion Hd. subst. cbn [find dev_name]. rewrite E. reflexivity.
  - cbn [find]. rewrite E. exact IH.
Qed.

(** X12: the handles are registered as [name-qN] while removal looks up the
    bare device name: after any probe of [name] that returned, on a registry
    that held no device of that name before, removal of [name] finds no
    handle, logs the invalid name and returns -EINVAL; it issues no command,
    frees nothing and leaves every handle registered. *)
Theorem remove_after_probe_finds_no_handle
    (h : ioat_spec) (name : string) (w w' : world) (r : Z) :
  idxd_rawdev_probe_pci h name w = Ret r w' ->
  rte_rawdev_pmd_get_named_dev name w = None ->
  idxd_rawdev_remove_pci h name w' =
    Ret (- EINVAL) (set_log (ERR_bad_name name :: log w') w').
Proof.
  intros E Hnone.
  assert (Hreg : registers_queues_of name w w').
  { unfold idxd_rawdev_probe_pci in E.
    destruct (bind_ret_inv _ _ _ _ _ E) as ([r0 i1] & w1 & E1 & E2).
    destruct (init_keeps_registry h _ _ _ _ E1) as (Pr & Pc & Prel).
    destruct (r0 <? 0).
    - unfold bind, IOAT_PMD_ERR, modify, ret in E2. inversion E2.
      unfold registers_queues_of. wsimpl. rewrite Pr, Pc, Prel.
      repeat split. intros d Hd. left. exact Hd.
    - apply probe_queues_registry in E2. unfold registers_queues_of in *.
      destruct E2 as (Ec & Er & Ein). rewrite Ec, Er, Pc, Prel.
      repeat split. intros d Hd. rewrite <- Pr. apply Ein. exact Hd. }
  assert (Hf : rte_rawdev_pmd_get_named_dev name w' = None).
  { unfold rte_rawdev_pmd_get_named_dev in *. apply find_all_false.
    intros d Hd. destruct Hreg as (_ & _ & Hin).
    destruct (Hin d Hd) as [Hold | (q & Hq)].
    - exact (find_none _ _ Hnone d Hold).
    - rewrite Hq. apply String.eqb_neq. apply qname_neq. }
  unfold idxd_rawdev_remove_pci, idxd_rawdev_destroy.
  unfold bind at 1. unfold gets at 1. rewrite Hf. reflexivity.
Qed.

(** The example device, probed with success and then removed. *)
Lemma remove_after_probe_finds_no_handle_witness :
  idxd_rawdev_remove_pci spr_spec spr_name
    (world_after (idxd_rawdev_probe_pci spr_spec spr_name spr_device) spr_device)
  = Ret (-22)
      (set_log (ERR_bad_name spr_name
                  :: log (world_after (idxd_rawdev_probe_pci spr_spec spr_name spr_device)
                            spr_device))
         (world_after (idxd_rawdev_probe_pci spr_spec spr_name spr_device) spr_device)).
Proof.
  apply (remove_after_probe_finds_no_handle spr_spec spr_name spr_device _ 0).
  - vm_compute. reflexivity.
  - reflexivity.
Defined.

(** X13: a second removal of a handle after one that returned 0.  When the
    release of the registration succeeded the handle is gone and the second
    removal returns -EINVAL; when it failed (the first removal returns 0 all
    the same) the handle is still registered with its private data cleared,
    and the second removal dereferences that NULL pointer: the check of
    [dev_private] comes only after the disable command has used it. *)
Theorem destroy_twice
    (h : ioat_spec) (name : string) (w w' : world) :
  idxd_rawdev_destroy h (Some name) w = Ret 0 w' ->
  (release_ret w name = 0 ->
   idxd_rawdev_destroy h (Some name) w' =
     Ret (- EINVAL) (set_log (ERR_bad_name name :: log w') w')) /\
  (release_ret w name <> 0 ->
   idxd_rawdev_destroy h (Some name) w' = Fault NullPointer).
Proof.
  intro E. unfold idxd_rawdev_destroy in E.
  unfold bind at 1 in E. unfold gets at 1 in E.
  destruct (rte_rawdev_pmd_get_named_dev name w) as [rdev|] eqn:Hf.
  2:{ unfold bind, IOAT_PMD_ERR, modify, ret in E. inversion E. }
  pose proof (found_name name w rdev Hf) as Hn.
  destruct (dev_private rdev) as [idxd|] eqn:Hp; [|discriminate].
  cbn [lift] in E. unfold bind at 1 in E. unfold ret at 1 in E.
  destruct (bind_ret_inv _ _ _ _ _ E) as (r & w1 & E1 & E2).
  pose proof (keeps_command h idxd _ _ _ _ E1) as P.
  unfold same_process in P. destruct P as (_ & _ & _ & Prel & _ & _ & _ & _ & _ & _ & Pr).
  cbv zeta in E2. rewrite Hn in E2.
  destruct (Z.eqb_spec (uint8 r) 0) as [Hz|Hz]; cbn [negb] in E2.
  2:{ unfold bind, IOAT_PMD_ERR, modify, ret in E2. inversion E2. contradiction. }
  unfold clear_dev_private, free, rte_rawdev_pmd_release in E2.
  unfold bind, modify, gets, ret in E2. cbv beta in E2. wsimpl_in E2.
  rewrite Prel in E2.
  unfold rte_rawdev_pmd_get_named_dev in Hf. rewrite <- Pr in Hf.
  split.
  - intro Hrel. rewrite Hrel in E2. cbn [Z.eqb] in E2. inversion E2.
    unfold idxd_rawdev_destroy. unfold bind at 1. unfold gets at 1.
    unfold rte_rawdev_pmd_get_named_dev. wsimpl.
    rewrite find_filter_name. reflexivity.
  - intro Hrel. destruct (Z.eqb_spec (release_ret w name) 0) as [|_]; [contradiction|].
    inversion E2.
    unfold idxd_rawdev_destroy. unfold bind at 1. unfold gets at 1.
    unfold rte_rawdev_pmd_get_named_dev. wsimpl.
    rewrite (find_cleared name _ rdev Hf). reflexivity.
Qed.

(** A running device whose disable command succeeds while the release of
    the registration fails with -16. *)
Lemma destroy_twice_witness :
  (-16 = 0 ->
   idxd_rawdev_destroy spr_spec (Some (qname spr_name 0))
     (world_after (idxd_rawdev_destroy spr_spec (Some (qname spr_name 0))
                     (with_release_ret (fun _ => -16) (running_device (fun _ => 0))))
        (running_device (fun _ => 0)))
   = Ret (-22)
       (set_log
          (ERR_bad_name (qname spr_name 0)
             :: log (world_after
                       (idxd_rawdev_destroy spr_spec (Some (qname spr_name 0))
                          (with_release_ret (fun _ => -16) (running_device (fun _ => 0))))
                       (running_device (fun _ => 0))))
          (world_after (idxd_rawdev_destroy spr_spec (Some (qname spr_name 0))
                          (with_release_ret (fun _ => -16) (running_device (fun _ => 0))))
             (running_device (fun _ => 0))))) /\
  (-16 <> 0 ->
   idxd_rawdev_destroy spr_spec (Some (qname spr_name 0))
     (world_after (idxd_rawdev_destroy spr_spec (Some (qname spr_name 0))
                     (with_release_ret (fun _ => -16) (running_device (fun _ => 0))))
        (running_device (fun _ => 0)))
   = Fault NullPointer).
Proof.
  apply (destroy_twice spr_spec (qname spr_name 0)
           (with_release_ret (fun _ => -16) (running_device (fun _ => 0)))).
  vm_compute. reflexivity.
Defined.

(** ** What removal leaves alone *)

Lemma existsb_filter_other (a b : resource) (l : list resource) :
  (forall x, resource_eqb a x = true -> resource_eqb b x = false) ->
  existsb (resource_eqb a) (filter (fun x => negb (resource_eqb b x)) l)
  = existsb (resource_eqb a) l.
Proof.
  intro Hab. induction l as [|x l IH]; [reflexivity|].
  cbn [filter existsb]. destruct (resource_eqb b x) eqn:Eb; cbn [negb].
  - destruct (resource_eqb a x) eqn:Ea.
    + rewrite (Hab x Ea) in Eb. discriminate.
    + cbn [orb]. exact IH.
  - cbn [existsb]. rewrite IH. reflexivity.
Qed.

Lemma resource_eqb_other_name (mk : string -> resource) (other name : string) (b : resource) :
  (mk = BatchRing \/ mk = HdlRing \/ mk = Memzone) ->
  (b = BatchRing name \/ b = HdlRing name \/ b = Memzone name) ->
  other <> name ->
  forall x, resource_eqb (mk other) x = true -> resource_eqb b x = false.
Proof.
  intros Hmk Hb Hne x Hx.
  assert (Hs : forall y, String.eqb other y = true -> String.eqb name y = false).
  { intros y Hy. apply String.eqb_eq in Hy. subst y. apply String.eqb_neq.
    intro E. apply Hne. symmetry. exact E. }
  destruct Hmk as [-> | [-> | ->]]; destruct Hb as [-> | [-> | ->]];
    destruct x; cbn [resource_eqb] in *; try reflexivity; try discriminate;
    apply Hs; exact Hx.
Qed.

Lemma find_cleared_other (name other : string) (l : list rte_rawdev) :
  other <> name ->
  find (fun d => String.eqb (dev_name d) other)
       (map (fun d => if String.eqb (dev_name d) name
                      then mk_rawdev (dev_name d) None else d) l)
  = find (fun d => String.eqb (dev_name d) other) l.
Proof.
  intro Hne. induction l as [|d l IH]; [reflexivity|].
  cbn [map find]. destruct (String.eqb (dev_name d) name) eqn:E.
  - cbn [dev_name]. apply String.eqb_eq in E.
    destruct (String.eqb_spec (dev_name d) other) as [Eo|_].
    + exfalso. apply Hne. rewrite <- Eo. exact E.
    + exact IH.
  - destruct (String.eqb (dev_name d) other); [reflexivity | exact IH].
Qed.

Lemma find_filter_other (name other : string) (l : list rte_rawdev) :
  other <> name ->
  find (fun d => String.eqb (dev_name d) other)
       (filter (fun d => negb (String.eqb (dev_name d) name)) l)
  = find (fun d => String.eqb (dev_name d) other) l.
Proof.
  intro Hne. induction l as [|d l IH]; [reflexivity|].
  cbn [filter find]. destruct (String.eqb_spec (dev_name d) name) as [E|E]; cbn [negb].
  - destruct (String.eqb_spec (dev_name d) other) as [Eo|_].
    + exfalso. apply Hne. rewrite <- Eo. exact E.
    + exact IH.
  - cbn [find]. destruct (String.eqb (dev_name d) other); [reflexivity | exact IH].
Qed.

(** X14: removal of the handle [name], whatever it returns, never frees the
    structure shared by the queues of the device (the [pci] allocation of
    initialization stays allocated), and leaves every handle of another name
    and that handle's rings and memzone as they were. *)
Theorem destroy_leaves_the_rest
    (h : ioat_spec) (name : string) (w w' : world) (r : Z) :
  idxd_rawdev_destroy h (Some name) w = Ret r w' ->
  live PciCommon w' = live PciCommon w /\
  forall other, other <> name ->
    rte_rawdev_pmd_get_named_dev other w' = rte_rawdev_pmd_get_named_dev other w /\
    live (BatchRing other) w' = live (BatchRing other) w /\
    live (HdlRing other) w' = live (HdlRing other) w /\
    live (Memzone other) w' = live (Memzone other) w.
Proof.
  intro E. unfold idxd_rawdev_destroy in E.
  unfold bind at 1 in E. unfold gets at 1 in E.
  destruct (rte_rawdev_pmd_get_named_dev name w) as [rdev|] eqn:Hf.
  2:{ unfold bind, IOAT_PMD_ERR, modify, ret in E. inversion E.
      unfold live, rte_rawdev_pmd_get_named_dev. wsimpl.
      split; [reflexivity | intros; repeat split]. }
  pose proof (found_name name w rdev Hf) as Hn.
  destruct (dev_private rdev) as [idxd|] eqn:Hp; [|discriminate].
  cbn [lift] in E. unfold bind at 1 in E. unfold ret at 1 in E.
  destruct (bind_ret_inv _ _ _ _ _ E) as (r1 & w1 & E1 & E2).
  pose proof (keeps_command h idxd _ _ _ _ E1) as P.
  unfold same_process in P.
  destruct P as (_ & _ & _ & Prel & _ & _ & _ & _ & _ & Ph & Pr).
  cbv zeta in E2. rewrite Hn in E2.
  destruct (Z.eqb_spec (uint8 r1) 0) as [Hz|Hz]; cbn [negb] in E2.
  2:{ unfold bind, IOAT_PMD_ERR, modify, ret in E2. inversion E2.
      unfold live, rte_rawdev_pmd_get_named_dev. wsimpl. rewrite Ph, Pr.
      split; [reflexivity | intros; repeat split]. }
  unfold clear_dev_private, free, rte_rawdev_pmd_release in E2.
  unfold bind, modify, gets, ret in E2. cbv beta in E2. wsimpl_in E2.
  assert (Hheap : heap w' =
            filter (fun x => negb (resource_eqb (Memzone name) x))
              (filter (fun x => negb (resource_eqb (HdlRing name) x))
                 (filter (fun x => negb (resource_eqb (BatchRing name) x)) (heap w)))).
  { rewrite <- Ph. destruct (release_ret w1 name =? 0); inversion E2; reflexivity. }
  split.
  - unfold live. rewrite Hheap.
    rewrite !existsb_filter_other; try reflexivity;
      intros x Hx; destruct x; cbn [resource_eqb] in *; try reflexivity; discriminate.
  - intros other Hne.
    split.
    + unfold rte_rawdev_pmd_get_named_dev. rewrite <- Pr.
      destruct (release_ret w1 name =? 0); inversion E2; wsimpl.
      * rewrite find_filter_other by exact Hne. apply find_cleared_other. exact Hne.
      * apply find_cleared_other. exact Hne.
    + unfold live. rewrite Hheap.
      repeat split;
        rewrite !existsb_filter_other; try reflexivity;
        apply (resource_eqb_other_name _ other name); auto.
Qed.

(** Removal of queue 0 of a running device whose disable command succeeds. *)
Lemma destroy_leaves_the_rest_witness :
  live PciCommon
    (world_after (idxd_rawdev_destroy spr_spec (Some (qname spr_name 0))
                    (running_device (fun _ => 0)))
       (running_device (fun _ => 0)))
  = live PciCommon (running_device (fun _ => 0)) /\
  forall other, other <> qname spr_name 0 ->
    rte_rawdev_pmd_get_named_dev other
      (world_after (idxd_rawdev_destroy spr_spec (Some (qname spr_name 0))
                      (running_device (fun _ => 0)))
         (running_device (fun _ => 0)))
    = rte_rawdev_pmd_get_named_dev other (running_device (fun _ => 0)) /\
    live (BatchRing other)
      (world_after (idxd_rawdev_destroy spr_spec (Some (qname spr_name 0))
                      (running_device (fun _ => 0)))
         (running_device (fun _ => 0)))
    = live (BatchRing other) (running_device (fun _ => 0)) /\
    live (HdlRing other)
      (world_after (idxd_rawdev_destroy spr_spec (Some (qname spr_name 0))
                      (running_device (fun _ => 0)))
         (running_device (fun _ => 0)))
    = live (HdlRing other) (running_device (fun _ => 0)) /\
    live (Memzone other)
      (world_after (idxd_rawdev_destroy spr_spec (Some (qname spr_name 0))
                      (running_device (fun _ => 0)))
         (running_device (fun _ => 0)))
    = live (Memzone other) (running_device (fun _ => 0)).
Proof.
  apply (destroy_leaves_the_rest spr_spec (qname spr_name 0)
           (running_device (fun _ => 0)) _ 0).
  vm_compute. reflexivity.
Defined.
